(** * Earliest-fit scheduling: [src/scheduler.ts] and the batch loop of
    [src/server.ts]

    The development embeds
    - the part of the ECMAScript [Date] object the scheduler uses
      (module [JsDate]),
    - [isWithinWorkingHours] and [findEarliestFitSlot] of [scheduler.ts]
      (module [Scheduler]),
    - the [for (const subtask of subtasks)] loop of the [schedule_tasks]
      tool of [server.ts], with its [Date] objects kept in an explicit
      store so that aliasing between the search cursor and the busy list
      is visible (module [Server]).

    Time values are integers (milliseconds since the epoch).  For the
    finder and the loop the local time zone is taken to be UTC without
    daylight saving, so that the local-time accessors of [Date] are the
    ECMAScript abstract operations applied to the time value itself.  The
    computation of the search window is also given for an arbitrary time
    zone, daylight saving included ([JsDate.Zone], [searchRangeStartIn],
    [searchRangeEndIn]). *)

From Stdlib Require Import ZArith QArith List Lia Bool String.
From Stdlib Require Import Sorting.Permutation Sorting.Sorted.
From stdpp Require Import base list.
Import ListNotations.

Local Open Scope Z_scope.

(* ===================================================================== *)
(** ** The [Date] operations used by the scheduler *)
(* ===================================================================== *)

Module JsDate.

Definition msPerMinute : Z := 60000.
Definition msPerHour : Z := 3600000.
Definition msPerDay : Z := 86400000.

(** ECMAScript [Day(t)] and [TimeWithinDay(t)]. *)
Definition Day (t : Z) : Z := t / msPerDay.
Definition TimeWithinDay (t : Z) : Z := t mod msPerDay.

(** [WeekDay(t)]: 0 is Sunday, 6 is Saturday; day 0 was a Thursday. *)
Definition getDay (t : Z) : Z := (Day t + 4) mod 7.

Definition getHours (t : Z) : Z := (t / msPerHour) mod 24.
Definition getMinutes (t : Z) : Z := (t / msPerMinute) mod 60.
Definition SecFromTime (t : Z) : Z := (t / 1000) mod 60.
Definition msFromTime (t : Z) : Z := t mod 1000.

(** Proleptic Gregorian calendar: a day number to year, month (1..12) and
    day of the month, and back.  The year runs from March so that the leap
    day is the last day of the cycle. *)
Definition civil_from_days (z : Z) : Z * Z * Z :=
  let z := z + 719468 in
  let era := z / 146097 in
  let doe := z - era * 146097 in
  let yoe := (doe - doe / 1460 + doe / 36524 - doe / 146096) / 365 in
  let doy := doe - (365 * yoe + yoe / 4 - yoe / 100) in
  let mp := (5 * doy + 2) / 153 in
  let d := doy - (153 * mp + 2) / 5 + 1 in
  let m := if mp <? 10 then mp + 3 else mp - 9 in
  (yoe + era * 400 + (if m <=? 2 then 1 else 0), m, d).

Definition days_from_civil (y m d : Z) : Z :=
  let y := y - (if m <=? 2 then 1 else 0) in
  let era := y / 400 in
  let yoe := y - era * 400 in
  let mp := if 2 <? m then m - 3 else m + 9 in
  let doy := (153 * mp + 2) / 5 + d - 1 in
  let doe := yoe * 365 + yoe / 4 - yoe / 100 + doy in
  era * 146097 + doe - 719468.

Definition YearFromTime (t : Z) : Z := fst (fst (civil_from_days (Day t))).
(** [MonthFromTime] is 0-based as in ECMAScript. *)
Definition MonthFromTime (t : Z) : Z := snd (fst (civil_from_days (Day t))) - 1.
Definition DateFromTime (t : Z) : Z := snd (civil_from_days (Day t)).

Definition getDate (t : Z) : Z := DateFromTime t.

(** The day number of the first of month [m] (1..12) of year [y], and of
    the month counted from January of year 0. *)
Definition monthStart (y m : Z) : Z := days_from_civil y m 1.
Definition monthStartAt (i : Z) : Z := monthStart (i / 12) (i mod 12 + 1).

Definition MakeTime (hour min sec ms : Z) : Z :=
  hour * msPerHour + min * msPerMinute + sec * 1000 + ms.

(** [MakeDay(year, month, date)]: the day number of the first of the month
    plus [date - 1]; [date] may fall outside the month. *)
Definition MakeDay (year month date : Z) : Z :=
  let ym := year + month / 12 in
  let mn := month mod 12 in
  days_from_civil ym (mn + 1) 1 + date - 1.

Definition MakeDate (day time : Z) : Z := day * msPerDay + time.

(** [d.setHours(hour, min, sec, ms)], [d.setDate(date)] and
    [d.setMinutes(min)] as functions from the old time value to the new. *)
Definition setHours (hour min sec ms : Z) (t : Z) : Z :=
  MakeDate (Day t) (MakeTime hour min sec ms).

Definition setDate (date : Z) (t : Z) : Z :=
  MakeDate (MakeDay (YearFromTime t) (MonthFromTime t) date) (TimeWithinDay t).

Definition setMinutes (min : Z) (t : Z) : Z :=
  MakeDate (Day t) (MakeTime (getHours t) min (SecFromTime t) (msFromTime t)).

(** A wall-clock instant: day number, hour and minute. *)
Definition at_ (day hour minute : Z) : Z :=
  day * msPerDay + hour * msPerHour + minute * msPerMinute.

(** *** Local time in a time zone

    A time zone gives the offset of local time from UTC, in milliseconds:
    [offsetAt] at an instant, [offsetOfLocal] for a local time value (where
    a local time is skipped or repeated by a change of the clocks, the
    offset the implementation picks for it).  [LocalTime] and [UTC] are
    the ECMAScript operations of these names, and [getDate], [setDate] and
    [setHours] of a [Date] are the operations above carried out on the
    local time value. *)
Record Zone : Type := { offsetAt : Z -> Z; offsetOfLocal : Z -> Z }.

Definition LocalTime (z : Zone) (t : Z) : Z := t + offsetAt z t.
Definition UTC (z : Zone) (l : Z) : Z := l - offsetOfLocal z l.

Definition getDateIn (z : Zone) (t : Z) : Z := getDate (LocalTime z t).

Definition setDateIn (z : Zone) (date : Z) (t : Z) : Z :=
  UTC z (setDate date (LocalTime z t)).

Definition setHoursIn (z : Zone) (hour min sec ms : Z) (t : Z) : Z :=
  UTC z (setHours hour min sec ms (LocalTime z t)).

(** The local time value [l], taken to the instant the zone assigns to it
    and read back, falls on the local day of [l].  It fails only where a
    change of the clocks skips [l] and the day boundary with it. *)
Definition keepsDay (z : Zone) (l : Z) : Prop :=
  Day (LocalTime z (UTC z l)) = Day l.

(** A zone whose clocks never change. *)
Definition fixedOffset (offset : Z) : Zone :=
  {| offsetAt := fun _ => offset; offsetOfLocal := fun _ => offset |}.

(** A zone whose clocks change once, at the instant [change], from the
    offset [before] to the offset [after]; a local time that the change
    skips or repeats is read with the offset [before]. *)
Definition oneChange (change before after : Z) : Zone :=
  {| offsetAt := fun t => if t <? change then before else after;
     offsetOfLocal :=
       fun l => if l <? change + Z.max before after then before else after |}.

End JsDate.

Import JsDate.

(* ===================================================================== *)
(** ** [scheduler.ts] *)
(* ===================================================================== *)

(** [findEarliestFitSlot] works on a [Date] of its own: it copies
    [searchStartTime] on entry and the [end] of a conflicting busy slot on
    a jump, and it writes to no [Date] it was given.  It is therefore a
    function of the time values of its arguments, and an interval is a pair
    of time values here. *)

Module Scheduler.

Record TimeInterval : Type := mkInterval { start : Z; end_ : Z }.

Definition WORK_DAY_START_HOUR : Z := 9.
Definition WORK_DAY_END_HOUR : Z := 17.
Definition BUFFER_MINUTES : Z := 15.

Definition isWithinWorkingHours (date startHour endHour : Z) : bool :=
  let day := getDay date in
  let hour := getHours date in
  (1 <=? day) && (day <=? 5) && (startHour <=? hour) && (hour <? endHour).

(** The block repeated at lines 62-69 and 77-80: reset the clock to
    [workStartHour]:00:00.000, then move by three days from a Friday, two
    from a Saturday and one otherwise. *)
Definition moveToNextWorkingDay (workStartHour : Z) (t : Z) : Z :=
  let t1 := setHours workStartHour 0 0 0 t in
  if getDay t1 =? 5 then setDate (getDate t1 + 3) t1
  else if getDay t1 =? 6 then setDate (getDate t1 + 2) t1
  else setDate (getDate t1 + 1) t1.

(** The condition of lines 73-75, on the trial start and the potential
    end. *)
Definition endsOutsideWorkingDay (currentTryTime potentialEndTime workEndHour : Z)
  : bool :=
  (workEndHour <? getHours potentialEndTime)
  || ((getHours potentialEndTime =? workEndHour) && (0 <? getMinutes potentialEndTime))
  || negb (getDate potentialEndTime =? getDate currentTryTime).

(** The test of line 89 for one busy slot. *)
Definition overlaps (busySlot : TimeInterval) (currentTryTime potentialEndTime : Z)
  : bool :=
  (start busySlot <? potentialEndTime) && (currentTryTime <? end_ busySlot).

(** The [for] loop of lines 87-95: the end of the first busy slot, in list
    order, that overlaps, if any. *)
Fixpoint firstConflict (busyTimes : list TimeInterval)
         (currentTryTime potentialEndTime : Z) : option Z :=
  match busyTimes with
  | [] => None
  | busySlot :: rest =>
      if overlaps busySlot currentTryTime potentialEndTime
      then Some (end_ busySlot)
      else firstConflict rest currentTryTime potentialEndTime
  end.

(** One execution of the body of the [while] loop. *)
Inductive Step : Type :=
| Return (r : option TimeInterval)
| Continue (currentTryTime : Z).

Section Finder.

Variables (durationMinutes : Z) (busyTimes : list TimeInterval).
Variables (workStartHour workEndHour bufferMinutes : Z).
Variable searchEndDate : Z.

Definition totalDurationMs : Z := (durationMinutes + bufferMinutes) * 60000.

Definition body (currentTryTime : Z) : Step :=
  let potentialEndTime := currentTryTime + totalDurationMs in
  if searchEndDate <? potentialEndTime then Return None
  else if negb (isWithinWorkingHours currentTryTime workStartHour workEndHour)
  then Continue (moveToNextWorkingDay workStartHour currentTryTime)
  else if endsOutsideWorkingDay currentTryTime potentialEndTime workEndHour
  then Continue (moveToNextWorkingDay workStartHour currentTryTime)
  else match firstConflict busyTimes currentTryTime potentialEndTime with
       | Some busyEnd => Continue busyEnd
       | None =>
           Return (Some {| start := currentTryTime;
                           end_ := currentTryTime + durationMinutes * 60000 |})
       end.

(** The [while (currentTryTime < searchEndDate)] loop.  [fuel] bounds the
    number of executions of the body; the result is [None] when the loop
    has not finished within that many, [Some r] when it has returned [r]
    ([r = None] is the source's [null]). *)
Fixpoint loop (fuel : nat) (currentTryTime : Z) : option (option TimeInterval) :=
  if currentTryTime <? searchEndDate then
    match fuel with
    | O => None
    | S fuel' =>
        match body currentTryTime with
        | Return r => Some r
        | Continue t => loop fuel' t
        end
    end
  else Some None.

End Finder.

(** The busy slots that end after [t]. *)
Fixpoint endingAfter (t : Z) (busyTimes : list TimeInterval) : nat :=
  match busyTimes with
  | [] => O
  | busySlot :: rest =>
      if t <? end_ busySlot then S (endingAfter t rest) else endingAfter t rest
  end.

(** The number of calendar days that meet the window
    [[searchStartTime, searchEndDate)]. *)
Definition calendarDays (searchStartTime searchEndDate : Z) : Z :=
  if searchStartTime <? searchEndDate
  then Day (searchEndDate - 1) - Day searchStartTime + 1
  else 0.

Definition findEarliestFitSlot_fuel (fuel : nat)
  (searchStartTime durationMinutes : Z) (busyTimes : list TimeInterval)
  (workStartHour workEndHour bufferMinutes searchEndDate : Z)
  : option (option TimeInterval) :=
  loop durationMinutes busyTimes workStartHour workEndHour bufferMinutes
       searchEndDate fuel searchStartTime.

(** [findEarliestFitSlot], run for as many iterations as there are busy
    slots plus calendar days in the window (shown below to be enough
    whenever [workStartHour] is not negative). *)
Definition findEarliestFitSlot
  (searchStartTime durationMinutes : Z) (busyTimes : list TimeInterval)
  (workStartHour workEndHour bufferMinutes searchEndDate : Z)
  : option (option TimeInterval) :=
  findEarliestFitSlot_fuel
    (length busyTimes + Z.to_nat (calendarDays searchStartTime searchEndDate))
    searchStartTime durationMinutes busyTimes
    workStartHour workEndHour bufferMinutes searchEndDate.

End Scheduler.

Import Scheduler.


(* ===================================================================== *)
(** ** [server.ts]: input schema and the scheduling loop *)
(* ===================================================================== *)

Module Server.

Definition SCHEDULING_START_OFFSET_DAYS : Z := 1.
Definition SCHEDULING_WINDOW_DAYS : Z := 7.
Definition SCHEDULING_WORK_DAY_START_HOUR : Z := 9.
Definition SCHEDULING_WORK_DAY_END_HOUR : Z := 17.
Definition SCHEDULING_BUFFER_MINUTES : Z := 15.

(** *** [SubtaskSchema] and [SubtaskListSchema] *)

(** The JSON values that matter to the schema; a number is a rational. *)
Inductive json : Type :=
| JString (s : string)
| JNumber (q : Q)
| JOther.

Record RawSubtask : Type :=
  { raw_subtask : json; raw_duration_minutes : json }.

Record Subtask : Type := { subtask : string; duration_minutes : Z }.

(** [z.number().int()]: the number must be an integer, nothing more. *)
Definition number_int (v : json) : option Z :=
  match v with
  | JNumber q =>
      if (Qden (Qred q) =? 1)%positive then Some (Qnum (Qred q)) else None
  | _ => None
  end.

Definition SubtaskSchema (r : RawSubtask) : option Subtask :=
  match raw_subtask r, number_int (raw_duration_minutes r) with
  | JString s, Some d => Some {| subtask := s; duration_minutes := d |}
  | _, _ => None
  end.

Fixpoint SubtaskListSchema (rs : list RawSubtask) : option (list Subtask) :=
  match rs with
  | [] => Some []
  | r :: rs' =>
      match SubtaskSchema r, SubtaskListSchema rs' with
      | Some s, Some ss => Some (s :: ss)
      | _, _ => None
      end
  end.

(** The JSON object [{subtask: label, duration_minutes: d}] for an integer
    [d]. *)
Definition rawSubtask (label : string) (d : Z) : RawSubtask :=
  {| raw_subtask := JString label; raw_duration_minutes := JNumber (inject_Z d) |}.

(** *** The store of [Date] objects

    A [Date] is a mutable object; two variables may hold the same one.
    The store lists the time values of the objects allocated so far and a
    reference is an index into it. *)

Definition ref : Type := nat.

Definition getTime (dates : list Z) (r : ref) : Z := default 0 (dates !! r).

(** [new Date(t)]. *)
Definition newDate (dates : list Z) (t : Z) : list Z * ref :=
  (dates ++ [t], length dates).

(** An element of [busyTimes]: an object holding two [Date]s. *)
Record BusySlot : Type := { bstart : ref; bend : ref }.

Definition busyInterval (dates : list Z) (b : BusySlot) : TimeInterval :=
  {| start := getTime dates (bstart b); end_ := getTime dates (bend b) |}.

(** [busyTimes.sort((a, b) => a.start.getTime() - b.start.getTime())]: a
    stable sort on the start time. *)
Fixpoint insertByStart (dates : list Z) (x : BusySlot) (l : list BusySlot)
  : list BusySlot :=
  match l with
  | [] => [x]
  | y :: l' =>
      if getTime dates (bstart x) <=? getTime dates (bstart y)
      then x :: y :: l'
      else y :: insertByStart dates x l'
  end.

Fixpoint sortByStart (dates : list Z) (l : list BusySlot) : list BusySlot :=
  match l with
  | [] => []
  | x :: l' => insertByStart dates x (sortByStart dates l')
  end.

(** *** The state of the loop *)

Record State : Type :=
  { dates : list Z;
    busyTimes : list BusySlot;
    nextAvailableStartTime : ref;
    scheduledEvents : list (string * option string);
    unscheduledSubtasks : list string;
    scheduledCount : nat }.

(** What one iteration did, kept beside the state for the statements
    below: the arguments it gave the finder and how it ended. *)
Inductive Outcome : Type :=
| Placed (slot : TimeInterval)
| CalendarError (slot : TimeInterval)
| NoSlot.

Record Iteration : Type :=
  { searchedFrom : Z; searchedDuration : Z; outcome : Outcome }.

Definition cursor (st : State) : Z :=
  getTime (dates st) (nextAvailableStartTime st).

Definition busyIntervals (st : State) : list TimeInterval :=
  map (busyInterval (dates st)) (busyTimes st).

(** Half-open overlap of two intervals, and an interval with the buffer
    appended. *)
Definition intervalsOverlap (a b : TimeInterval) : Prop :=
  start a < end_ b /\ start b < end_ a.

Definition withBuffer (x : TimeInterval) : TimeInterval :=
  {| start := start x; end_ := end_ x + SCHEDULING_BUFFER_MINUTES * 60000 |}.

(** The slots of the iterations that ended in a placement, in order. *)
Fixpoint placedSlots (its : list Iteration) : list TimeInterval :=
  match its with
  | [] => []
  | it :: rest =>
      match outcome it with
      | Placed slot => slot :: placedSlots rest
      | _ => placedSlots rest
      end
  end.

(** The slot of the latest iteration that ended in a placement, if any;
    [prev] is the latest placement before these iterations. *)
Definition latestPlaced (its : list Iteration) (prev : option TimeInterval)
  : option TimeInterval :=
  fold_left (fun acc it => match outcome it with Placed slot => Some slot | _ => acc end)
            its prev.

(** What the finder answered in an iteration. *)
Definition finderAnswer (it : Iteration) : option TimeInterval :=
  match outcome it with
  | Placed slot => Some slot
  | CalendarError slot => Some slot
  | NoSlot => None
  end.

(** The entries the loop appends to [scheduledEvents] (labels only) and to
    [unscheduledSubtasks], read off the requests and what each iteration
    did. *)
Fixpoint scheduledLabels (subtasks : list Subtask) (its : list Iteration)
  : list string :=
  match subtasks, its with
  | s :: ss, it :: its' =>
      match outcome it with
      | Placed _ => subtask s :: scheduledLabels ss its'
      | _ => scheduledLabels ss its'
      end
  | _, _ => []
  end.

Fixpoint unscheduledEntries (subtasks : list Subtask) (its : list Iteration)
  : list string :=
  match subtasks, its with
  | s :: ss, it :: its' =>
      match outcome it with
      | Placed _ => unscheduledEntries ss its'
      | CalendarError _ =>
          (subtask s ++ " (Calendar API error)")%string :: unscheduledEntries ss its'
      | NoSlot =>
          (subtask s ++ " (No slot found)")%string :: unscheduledEntries ss its'
      end
  | _, _ => []
  end.

(** The cursor is not the [end] of any busy slot. *)
Definition unaliased (st : State) : Prop :=
  forall b, In b (busyTimes st) -> bend b <> nextAvailableStartTime st.

(** [x] is a busy interval of the state held by [Date]s other than the
    cursor. *)
Definition frozen (st : State) (x : TimeInterval) : Prop :=
  exists b, In b (busyTimes st)
    /\ busyInterval (dates st) b = x
    /\ (bstart b < length (dates st))%nat
    /\ (bend b < length (dates st))%nat
    /\ bstart b <> nextAvailableStartTime st
    /\ bend b <> nextAvailableStartTime st.

(** Slot [a] is in the busy list with the cursor itself as its [end]. *)
Definition endsAtCursor (st : State) (a : TimeInterval) : Prop :=
  exists b, In b (busyTimes st)
    /\ getTime (dates st) (bstart b) = start a
    /\ bend b = nextAvailableStartTime st.

Definition sortedByStart (st : State) : Prop :=
  Sorted Z.le (map start (busyIntervals st)).

(** [x] is guarded by a busy slot of the state. *)
Definition covered (st : State) (x : TimeInterval) : Prop :=
  exists b, In b (busyTimes st)
    /\ getTime (dates st) (bstart b) = start x
    /\ end_ x <= getTime (dates st) (bend b).

(** Well-formed states.

    Every reference points into the store, and the cursor is never the
    [start] of a busy slot (it may be the [end] of one). *)
Definition wf (st : State) : Prop :=
  (nextAvailableStartTime st < length (dates st))%nat
  /\ forall b, In b (busyTimes st) ->
       (bstart b < length (dates st))%nat
       /\ (bend b < length (dates st))%nat
       /\ bstart b <> nextAvailableStartTime st.

(** The search window computed from the current time (lines 249-256), in
    a time zone [z]: [setDate], [getDate] and [setHours] work on the local
    time of the [Date]. *)
Definition searchRangeStartIn (z : Zone) (now : Z) : Z :=
  setHoursIn z SCHEDULING_WORK_DAY_START_HOUR 0 0 0
    (setDateIn z (getDateIn z now + SCHEDULING_START_OFFSET_DAYS) now).

Definition searchRangeEndIn (z : Zone) (now : Z) : Z :=
  let s := searchRangeStartIn z now in
  setHoursIn z SCHEDULING_WORK_DAY_END_HOUR 0 0 0
    (setDateIn z (getDateIn z s + SCHEDULING_WINDOW_DAYS) s).

(** The same window where local time is UTC, as in the finder and the
    loop ([searchRange_in_utc] below). *)
Definition searchRangeStart (now : Z) : Z :=
  setHours SCHEDULING_WORK_DAY_START_HOUR 0 0 0
    (setDate (getDate now + SCHEDULING_START_OFFSET_DAYS) now).

Definition searchRangeEnd (now : Z) : Z :=
  let s := searchRangeStart now in
  setHours SCHEDULING_WORK_DAY_END_HOUR 0 0 0
    (setDate (getDate s + SCHEDULING_WINDOW_DAYS) s).

(** The busy list built from the free/busy answer (lines 264-267): two
    fresh [Date]s per entry. *)
Fixpoint loadBusy (dates : list Z) (busy : list TimeInterval)
  : list Z * list BusySlot :=
  match busy with
  | [] => (dates, [])
  | b :: rest =>
      let '(d1, s) := newDate dates (start b) in
      let '(d2, e) := newDate d1 (end_ b) in
      let '(d3, bs) := loadBusy d2 rest in
      (d3, {| bstart := s; bend := e |} :: bs)
  end.

Definition initialState (rangeStart : Z) (initialBusy : list TimeInterval) : State :=
  let '(d1, bs) := loadBusy [] initialBusy in
  let '(d2, next) := newDate d1 rangeStart in
  {| dates := d2; busyTimes := bs; nextAvailableStartTime := next;
     scheduledEvents := []; unscheduledSubtasks := []; scheduledCount := O |}.

Section Loop.

(** [createCalendarEvent] is an external call.  Its answer to the call made
    for the [i]-th subtask is [Some url] when it returns ([url] may be
    [null]) and [None] when it throws. *)
Variable createCalendarEvent : nat -> string -> Z -> Z -> option (option string).

Variable rangeEnd : Z.

(** The body of [for (const subtask of subtasks)] (lines 271-304).  The
    result is [None] only if the finder did not finish.  The [Date]s of a
    returned slot are fresh objects; [slot.start] enters the store when it
    is pushed onto [busyTimes], and [busySlotEnd] is both pushed and
    assigned to [nextAvailableStartTime]. *)
Definition schedule_step (i : nat) (s : Subtask) (st : State)
  : option (State * Iteration) :=
  match findEarliestFitSlot (cursor st) (duration_minutes s) (busyIntervals st)
          SCHEDULING_WORK_DAY_START_HOUR SCHEDULING_WORK_DAY_END_HOUR
          SCHEDULING_BUFFER_MINUTES rangeEnd with
  | None => None
  | Some (Some slot) =>
      match createCalendarEvent i (subtask s) (start slot) (end_ slot) with
      | Some eventUrl =>
          let '(d1, slotStart) := newDate (dates st) (start slot) in
          let '(d2, busySlotEnd) :=
            newDate d1 (end_ slot + SCHEDULING_BUFFER_MINUTES * 60000) in
          Some ({| dates := d2;
                   busyTimes :=
                     sortByStart d2
                       (busyTimes st ++ [{| bstart := slotStart; bend := busySlotEnd |}]);
                   nextAvailableStartTime := busySlotEnd;
                   scheduledEvents := scheduledEvents st ++ [(subtask s, eventUrl)];
                   unscheduledSubtasks := unscheduledSubtasks st;
                   scheduledCount := S (scheduledCount st) |},
                {| searchedFrom := cursor st;
                   searchedDuration := duration_minutes s;
                   outcome := Placed slot |})
      | None =>
          let next := nextAvailableStartTime st in
          let t := getTime (dates st) next in
          Some ({| dates := <[next := setMinutes (getMinutes t + 1) t]> (dates st);
                   busyTimes := busyTimes st;
                   nextAvailableStartTime := next;
                   scheduledEvents := scheduledEvents st;
                   unscheduledSubtasks :=
                     unscheduledSubtasks st
                       ++ [(subtask s ++ " (Calendar API error)")%string];
                   scheduledCount := scheduledCount st |},
                {| searchedFrom := cursor st;
                   searchedDuration := duration_minutes s;
                   outcome := CalendarError slot |})
      end
  | Some None =>
      Some ({| dates := dates st;
               busyTimes := busyTimes st;
               nextAvailableStartTime := nextAvailableStartTime st;
               scheduledEvents := scheduledEvents st;
               unscheduledSubtasks :=
                 unscheduledSubtasks st ++ [(subtask s ++ " (No slot found)")%string];
               scheduledCount := scheduledCount st |},
            {| searchedFrom := cursor st;
               searchedDuration := duration_minutes s;
               outcome := NoSlot |})
  end.

(** The whole [for] loop, from the [i]-th subtask on. *)
Fixpoint schedule_loop (i : nat) (subtasks : list Subtask) (st : State)
  : option (State * list Iteration) :=
  match subtasks with
  | [] => Some (st, [])
  | s :: rest =>
      match schedule_step i s st with
      | None => None
      | Some (st1, it) =>
          match schedule_loop (S i) rest st1 with
          | None => None
          | Some (st2, its) => Some (st2, it :: its)
          end
      end
  end.

(** The finder call of an iteration, and the three ways the iteration can
    go, as relations between the state before and after. *)
Definition finderResult (s : Subtask) (st : State) : option (option TimeInterval) :=
  findEarliestFitSlot (cursor st) (duration_minutes s) (busyIntervals st)
    SCHEDULING_WORK_DAY_START_HOUR SCHEDULING_WORK_DAY_END_HOUR
    SCHEDULING_BUFFER_MINUTES rangeEnd.

(** The three ways an iteration can go. *)
Definition stepPlaced (i : nat) (s : Subtask) (st st' : State) (it : Iteration) : Prop :=
  exists slot eventUrl,
    finderResult s st = Some (Some slot)
    /\ createCalendarEvent i (subtask s) (start slot) (end_ slot) = Some eventUrl
    /\ outcome it = Placed slot
    /\ dates st' = (dates st ++ [start slot])
                     ++ [end_ slot + SCHEDULING_BUFFER_MINUTES * 60000]
    /\ busyTimes st' =
         sortByStart (dates st')
           (busyTimes st ++ [{| bstart := length (dates st);
                               bend := length (dates st ++ [start slot]) |}])
    /\ nextAvailableStartTime st' = length (dates st ++ [start slot])
    /\ scheduledEvents st' = scheduledEvents st ++ [(subtask s, eventUrl)]
    /\ unscheduledSubtasks st' = unscheduledSubtasks st.

Definition stepCalendarError (i : nat) (s : Subtask) (st st' : State) (it : Iteration) : Prop :=
  exists slot,
    finderResult s st = Some (Some slot)
    /\ createCalendarEvent i (subtask s) (start slot) (end_ slot) = None
    /\ outcome it = CalendarError slot
    /\ dates st' = <[nextAvailableStartTime st := cursor st + msPerMinute]> (dates st)
    /\ busyTimes st' = busyTimes st
    /\ nextAvailableStartTime st' = nextAvailableStartTime st
    /\ scheduledEvents st' = scheduledEvents st
    /\ unscheduledSubtasks st' =
         unscheduledSubtasks st ++ [(subtask s ++ " (Calendar API error)")%string].

Definition stepNoSlot (s : Subtask) (st st' : State) (it : Iteration) : Prop :=
  finderResult s st = Some None
  /\ outcome it = NoSlot
  /\ dates st' = dates st
  /\ busyTimes st' = busyTimes st
  /\ nextAvailableStartTime st' = nextAvailableStartTime st
  /\ scheduledEvents st' = scheduledEvents st
  /\ unscheduledSubtasks st' =
       unscheduledSubtasks st ++ [(subtask s ++ " (No slot found)")%string].

End Loop.

(** The scheduling part of the [schedule_tasks] tool: the request is first
    checked against the schema, then the loop runs over the window that
    starts the day after [now]. *)
Definition schedule_tasks
  (createCalendarEvent : nat -> string -> Z -> Z -> option (option string))
  (now : Z) (initialBusy : list TimeInterval) (request : list RawSubtask)
  : option (option (State * list Iteration)) :=
  match SubtaskListSchema request with
  | None => None
  | Some subtasks =>
      Some (schedule_loop createCalendarEvent (searchRangeEnd now) O subtasks
              (initialState (searchRangeStart now) initialBusy))
  end.

End Server.

Import Server.

(* ===================================================================== *)
(** ** Concrete instants and collaborators used in the examples *)
(* ===================================================================== *)

Module Examples.

(** Monday 1970-01-05 as a day number; the following days follow. *)
Definition monday : Z := 4.
Definition tuesday : Z := 5.

(** The Monday a week later, 17:00: a search horizon as [server.ts] sets
    it for a search that starts on [monday] 09:00. *)
Definition horizon : Z := at_ (monday + 7) 17 0.

(** A calendar that accepts every event, and one that refuses the event of
    the second subtask only. *)
Definition commitsSucceed : nat -> string -> Z -> Z -> option (option string) :=
  fun _ _ _ _ => Some (Some "https://calendar/event"%string).

Definition secondCommitFails : nat -> string -> Z -> Z -> option (option string) :=
  fun i _ _ _ =>
    match i with
    | 1%nat => None
    | _ => Some (Some "https://calendar/event"%string)
    end.

Definition task (label : string) (d : Z) : Subtask :=
  {| subtask := label; duration_minutes := d |}.

(** A zone five hours behind UTC whose clocks go forward by one hour on
    the Sunday after [monday] at 02:00 local time (07:00 UTC). *)
Definition clocksGoForward : Zone :=
  oneChange (at_ (monday + 6) 7 0) (- 5 * msPerHour) (- 4 * msPerHour).

End Examples.

Import Examples.

(* ===================================================================== *)
(** ** Facts about the [Date] operations *)
(* ===================================================================== *)

Module JsDateFacts.

Lemma civil_cycle_bounds (doe : Z) :
  0 <= doe < 146097 ->
  let yoe := (doe - doe / 1460 + doe / 36524 - doe / 146096) / 365 in
  let doy := doe - (365 * yoe + yoe / 4 - yoe / 100) in
  0 <= yoe <= 399 /\ 0 <= doy <= 365.
Proof.
  intros H yoe doy. subst doy yoe.
  Z.to_euclidean_division_equations; lia.
Qed.

(** The month of [civil_from_days] lies in 1..12. *)
Lemma civil_month_range (n : Z) :
  1 <= snd (fst (civil_from_days n)) <= 12.
Proof.
  unfold civil_from_days. cbv zeta. cbn [fst snd].
  set (z := n + 719468).
  set (doe := z - z / 146097 * 146097).
  assert (Hdoe : 0 <= doe < 146097)
    by (subst doe; Z.to_euclidean_division_equations; lia).
  destruct (civil_cycle_bounds doe Hdoe) as [_ Hdoy]. cbv zeta in Hdoy.
  set (yoe := (doe - doe / 1460 + doe / 36524 - doe / 146096) / 365) in *.
  set (doy := doe - (365 * yoe + yoe / 4 - yoe / 100)) in *.
  assert (Hmp : 0 <= (5 * doy + 2) / 153 <= 11)
    by (Z.to_euclidean_division_equations; lia).
  destruct ((5 * doy + 2) / 153 <? 10) eqn:E;
    [apply Z.ltb_lt in E | apply Z.ltb_ge in E]; lia.
Qed.

(** Going to the calendar and back: the day number of the first of the
    month of day [n], plus its day of the month less one, is [n]. *)
Lemma days_from_civil_first (n : Z) :
  let '(y, m, d) := civil_from_days n in
  days_from_civil y m 1 + d - 1 = n.
Proof.
  unfold civil_from_days. cbv zeta.
  set (z := n + 719468).
  set (era := z / 146097).
  set (doe := z - era * 146097).
  assert (Hdoe : 0 <= doe < 146097)
    by (subst doe era; Z.to_euclidean_division_equations; lia).
  destruct (civil_cycle_bounds doe Hdoe) as [Hyoe Hdoy]. cbv zeta in Hyoe, Hdoy.
  set (yoe := (doe - doe / 1460 + doe / 36524 - doe / 146096) / 365) in *.
  set (doy := doe - (365 * yoe + yoe / 4 - yoe / 100)) in *.
  set (mp := (5 * doy + 2) / 153).
  assert (Hmp : 0 <= mp <= 11)
    by (subst mp; Z.to_euclidean_division_equations; lia).
  set (m := if mp <? 10 then mp + 3 else mp - 9).
  unfold days_from_civil. cbv zeta.
  assert (Hm : (if 2 <? m then m - 3 else m + 9) = mp).
  { subst m. destruct (mp <? 10) eqn:E;
      [apply Z.ltb_lt in E | apply Z.ltb_ge in E].
    - destruct (2 <? mp + 3) eqn:E2;
        [lia | apply Z.ltb_ge in E2; lia].
    - destruct (2 <? mp - 9) eqn:E2;
        [apply Z.ltb_lt in E2; lia | lia]. }
  rewrite Hm.
  replace (yoe + era * 400 + (if m <=? 2 then 1 else 0)
           - (if m <=? 2 then 1 else 0)) with (yoe + era * 400) by lia.
  assert (Hera : (yoe + era * 400) / 400 = era)
    by (Z.to_euclidean_division_equations; lia).
  rewrite Hera.
  replace (yoe + era * 400 - era * 400) with yoe by lia.
  subst doy doe z. lia.
Qed.

Lemma MakeDay_own_month (t date : Z) :
  MakeDay (YearFromTime t) (MonthFromTime t) date
  = Day t + (date - DateFromTime t).
Proof.
  unfold MakeDay, YearFromTime, MonthFromTime, DateFromTime. cbv zeta.
  pose proof (civil_month_range (Day t)) as Hm.
  pose proof (days_from_civil_first (Day t)) as Hr.
  destruct (civil_from_days (Day t)) as [[y m] d]. cbn [fst snd] in *.
  replace ((m - 1) / 12) with 0 by (Z.to_euclidean_division_equations; lia).
  replace ((m - 1) mod 12 + 1) with m by (Z.to_euclidean_division_equations; lia).
  rewrite Z.add_0_r. lia.
Qed.

(** [d.setDate(d.getDate() + k)] moves the date by [k] whole days. *)
Lemma setDate_getDate_plus (k t : Z) :
  setDate (getDate t + k) t = t + k * msPerDay.
Proof.
  unfold setDate, getDate, MakeDate. rewrite MakeDay_own_month.
  unfold Day, TimeWithinDay, msPerDay.
  Z.to_euclidean_division_equations; lia.
Qed.

(** [d.setMinutes(d.getMinutes() + 1)] moves the date by one minute. *)
Lemma setMinutes_getMinutes_succ (t : Z) :
  setMinutes (getMinutes t + 1) t = t + msPerMinute.
Proof.
  unfold setMinutes, MakeDate, MakeTime, getMinutes, getHours, SecFromTime,
    msFromTime, Day, msPerDay, msPerHour, msPerMinute.
  Z.to_euclidean_division_equations; lia.
Qed.

Lemma setHours_start (h t : Z) :
  setHours h 0 0 0 t = Day t * msPerDay + h * msPerHour.
Proof. unfold setHours, MakeDate, MakeTime. lia. Qed.

Lemma Day_plus_days (k t : Z) : Day (t + k * msPerDay) = Day t + k.
Proof. unfold Day, msPerDay. Z.to_euclidean_division_equations; lia. Qed.

Lemma Day_le (t u : Z) : t <= u -> Day t <= Day u.
Proof. unfold Day, msPerDay. intros. Z.to_euclidean_division_equations; lia. Qed.

Lemma Day_upper (t : Z) : t < (Day t + 1) * msPerDay.
Proof. unfold Day, msPerDay. Z.to_euclidean_division_equations; lia. Qed.

Lemma getDate_same_day (t u : Z) : Day t = Day u -> getDate t = getDate u.
Proof. unfold getDate, DateFromTime. now intros ->. Qed.

Lemma getHours_at (d h m : Z) :
  0 <= h < 24 -> 0 <= m < 60 -> getHours (at_ d h m) = h.
Proof.
  intros Hh Hm. unfold getHours, at_, msPerDay, msPerHour, msPerMinute.
  Z.to_euclidean_division_equations; lia.
Qed.

Lemma getMinutes_at (d h m : Z) :
  0 <= m < 60 -> getMinutes (at_ d h m) = m.
Proof.
  intros Hm. unfold getMinutes, at_, msPerDay, msPerHour, msPerMinute.
  Z.to_euclidean_division_equations; lia.
Qed.

Lemma Day_at (d h m : Z) :
  0 <= h < 24 -> 0 <= m < 60 -> Day (at_ d h m) = d.
Proof.
  intros Hh Hm. unfold Day, at_, msPerDay, msPerHour, msPerMinute.
  Z.to_euclidean_division_equations; lia.
Qed.

(** *** The day of the month over less than four weeks

    The first days of two different months are at least 28 days apart, so
    two different days less than 28 days apart cannot have the same day of
    the month. *)

Lemma monthStart_next (y m : Z) :
  1 <= m <= 12 ->
  monthStart y m + 28 <= monthStart (if m =? 12 then y + 1 else y)
                                    (if m =? 12 then 1 else m + 1).
Proof.
  intros Hm. unfold monthStart, days_from_civil. cbv zeta.
  assert (Hcases : m = 1 \/ m = 2 \/ m = 3 \/ m = 4 \/ m = 5 \/ m = 6 \/ m = 7
                   \/ m = 8 \/ m = 9 \/ m = 10 \/ m = 11 \/ m = 12) by lia.
  repeat (destruct Hcases as [-> | Hcases]); [.. | subst m];
    repeat match goal with
      | |- context [?a <=? ?b] =>
          let v := eval vm_compute in (a <=? b) in change (a <=? b) with v
      | |- context [?a <? ?b] =>
          let v := eval vm_compute in (a <? b) in change (a <? b) with v
      | |- context [?a =? ?b] =>
          let v := eval vm_compute in (a =? b) in change (a =? b) with v
      end;
    cbv iota; Z.to_euclidean_division_equations; lia.
Qed.

Lemma monthStartAt_step (i : Z) : monthStartAt i + 28 <= monthStartAt (i + 1).
Proof.
  unfold monthStartAt.
  pose proof (monthStart_next (i / 12) (i mod 12 + 1)
                ltac:(Z.to_euclidean_division_equations; lia)) as H.
  destruct (i mod 12 + 1 =? 12) eqn:E;
    [apply Z.eqb_eq in E | apply Z.eqb_neq in E].
  - replace ((i + 1) / 12) with (i / 12 + 1)
      by (Z.to_euclidean_division_equations; lia).
    replace ((i + 1) mod 12 + 1) with 1
      by (Z.to_euclidean_division_equations; lia).
    exact H.
  - replace ((i + 1) / 12) with (i / 12)
      by (Z.to_euclidean_division_equations; lia).
    replace ((i + 1) mod 12 + 1) with (i mod 12 + 1 + 1)
      by (Z.to_euclidean_division_equations; lia).
    exact H.
Qed.

Lemma monthStartAt_mono (i : Z) (k : nat) :
  monthStartAt i + 28 * Z.of_nat k <= monthStartAt (i + Z.of_nat k).
Proof.
  induction k as [|k IH].
  - change (Z.of_nat 0) with 0. replace (i + 0) with i by lia. lia.
  - pose proof (monthStartAt_step (i + Z.of_nat k)).
    replace (i + Z.of_nat (S k)) with (i + Z.of_nat k + 1) by lia. lia.
Qed.

Lemma monthStartAt_lt (i j : Z) : i < j -> monthStartAt i + 28 <= monthStartAt j.
Proof.
  intros H. pose proof (monthStartAt_mono i (Z.to_nat (j - i))) as Hm.
  rewrite Z2Nat.id in Hm by lia. replace (i + (j - i)) with j in Hm by lia. lia.
Qed.

Lemma monthStartAt_civil (n : Z) :
  let '(y, m, d) := civil_from_days n in
  monthStartAt (12 * y + (m - 1)) + d - 1 = n.
Proof.
  pose proof (civil_month_range n) as Hm.
  pose proof (days_from_civil_first n) as Hr.
  destruct (civil_from_days n) as [[y m] d]. cbn [fst snd] in Hm.
  unfold monthStartAt, monthStart.
  replace ((12 * y + (m - 1)) / 12) with y
    by (Z.to_euclidean_division_equations; lia).
  replace ((12 * y + (m - 1)) mod 12 + 1) with m
    by (Z.to_euclidean_division_equations; lia).
  exact Hr.
Qed.

Lemma getDate_differs_within_four_weeks (t u : Z) :
  Day t < Day u <= Day t + 27 -> getDate u <> getDate t.
Proof.
  intros H. unfold getDate, DateFromTime.
  pose proof (monthStartAt_civil (Day t)) as Ht.
  pose proof (monthStartAt_civil (Day u)) as Hu.
  destruct (civil_from_days (Day t)) as [[y m] d].
  destruct (civil_from_days (Day u)) as [[y' m'] d']. cbn [snd].
  intros ->.
  destruct (Z.lt_total (12 * y + (m - 1)) (12 * y' + (m' - 1))) as [Hlt | [Heq | Hgt]].
  - pose proof (monthStartAt_lt _ _ Hlt). lia.
  - rewrite Heq in Ht. lia.
  - pose proof (monthStartAt_lt _ _ Hgt). lia.
Qed.

End JsDateFacts.

Import JsDateFacts.

(* ===================================================================== *)
(** ** The slot finder: progress, termination and what a result means *)
(* ===================================================================== *)

Module SchedulerFacts.

(** *** Moving to the next working day *)

Lemma moveToNextWorkingDay_shape (sh t : Z) :
  exists k, 1 <= k <= 3 /\
    moveToNextWorkingDay sh t = (Day t + k) * msPerDay + sh * msPerHour.
Proof.
  unfold moveToNextWorkingDay. cbv zeta.
  destruct (getDay (setHours sh 0 0 0 t) =? 5);
    [exists 3 | destruct (getDay (setHours sh 0 0 0 t) =? 6); [exists 2 | exists 1]];
    (split; [lia |]); rewrite setDate_getDate_plus, setHours_start; lia.
Qed.

Lemma moveToNextWorkingDay_later (sh t : Z) :
  0 <= sh -> t < moveToNextWorkingDay sh t.
Proof.
  intros Hsh. destruct (moveToNextWorkingDay_shape sh t) as (k & Hk & ->).
  pose proof (Day_upper t). unfold msPerDay, msPerHour in *. nia.
Qed.

Lemma moveToNextWorkingDay_next_day (sh t : Z) :
  0 <= sh -> Day t + 1 <= Day (moveToNextWorkingDay sh t).
Proof.
  intros Hsh. destruct (moveToNextWorkingDay_shape sh t) as (k & Hk & ->).
  unfold Day at 2. unfold msPerDay, msPerHour.
  Z.to_euclidean_division_equations; nia.
Qed.

(** The jump lands on a day Monday to Friday. *)
Lemma moveToNextWorkingDay_weekday (sh t : Z) :
  1 <= getDay (moveToNextWorkingDay sh t) <= 5.
Proof.
  unfold moveToNextWorkingDay. cbv zeta.
  set (t1 := setHours sh 0 0 0 t).
  assert (Hk : forall k, getDay (setDate (getDate t1 + k) t1) = (getDay t1 + k) mod 7).
  { intros k. rewrite setDate_getDate_plus. unfold getDay.
    rewrite Day_plus_days. Z.to_euclidean_division_equations; lia. }
  assert (Hr : 0 <= getDay t1 <= 6)
    by (unfold getDay; Z.to_euclidean_division_equations; lia).
  destruct (getDay t1 =? 5) eqn:E5;
    [apply Z.eqb_eq in E5 | apply Z.eqb_neq in E5];
    [rewrite Hk, E5; vm_compute; split; discriminate |].
  destruct (getDay t1 =? 6) eqn:E6;
    [apply Z.eqb_eq in E6 | apply Z.eqb_neq in E6];
    [rewrite Hk, E6; vm_compute; split; discriminate |].
  rewrite Hk. Z.to_euclidean_division_equations; lia.
Qed.

(** *** The conflict scan *)

Lemma firstConflict_Some busy cur pe e :
  firstConflict busy cur pe = Some e ->
  exists b, In b busy /\ overlaps b cur pe = true /\ end_ b = e.
Proof.
  induction busy as [|b busy IH]; cbn; [discriminate |].
  destruct (overlaps b cur pe) eqn:E.
  - intros [= <-]. exists b. auto.
  - intros H. destruct (IH H) as (b' & Hin & Hb'). exists b'. auto.
Qed.

Lemma firstConflict_None busy cur pe :
  firstConflict busy cur pe = None <->
  (forall b, In b busy -> overlaps b cur pe = false).
Proof.
  induction busy as [|b busy IH]; cbn.
  - split; [intros _ b [] | reflexivity].
  - destruct (overlaps b cur pe) eqn:E.
    + split; [discriminate |]. intros H. specialize (H b (or_introl eq_refl)).
      congruence.
    + rewrite IH. split.
      * intros H b' [<- | Hin]; auto.
      * intros H b' Hin. apply H. now right.
Qed.

Lemma overlaps_spec b cur pe :
  overlaps b cur pe = true <-> start b < pe /\ cur < end_ b.
Proof.
  unfold overlaps. rewrite andb_true_iff, !Z.ltb_lt. reflexivity.
Qed.

(** The scan stops at the first busy slot, in list order, that overlaps. *)
Lemma firstConflict_first pre b post cur pe :
  (forall x, In x pre -> overlaps x cur pe = false) ->
  overlaps b cur pe = true ->
  firstConflict (pre ++ b :: post) cur pe = Some (end_ b).
Proof.
  intros Hpre Hb. induction pre as [|x pre IH]; cbn.
  - now rewrite Hb.
  - rewrite (Hpre x (or_introl eq_refl)). apply IH.
    intros y Hy. apply Hpre. now right.
Qed.

Lemma firstConflict_later busy cur pe e :
  firstConflict busy cur pe = Some e -> cur < e.
Proof.
  intros H. destruct (firstConflict_Some _ _ _ _ H) as (b & _ & Hov & <-).
  apply overlaps_spec in Hov. lia.
Qed.

(** *** Measures for termination *)

Lemma endingAfter_le_length t busy : (endingAfter t busy <= length busy)%nat.
Proof.
  induction busy as [|b busy IH]; cbn; [lia |].
  destruct (t <? end_ b); lia.
Qed.

Lemma endingAfter_mono t t' busy :
  t <= t' -> (endingAfter t' busy <= endingAfter t busy)%nat.
Proof.
  intros Hle. induction busy as [|b busy IH]; cbn; [lia |].
  destruct (t' <? end_ b) eqn:E'; destruct (t <? end_ b) eqn:E;
    try apply Z.ltb_lt in E'; try apply Z.ltb_ge in E; lia.
Qed.

Lemma endingAfter_conflict t b busy :
  In b busy -> t < end_ b ->
  (endingAfter (end_ b) busy < endingAfter t busy)%nat.
Proof.
  intros Hin Hlt. induction busy as [|b' busy IH]; [destruct Hin |].
  cbn. destruct Hin as [-> | Hin].
  - rewrite Z.ltb_irrefl. rewrite (proj2 (Z.ltb_lt _ _) Hlt).
    pose proof (endingAfter_mono t (end_ b) busy). lia.
  - specialize (IH Hin).
    destruct (end_ b <? end_ b') eqn:E'; destruct (t <? end_ b') eqn:E;
      try apply Z.ltb_lt in E'; try apply Z.ltb_ge in E; lia.
Qed.

Lemma calendarDays_nonneg t deadline : 0 <= calendarDays t deadline.
Proof.
  unfold calendarDays. destruct (t <? deadline) eqn:E; [| lia].
  apply Z.ltb_lt in E. pose proof (Day_le t (deadline - 1)). lia.
Qed.

Lemma calendarDays_pos t deadline : t < deadline -> 1 <= calendarDays t deadline.
Proof.
  intros H. unfold calendarDays. apply Z.ltb_lt in H as E. rewrite E.
  pose proof (Day_le t (deadline - 1)). lia.
Qed.

Lemma calendarDays_mono t t' deadline :
  t <= t' -> calendarDays t' deadline <= calendarDays t deadline.
Proof.
  intros Hle. unfold calendarDays.
  destruct (t' <? deadline) eqn:E'; destruct (t <? deadline) eqn:E;
    try apply Z.ltb_lt in E'; try apply Z.ltb_lt in E;
    try apply Z.ltb_ge in E; try lia.
  - pose proof (Day_le t t'). lia.
  - pose proof (Day_le t (deadline - 1)). lia.
Qed.

Lemma calendarDays_next_day t t' deadline :
  t < deadline -> Day t + 1 <= Day t' ->
  calendarDays t' deadline <= calendarDays t deadline - 1.
Proof.
  intros Hlt Hday. unfold calendarDays. apply Z.ltb_lt in Hlt as E. rewrite E.
  destruct (t' <? deadline) eqn:E'; [lia |].
  pose proof (Day_le t (deadline - 1)). lia.
Qed.

(** *** One iteration *)

Section Body.

Variables (dur : Z) (busy : list TimeInterval) (sh eh buf deadline : Z).

Local Abbreviation body := (body dur busy sh eh buf deadline).
Local Abbreviation loop := (loop dur busy sh eh buf deadline).
Local Abbreviation total := (totalDurationMs dur buf).

(** What the body has checked when it returns a slot. *)
Lemma body_found cur slot :
  body cur = Return (Some slot) ->
  slot = {| start := cur; end_ := cur + dur * 60000 |}
  /\ cur + total <= deadline
  /\ isWithinWorkingHours cur sh eh = true
  /\ endsOutsideWorkingDay cur (cur + total) eh = false
  /\ firstConflict busy cur (cur + total) = None.
Proof.
  unfold Scheduler.body. cbv zeta.
  destruct (deadline <? cur + total) eqn:E1; [discriminate |].
  destruct (isWithinWorkingHours cur sh eh) eqn:E2; cbn [negb]; [| discriminate].
  destruct (endsOutsideWorkingDay cur (cur + total) eh) eqn:E3; [discriminate |].
  destruct (firstConflict busy cur (cur + total)) eqn:E4; [discriminate |].
  intros [= <-]. apply Z.ltb_ge in E1. auto.
Qed.

(** Every jump of the body is one of the two kinds. *)
Lemma body_Continue cur t :
  body cur = Continue t ->
  t = moveToNextWorkingDay sh cur
  \/ firstConflict busy cur (cur + total) = Some t.
Proof.
  unfold Scheduler.body. cbv zeta.
  destruct (deadline <? cur + total); [discriminate |].
  destruct (negb (isWithinWorkingHours cur sh eh)); [intros [= <-]; auto |].
  destruct (endsOutsideWorkingDay cur (cur + total) eh); [intros [= <-]; auto |].
  destruct (firstConflict busy cur (cur + total)) eqn:E4; [| discriminate].
  intros [= <-]. auto.
Qed.

Lemma body_progress cur t :
  0 <= sh -> body cur = Continue t -> cur < t.
Proof.
  intros Hsh H. destruct (body_Continue _ _ H) as [-> | Hc].
  - now apply moveToNextWorkingDay_later.
  - eapply firstConflict_later; eauto.
Qed.

(** *** The loop *)

(** A trial that passes the deadline and working-hours tests is settled
    by the scan of the busy slots. *)
Lemma body_scan cur :
  cur + total <= deadline ->
  isWithinWorkingHours cur sh eh = true ->
  endsOutsideWorkingDay cur (cur + total) eh = false ->
  body cur
  = match firstConflict busy cur (cur + total) with
    | Some busyEnd => Continue busyEnd
    | None => Return (Some {| start := cur; end_ := cur + dur * 60000 |})
    end.
Proof.
  intros Hpe Hw He. unfold Scheduler.body. cbv zeta.
  rewrite (proj2 (Z.ltb_ge _ _) Hpe), Hw, He. reflexivity.
Qed.

(** One turn of the [while] loop. *)
Lemma loop_S fuel cur :
  cur < deadline ->
  loop (S fuel) cur
  = match body cur with
    | Return r => Some r
    | Continue t => loop fuel t
    end.
Proof.
  intros H. apply Z.ltb_lt in H. cbn [Scheduler.loop]. now rewrite H.
Qed.

Lemma loop_fuel_mono fuel fuel' cur r :
  loop fuel cur = Some r -> (fuel <= fuel')%nat -> loop fuel' cur = Some r.
Proof.
  revert fuel' cur. induction fuel as [|fuel IH]; intros fuel' cur H Hle.
  - cbn in H. destruct fuel'; cbn; destruct (cur <? deadline); congruence.
  - destruct fuel' as [|fuel']; [lia |]. cbn in H |- *.
    destruct (cur <? deadline); [| assumption].
    destruct (body cur); [assumption |]. apply IH; [assumption | lia].
Qed.

(** A returned slot was returned by the body at some trial time reached
    from the start of the search. *)
Lemma loop_found fuel cur slot :
  loop fuel cur = Some (Some slot) ->
  exists t, t < deadline /\ body t = Return (Some slot)
            /\ (0 <= sh -> cur <= t).
Proof.
  revert cur. induction fuel as [|fuel IH]; intros cur; cbn.
  - destruct (cur <? deadline); discriminate.
  - destruct (cur <? deadline) eqn:E; [| discriminate].
    apply Z.ltb_lt in E.
    destruct (body cur) as [r | t'] eqn:Eb.
    + intros [= ->]. exists cur. repeat split; auto; lia.
    + intros H. destruct (IH _ H) as (t & Ht & Hb & Hle).
      exists t. repeat split; auto. intros Hsh.
      pose proof (body_progress _ _ Hsh Eb). specialize (Hle Hsh). lia.
Qed.

(** A search that starts outside working hours, be it before opening on a
    working day, never returns a slot of the day it starts on. *)
Lemma outside_hours_skips_the_day fuel cur slot :
  0 <= sh ->
  isWithinWorkingHours cur sh eh = false ->
  loop fuel cur = Some (Some slot) ->
  Day cur + 1 <= Day (start slot).
Proof.
  intros Hsh Hout. destruct fuel as [|fuel]; cbn [Scheduler.loop].
  - destruct (cur <? deadline); discriminate.
  - destruct (cur <? deadline); [| discriminate].
    unfold Scheduler.body. cbv zeta. rewrite Hout. cbn [negb].
    destruct (deadline <? cur + total); [discriminate |].
    intros H. destruct (loop_found _ _ _ H) as (t & _ & Hb & Hle).
    destruct (body_found _ _ Hb) as (-> & _). cbn [start].
    pose proof (moveToNextWorkingDay_next_day sh cur Hsh).
    pose proof (Day_le _ _ (Hle Hsh)). lia.
Qed.

(** *** Tasks longer than the working day

    When duration plus buffer exceeds the span of the working day and is
    at most 27 days, the buffered end of a trial that starts within
    working hours is either later on the same day, past [endHour]:00, or on
    one of the next 27 days, whose day of the month differs. *)

Lemma overlong_ends_outside cur :
  0 <= sh ->
  isWithinWorkingHours cur sh eh = true ->
  (eh - sh) * 60 < dur + buf -> dur + buf <= 27 * 24 * 60 ->
  endsOutsideWorkingDay cur (cur + total) eh = true.
Proof.
  intros Hsh Hwork Hlong Hshort.
  unfold isWithinWorkingHours in Hwork. cbv zeta in Hwork.
  rewrite !andb_true_iff in Hwork. destruct Hwork as [[_ H1] H2].
  apply Z.leb_le in H1. apply Z.ltb_lt in H2.
  unfold endsOutsideWorkingDay, totalDurationMs.
  set (pe := cur + (dur + buf) * 60000).
  assert (Hday : Day cur <= Day pe <= Day cur + 27).
  { subst pe. unfold Day, msPerDay. Z.to_euclidean_division_equations; lia. }
  destruct (Z.eq_dec (Day pe) (Day cur)) as [Hsame | Hdiff].
  - assert (Hh : eh < getHours pe \/ (getHours pe = eh /\ 0 < getMinutes pe)).
    { subst pe. unfold Day, getHours, getMinutes, msPerDay, msPerHour, msPerMinute in *.
      Z.to_euclidean_division_equations; lia. }
    destruct Hh as [Hh | [Hh Hm]].
    + apply Z.ltb_lt in Hh. now rewrite Hh.
    + apply Z.eqb_eq in Hh. apply Z.ltb_lt in Hm. rewrite Hh, Hm.
      now rewrite orb_true_r.
  - pose proof (getDate_differs_within_four_weeks cur pe ltac:(lia)) as Hd.
    apply Z.eqb_neq in Hd. rewrite Hd. now rewrite orb_true_r.
Qed.

Lemma overlong_not_placed fuel cur :
  0 <= sh ->
  (eh - sh) * 60 < dur + buf -> dur + buf <= 27 * 24 * 60 ->
  forall slot, loop fuel cur <> Some (Some slot).
Proof.
  intros Hsh Hlong Hshort slot H.
  destruct (loop_found _ _ _ H) as (t & _ & Hb & _).
  destruct (body_found _ _ Hb) as (_ & _ & Hwork & Hend & _).
  rewrite (overlong_ends_outside t Hsh Hwork Hlong Hshort) in Hend. discriminate.
Qed.

(** *** Termination

    Two quantities bound the work left at trial time [cur]: the busy
    slots that end after [cur] (a conflict jump lands on the end of one of
    them, after which it can never conflict again) and the calendar days
    of the window not yet left behind (a working-day jump lands on a later
    day). *)

Lemma loop_terminates fuel cur :
  0 <= sh ->
  (endingAfter cur busy + Z.to_nat (calendarDays cur deadline) <= fuel)%nat ->
  exists r, loop fuel cur = Some r.
Proof.
  intros Hsh. revert cur. induction fuel as [|fuel IH]; intros cur Hfuel.
  - cbn. destruct (cur <? deadline) eqn:E; [| eauto].
    apply Z.ltb_lt in E. pose proof (calendarDays_pos _ _ E). lia.
  - cbn. destruct (cur <? deadline) eqn:E; [| eauto].
    apply Z.ltb_lt in E. pose proof (calendarDays_pos _ _ E) as Hpos.
    destruct (body cur) as [r | t] eqn:Eb; [eauto |].
    apply IH.
    destruct (body_Continue _ _ Eb) as [-> | Hc].
    + pose proof (moveToNextWorkingDay_later sh cur Hsh) as Hlt.
      pose proof (moveToNextWorkingDay_next_day sh cur Hsh) as Hday.
      pose proof (calendarDays_next_day _ _ deadline E Hday).
      pose proof (calendarDays_nonneg (moveToNextWorkingDay sh cur) deadline).
      pose proof (endingAfter_mono cur (moveToNextWorkingDay sh cur) busy).
      lia.
    + destruct (firstConflict_Some _ _ _ _ Hc) as (b & Hin & Hov & <-).
      apply overlaps_spec in Hov.
      pose proof (endingAfter_conflict cur b busy Hin).
      pose proof (calendarDays_mono cur (end_ b) deadline).
      pose proof (calendarDays_nonneg (end_ b) deadline).
      lia.
Qed.

End Body.

End SchedulerFacts.

(* ===================================================================== *)
(** ** The scheduling loop: store, cursor and busy list *)
(* ===================================================================== *)

Module ServerFacts.

Import SchedulerFacts.

(** *** The schema *)

Lemma Qred_inject_Z (z : Z) : Qred (inject_Z z) = inject_Z z.
Proof.
  unfold Qred, inject_Z.
  pose proof (Z.ggcd_gcd z 1) as Hg.
  pose proof (Z.ggcd_correct_divisors z 1) as Hd.
  destruct (Z.ggcd z 1) as [g [aa bb]]. cbn in *.
  rewrite Z.gcd_1_r in Hg. subst g. destruct Hd as [Ha Hb].
  rewrite Ha, Z.mul_1_l. replace bb with 1 by lia. reflexivity.
Qed.

Lemma number_int_integer (z : Z) : number_int (JNumber (inject_Z z)) = Some z.
Proof. unfold number_int. rewrite Qred_inject_Z. reflexivity. Qed.

Lemma SubtaskSchema_integer (label : string) (d : Z) :
  SubtaskSchema (rawSubtask label d) = Some {| subtask := label; duration_minutes := d |}.
Proof.
  unfold SubtaskSchema, rawSubtask. cbn [raw_subtask raw_duration_minutes].
  now rewrite number_int_integer.
Qed.

Lemma SubtaskListSchema_integers (requests : list (string * Z)) :
  SubtaskListSchema (map (fun r => rawSubtask (fst r) (snd r)) requests)
  = Some (map (fun r => {| subtask := fst r; duration_minutes := snd r |}) requests).
Proof.
  induction requests as [|r rest IH]; cbn [map SubtaskListSchema]; [reflexivity |].
  now rewrite SubtaskSchema_integer, IH.
Qed.

(** *** The store *)

Lemma getTime_app_old dates more r :
  (r < length dates)%nat -> getTime (dates ++ more) r = getTime dates r.
Proof. intros H. unfold getTime. now rewrite lookup_app_l. Qed.

Lemma getTime_app_new dates t more :
  getTime (dates ++ t :: more) (length dates) = t.
Proof. unfold getTime. now rewrite list_lookup_middle. Qed.

Lemma getTime_insert_eq dates r t :
  (r < length dates)%nat -> getTime (<[r := t]> dates) r = t.
Proof. intros H. unfold getTime. now rewrite list_lookup_insert_eq. Qed.

Lemma getTime_insert_ne dates r r' t :
  r <> r' -> getTime (<[r := t]> dates) r' = getTime dates r'.
Proof. intros H. unfold getTime. now rewrite list_lookup_insert_ne. Qed.

(** *** The sort: a permutation, ordered by start *)

Lemma insertByStart_perm dates x l : Permutation (x :: l) (insertByStart dates x l).
Proof.
  induction l as [|y l IH]; cbn; [reflexivity |].
  destruct (getTime dates (bstart x) <=? getTime dates (bstart y)); [reflexivity |].
  rewrite perm_swap. now constructor.
Qed.

Lemma sortByStart_perm dates l : Permutation l (sortByStart dates l).
Proof.
  induction l as [|x l IH]; cbn; [reflexivity |].
  rewrite <- insertByStart_perm. now constructor.
Qed.

Lemma insertByStart_sorted dates x l :
  Sorted (fun a b => getTime dates (bstart a) <= getTime dates (bstart b)) l ->
  Sorted (fun a b => getTime dates (bstart a) <= getTime dates (bstart b))
    (insertByStart dates x l).
Proof.
  induction 1 as [|y l Hl IH Hhd]; cbn; [repeat constructor |].
  destruct (getTime dates (bstart x) <=? getTime dates (bstart y)) eqn:E.
  - apply Z.leb_le in E. repeat constructor; assumption.
  - apply Z.leb_gt in E. constructor; [assumption |].
    destruct Hhd as [|z l' Hz]; cbn.
    + constructor. lia.
    + destruct (getTime dates (bstart x) <=? getTime dates (bstart z));
        constructor; [lia | assumption].
Qed.

Lemma sortByStart_sorted dates l :
  Sorted (fun a b => getTime dates (bstart a) <= getTime dates (bstart b))
    (sortByStart dates l).
Proof.
  induction l as [|x l IH]; cbn; [constructor |].
  now apply insertByStart_sorted.
Qed.


Lemma In_insertByStart dates x l b :
  In b (insertByStart dates x l) <-> b = x \/ In b l.
Proof.
  induction l as [|y l IH]; cbn.
  - intuition congruence.
  - destruct (getTime dates (bstart x) <=? getTime dates (bstart y)); cbn.
    + intuition congruence.
    + rewrite IH. intuition congruence.
Qed.

Lemma In_sortByStart dates l b : In b (sortByStart dates l) <-> In b l.
Proof.
  induction l as [|x l IH]; cbn; [reflexivity |].
  rewrite In_insertByStart, IH. intuition congruence.
Qed.

(** *** The initial state *)

Lemma loadBusy_spec dates busy :
  let '(d, bs) := loadBusy dates busy in
  (length dates <= length d)%nat
  /\ (forall r, (r < length dates)%nat -> getTime d r = getTime dates r)
  /\ (forall b, In b bs ->
        (length dates <= bstart b < length d)%nat /\ (bend b < length d)%nat)
  /\ map (busyInterval d) bs = busy.
Proof.
  revert dates. induction busy as [|x busy IH]; intros dates; cbn.
  - split; [lia |]. split; [auto |]. split; [intros b [] | reflexivity].
  - specialize (IH ((dates ++ [start x]) ++ [end_ x])).
    destruct (loadBusy ((dates ++ [start x]) ++ [end_ x]) busy) as [d bs].
    destruct IH as (Hlen & Hold & Hrefs & Hmap).
    rewrite !length_app in Hlen. cbn in Hlen.
    rewrite length_app. cbn [length].
    assert (Hs : getTime d (length dates) = start x).
    { rewrite Hold by (rewrite !length_app; cbn; lia).
      rewrite <- app_assoc. apply getTime_app_new. }
    assert (He : getTime d (length dates + 1)%nat = end_ x).
    { rewrite Hold by (rewrite !length_app; cbn; lia).
      replace (length dates + 1)%nat with (length (dates ++ [start x]))
        by (rewrite length_app; reflexivity).
      apply getTime_app_new. }
    split; [lia |]. split; [| split].
    + intros r Hr. rewrite Hold by (rewrite !length_app; cbn; lia).
      rewrite <- app_assoc. now apply getTime_app_old.
    + intros b [<- | Hin]; cbn; [lia |].
      destruct (Hrefs _ Hin) as [H1 H2].
      rewrite !length_app in H1. cbn in H1. lia.
    + cbn. rewrite Hmap. f_equal. unfold busyInterval. cbn.
      rewrite Hs, He. now destruct x.
Qed.

(** *** The finder as the loop calls it *)

Lemma findEarliestFitSlot_total cur dur busy sh eh buf deadline :
  0 <= sh -> exists r, findEarliestFitSlot cur dur busy sh eh buf deadline = Some r.
Proof.
  intros Hsh. unfold findEarliestFitSlot, findEarliestFitSlot_fuel.
  apply loop_terminates; [assumption |].
  pose proof (endingAfter_le_length cur busy). lia.
Qed.

Lemma findEarliestFitSlot_found cur dur busy sh eh buf deadline slot :
  findEarliestFitSlot cur dur busy sh eh buf deadline = Some (Some slot) ->
  end_ slot = start slot + dur * 60000
  /\ start slot + (dur + buf) * 60000 <= deadline
  /\ isWithinWorkingHours (start slot) sh eh = true
  /\ (forall b, In b busy ->
        overlaps b (start slot) (start slot + (dur + buf) * 60000) = false)
  /\ (0 <= sh -> cur <= start slot).
Proof.
  unfold findEarliestFitSlot, findEarliestFitSlot_fuel. intros H.
  destruct (loop_found _ _ _ _ _ _ _ _ _ H) as (t & _ & Hb & Hle).
  destruct (body_found _ _ _ _ _ _ _ _ Hb) as (-> & Hend & Hwork & _ & Hconf).
  cbn [start end_]. unfold totalDurationMs in *.
  rewrite firstConflict_None in Hconf. auto.
Qed.

Section Loop.

Variable createCalendarEvent : nat -> string -> Z -> Z -> option (option string).
Variable rangeEnd : Z.

Local Abbreviation schedule_step := (schedule_step createCalendarEvent rangeEnd).
Local Abbreviation schedule_loop := (schedule_loop createCalendarEvent rangeEnd).
Local Abbreviation finderResult := (finderResult rangeEnd).
Local Abbreviation stepPlaced := (stepPlaced createCalendarEvent rangeEnd).
Local Abbreviation stepCalendarError := (stepCalendarError createCalendarEvent rangeEnd).
Local Abbreviation stepNoSlot := (stepNoSlot rangeEnd).

Lemma schedule_step_cases i s st st' it :
  schedule_step i s st = Some (st', it) ->
  searchedFrom it = cursor st
  /\ searchedDuration it = duration_minutes s
  /\ (stepPlaced i s st st' it \/ stepCalendarError i s st st' it
      \/ stepNoSlot s st st' it).
Proof.
  unfold Server.schedule_step.
  destruct (findEarliestFitSlot _ _ _ _ _ _ _) as [[slot |] |] eqn:Ef;
    [| | discriminate].
  - destruct (createCalendarEvent i (subtask s) (start slot) (end_ slot))
      as [eventUrl |] eqn:Ec.
    + cbn. intros [= <- <-]. cbn. repeat split.
      left. exists slot, eventUrl. cbn. repeat split; auto.
    + intros [= <- <-]. cbn. repeat split.
      right; left. exists slot. cbn. repeat split; auto.
      f_equal. apply setMinutes_getMinutes_succ.
  - intros [= <- <-]. cbn. repeat split.
    right; right. unfold stepNoSlot. cbn. repeat split; auto.
Qed.

Lemma schedule_step_total i s st : exists r, schedule_step i s st = Some r.
Proof.
  unfold Server.schedule_step.
  destruct (findEarliestFitSlot_total (cursor st) (duration_minutes s)
              (busyIntervals st) SCHEDULING_WORK_DAY_START_HOUR
              SCHEDULING_WORK_DAY_END_HOUR SCHEDULING_BUFFER_MINUTES rangeEnd)
    as [[slot |] ->]; [unfold SCHEDULING_WORK_DAY_START_HOUR; lia | | eauto].
  destruct (createCalendarEvent i (subtask s) (start slot) (end_ slot)); cbn; eauto.
Qed.

Lemma schedule_loop_total i subtasks st :
  exists r, schedule_loop i subtasks st = Some r.
Proof.
  revert i st. induction subtasks as [|s rest IH]; intros i st; cbn; [eauto |].
  destruct (schedule_step_total i s st) as [[st1 it] ->].
  destruct (IH (S i) st1) as [[st2 its] ->]. eauto.
Qed.

(** *** Well-formedness is kept *)

Lemma schedule_step_wf i s st st' it :
  wf st -> schedule_step i s st = Some (st', it) -> wf st'.
Proof.
  intros [Hnext Hbusy] H.
  destruct (schedule_step_cases _ _ _ _ _ H) as (_ & _ & [Hc | [Hc | Hc]]).
  - destruct Hc as (slot & url & _ & _ & _ & Hd & Hb & Hn & _).
    unfold wf. rewrite Hn, Hb, Hd. rewrite !length_app. cbn [length].
    split; [lia |]. intros b Hin. apply In_sortByStart in Hin.
    apply in_app_iff in Hin as [Hin | [<- | []]].
    + destruct (Hbusy _ Hin) as (H1 & H2 & H3). lia.
    + cbn. lia.
  - destruct Hc as (slot & _ & _ & _ & Hd & Hb & Hn & _).
    unfold wf. rewrite Hn, Hb, Hd, length_insert. auto.
  - destruct Hc as (_ & _ & Hd & Hb & Hn & _).
    unfold wf. rewrite Hn, Hb, Hd. auto.
Qed.

Lemma initialState_wf rangeStart initialBusy : wf (initialState rangeStart initialBusy).
Proof.
  unfold initialState. pose proof (loadBusy_spec [] initialBusy) as H.
  destruct (loadBusy [] initialBusy) as [d bs]. cbn.
  destruct H as (_ & _ & Hrefs & _).
  unfold wf. cbn. rewrite length_app. cbn. split; [lia |].
  intros b Hin. destruct (Hrefs _ Hin). lia.
Qed.

Lemma initialState_busyIntervals rangeStart initialBusy :
  busyIntervals (initialState rangeStart initialBusy) = initialBusy.
Proof.
  unfold initialState, busyIntervals.
  pose proof (loadBusy_spec [] initialBusy) as H.
  destruct (loadBusy [] initialBusy) as [d bs]. cbn.
  destruct H as (_ & _ & Hrefs & Hmap).
  rewrite <- Hmap. apply map_ext_in. intros b Hin.
  destruct (Hrefs _ Hin) as [[_ H1] H2].
  unfold busyInterval. now rewrite !getTime_app_old.
Qed.

Lemma initialState_cursor rangeStart initialBusy :
  cursor (initialState rangeStart initialBusy) = rangeStart.
Proof.
  unfold initialState, cursor.
  destruct (loadBusy [] initialBusy) as [d bs]. cbn.
  apply getTime_app_new.
Qed.

(** *** The cursor *)

Lemma cursor_after_placed i s st st' it :
  stepPlaced i s st st' it ->
  exists slot, outcome it = Placed slot
    /\ cursor st' = end_ slot + SCHEDULING_BUFFER_MINUTES * 60000.
Proof.
  intros (slot & url & _ & _ & Ho & Hd & _ & Hn & _).
  exists slot. split; [assumption |].
  unfold cursor. rewrite Hn, Hd. apply getTime_app_new.
Qed.

Lemma cursor_after_error i s st st' it :
  wf st -> stepCalendarError i s st st' it ->
  cursor st' = cursor st + msPerMinute.
Proof.
  intros [Hnext _] (slot & _ & _ & _ & Hd & _ & Hn & _).
  unfold cursor at 1. rewrite Hn, Hd. now apply getTime_insert_eq.
Qed.

Lemma cursor_after_noslot s st st' it :
  stepNoSlot s st st' it -> cursor st' = cursor st.
Proof.
  intros (_ & _ & Hd & _ & Hn & _). unfold cursor. now rewrite Hn, Hd.
Qed.

Lemma schedule_step_cursor_le i s st st' it :
  wf st -> 0 < duration_minutes s ->
  schedule_step i s st = Some (st', it) -> cursor st <= cursor st'.
Proof.
  intros Hwf Hdur H.
  destruct (schedule_step_cases _ _ _ _ _ H) as (_ & _ & [Hc | [Hc | Hc]]).
  - destruct (cursor_after_placed _ _ _ _ _ Hc) as (slot & Ho & ->).
    destruct Hc as (slot' & url & Hf & _ & Ho' & _).
    assert (slot' = slot) as -> by congruence.
    destruct (findEarliestFitSlot_found _ _ _ _ _ _ _ _ Hf) as (He & _ & _ & _ & Hle).
    unfold SCHEDULING_WORK_DAY_START_HOUR, SCHEDULING_BUFFER_MINUTES in *. lia.
  - rewrite (cursor_after_error _ _ _ _ _ Hwf Hc). unfold msPerMinute. lia.
  - rewrite (cursor_after_noslot _ _ _ _ Hc). lia.
Qed.

(** *** Guarded intervals

    An interval is guarded by the state when some busy slot starts where
    it starts and ends no earlier than it ends.  Busy slots are never
    removed, their starts never change and their ends never move back, so
    a guarded interval stays guarded. *)

Lemma covered_step i s st st' it x :
  wf st -> schedule_step i s st = Some (st', it) ->
  covered st x -> covered st' x.
Proof.
  intros [Hnext Hbusy] H (b & Hin & Hs & He).
  destruct (Hbusy _ Hin) as (Hb1 & Hb2 & Hb3).
  destruct (schedule_step_cases _ _ _ _ _ H) as (_ & _ & [Hc | [Hc | Hc]]).
  - destruct Hc as (slot & url & _ & _ & _ & Hd & Hb & _).
    exists b. rewrite Hb, Hd. split.
    + apply In_sortByStart, in_app_iff. now left.
    + rewrite <- app_assoc, !getTime_app_old by assumption. auto.
  - destruct Hc as (slot & _ & _ & _ & Hd & Hb & _).
    exists b. rewrite Hb, Hd. split; [assumption |].
    rewrite getTime_insert_ne by congruence. split; [assumption |].
    destruct (Nat.eq_dec (nextAvailableStartTime st) (bend b)) as [E | E].
    + rewrite E, getTime_insert_eq by assumption.
      unfold cursor. rewrite E. unfold msPerMinute. lia.
    + now rewrite getTime_insert_ne.
  - destruct Hc as (_ & _ & Hd & Hb & _).
    exists b. rewrite Hb, Hd. auto.
Qed.

Lemma covered_new i s st st' it slot :
  stepPlaced i s st st' it -> outcome it = Placed slot ->
  covered st' (withBuffer slot).
Proof.
  intros (slot' & url & _ & _ & Ho & Hd & Hb & _) Ho'.
  assert (slot' = slot) as -> by congruence.
  exists {| bstart := length (dates st); bend := length (dates st ++ [start slot]) |}.
  rewrite Hb, Hd. cbn [bstart bend]. split; [| split].
  - apply In_sortByStart, in_app_iff. right. now left.
  - rewrite <- app_assoc. apply getTime_app_new.
  - rewrite getTime_app_new. reflexivity.
Qed.

Lemma placed_avoids_covered i s st st' it slot x :
  stepPlaced i s st st' it -> outcome it = Placed slot ->
  covered st x -> ~ intervalsOverlap (withBuffer slot) x.
Proof.
  intros (slot' & url & Hf & _ & Ho & _) Ho' (b & Hin & Hs & He).
  assert (slot' = slot) as -> by congruence.
  destruct (findEarliestFitSlot_found _ _ _ _ _ _ _ _ Hf) as (Hend & _ & _ & Hfree & _).
  specialize (Hfree (busyInterval (dates st) b)
                (in_map (busyInterval (dates st)) _ _ Hin)).
  unfold overlaps in Hfree. cbn [start end_ busyInterval] in Hfree.
  unfold intervalsOverlap, withBuffer. cbn [start end_].
  intros [H1 H2]. apply andb_false_iff in Hfree as [Hf1 | Hf2].
  - apply Z.ltb_ge in Hf1. lia.
  - apply Z.ltb_ge in Hf2. lia.
Qed.

Lemma schedule_loop_nonoverlap subtasks : forall i st st' its guarded,
  wf st -> (forall x, In x guarded -> covered st x) ->
  schedule_loop i subtasks st = Some (st', its) ->
  (forall a x, In a (placedSlots its) -> In x guarded ->
     ~ intervalsOverlap (withBuffer a) x)
  /\ ForallOrdPairs
       (fun a b => ~ intervalsOverlap (withBuffer a) (withBuffer b))
       (placedSlots its).
Proof.
  induction subtasks as [|s rest IH]; intros i st st' its guarded Hwf Hg; cbn.
  - intros [= <- <-]. cbn. split; [intros a x [] | constructor].
  - destruct (Server.schedule_step _ _ i s st) as [[st1 it] |] eqn:Es; [| discriminate].
    destruct (Server.schedule_loop _ _ (S i) rest st1) as [[st2 its'] |] eqn:El;
      [| discriminate].
    intros [= <- <-].
    pose proof (schedule_step_wf _ _ _ _ _ Hwf Es) as Hwf1.
    destruct (schedule_step_cases _ _ _ _ _ Es) as (_ & _ & Hc).
    cbn [placedSlots].
    destruct (outcome it) as [slot | slot |] eqn:Ho.
    + destruct Hc as [Hc | [(? & _ & _ & Ho' & _) | (_ & Ho' & _)]];
        [| congruence | congruence].
      assert (Hg1 : forall x, In x (withBuffer slot :: guarded) -> covered st1 x).
      { intros x [<- | Hx].
        - exact (covered_new _ _ _ _ _ _ Hc Ho).
        - exact (covered_step _ _ _ _ _ _ Hwf Es (Hg x Hx)). }
      destruct (IH (S i) st1 st2 its' _ Hwf1 Hg1 El) as [IH1 IH2].
      split.
      * intros a x [<- | Ha] Hx.
        -- exact (placed_avoids_covered _ _ _ _ _ _ _ Hc Ho (Hg x Hx)).
        -- apply IH1; [assumption | now right].
      * constructor; [| assumption].
        apply List.Forall_forall. intros b Hb Hov.
        apply (IH1 b (withBuffer slot) Hb (or_introl eq_refl)).
        unfold intervalsOverlap in *. lia.
    + apply (IH (S i) st1 st2 its' guarded Hwf1); [| exact El].
      intros x Hx. exact (covered_step _ _ _ _ _ _ Hwf Es (Hg x Hx)).
    + apply (IH (S i) st1 st2 its' guarded Hwf1); [| exact El].
      intros x Hx. exact (covered_step _ _ _ _ _ _ Hwf Es (Hg x Hx)).
Qed.

Lemma initialState_covers rangeStart initialBusy x :
  In x initialBusy -> covered (initialState rangeStart initialBusy) x.
Proof.
  intros Hin. rewrite <- (initialState_busyIntervals rangeStart initialBusy) in Hin.
  unfold busyIntervals in Hin. apply in_map_iff in Hin as (b & <- & Hb).
  exists b. cbn. split; [assumption |]. split; [reflexivity | lia].
Qed.

(** *** What a failed commit changes

    The busy list keeps its elements and only the [Date] the cursor refers
    to is written.  That [Date] is also the [end] of the busy slot pushed
    by the latest placement, if there was one. *)

Lemma calendar_error_effect i s st st' it :
  wf st -> stepCalendarError i s st st' it ->
  cursor st' = cursor st + msPerMinute
  /\ busyTimes st' = busyTimes st
  /\ (forall b, In b (busyTimes st) ->
        getTime (dates st') (bstart b) = getTime (dates st) (bstart b)
        /\ getTime (dates st') (bend b) =
             if Nat.eqb (bend b) (nextAvailableStartTime st)
             then getTime (dates st) (bend b) + msPerMinute
             else getTime (dates st) (bend b)).
Proof.
  intros Hwf Hc. split; [exact (cursor_after_error _ _ _ _ _ Hwf Hc) |].
  destruct Hwf as [Hnext Hbusy].
  destruct Hc as (slot & _ & _ & _ & Hd & Hb & _).
  split; [assumption |]. intros b Hin.
  destruct (Hbusy _ Hin) as (_ & _ & Hne). rewrite Hd. split.
  - apply getTime_insert_ne. congruence.
  - destruct (Nat.eqb_spec (bend b) (nextAvailableStartTime st)) as [E | E].
    + rewrite <- E at 1. rewrite E, getTime_insert_eq by assumption. reflexivity.
    + apply getTime_insert_ne. congruence.
Qed.

(** After a placement the cursor is the [end] of the busy slot just
    pushed, so a failed commit that follows lengthens that busy slot by a
    minute. *)
Lemma placed_cursor_is_busy_end i s st st' it :
  stepPlaced i s st st' it ->
  exists b, In b (busyTimes st') /\ bend b = nextAvailableStartTime st'.
Proof.
  intros (slot & url & _ & _ & _ & _ & Hb & Hn & _).
  exists {| bstart := length (dates st); bend := length (dates st ++ [start slot]) |}.
  rewrite Hb, Hn. split; [| reflexivity].
  apply In_sortByStart, in_app_iff. right. now left.
Qed.

Lemma failed_commit_after_placement i j s s' st st1 st2 it1 it2 slot slot' :
  wf st ->
  schedule_step i s st = Some (st1, it1) -> outcome it1 = Placed slot ->
  schedule_step j s' st1 = Some (st2, it2) -> outcome it2 = CalendarError slot' ->
  busyTimes st2 = busyTimes st1
  /\ exists b, In b (busyTimes st1)
       /\ getTime (dates st2) (bend b) = getTime (dates st1) (bend b) + msPerMinute.
Proof.
  intros Hwf H1 Ho1 H2 Ho2.
  pose proof (schedule_step_wf _ _ _ _ _ Hwf H1) as Hwf1.
  destruct (schedule_step_cases _ _ _ _ _ H1) as (_ & _ & [Hc1 | [Hc1 | Hc1]]);
    [| destruct Hc1 as (? & _ & _ & Ho & _); congruence
     | destruct Hc1 as (_ & Ho & _); congruence].
  destruct (schedule_step_cases _ _ _ _ _ H2) as (_ & _ & [Hc2 | [Hc2 | Hc2]]);
    [destruct Hc2 as (? & ? & _ & _ & Ho & _); congruence
    | | destruct Hc2 as (_ & Ho & _); congruence].
  destruct (calendar_error_effect _ _ _ _ _ Hwf1 Hc2) as (_ & Hb & Hends).
  split; [assumption |].
  destruct (placed_cursor_is_busy_end _ _ _ _ _ Hc1) as (b & Hin & Hend).
  exists b. split; [assumption |].
  destruct (Hends b Hin) as [_ He]. rewrite He, Hend, Nat.eqb_refl. reflexivity.
Qed.

(** *** The cursor along a run *)

Lemma schedule_loop_head i s rest st st' it its :
  schedule_loop i (s :: rest) st = Some (st', it :: its) ->
  searchedFrom it = cursor st.
Proof.
  cbn. destruct (Server.schedule_step _ _ i s st) as [[st1 it1] |] eqn:Es; [| discriminate].
  destruct (Server.schedule_loop _ _ (S i) rest st1) as [[st2 its'] |]; [| discriminate].
  intros [= _ <- _]. now destruct (schedule_step_cases _ _ _ _ _ Es).
Qed.

Lemma schedule_loop_cursor subtasks : forall i st st' its,
  wf st -> (forall s, In s subtasks -> 0 < duration_minutes s) ->
  schedule_loop i subtasks st = Some (st', its) ->
  cursor st <= cursor st'
  /\ (forall k a b, its !! k = Some a -> its !! S k = Some b ->
        searchedFrom a <= searchedFrom b).
Proof.
  induction subtasks as [|s rest IH]; intros i st st' its Hwf Hdur; cbn.
  - intros [= <- <-]. split; [lia | intros k a b H; destruct k; discriminate].
  - destruct (Server.schedule_step _ _ i s st) as [[st1 it] |] eqn:Es; [| discriminate].
    destruct (Server.schedule_loop _ _ (S i) rest st1) as [[st2 its'] |] eqn:El;
      [| discriminate].
    intros [= <- <-].
    pose proof (schedule_step_wf _ _ _ _ _ Hwf Es) as Hwf1.
    pose proof (schedule_step_cursor_le _ _ _ _ _ Hwf (Hdur s (or_introl eq_refl)) Es)
      as Hle.
    destruct (IH (S i) st1 st2 its' Hwf1 (fun s' H => Hdur s' (or_intror H)) El)
      as [IH1 IH2].
    split; [lia |]. intros k a b Ha Hb.
    destruct k as [|k]; [| exact (IH2 k a b Ha Hb)].
    cbn in Ha, Hb. injection Ha as <-.
    destruct (schedule_step_cases _ _ _ _ _ Es) as (-> & _).
    destruct rest as [|s' rest'].
    + cbn in El. injection El as <- <-. discriminate.
    + destruct its' as [|it' its'']; [discriminate |].
      cbn in Hb. injection Hb as <-.
      now rewrite (schedule_loop_head _ _ _ _ _ _ _ El).
Qed.

Lemma schedule_loop_durations subtasks : forall i st st' its,
  schedule_loop i subtasks st = Some (st', its) ->
  map searchedDuration its = map duration_minutes subtasks.
Proof.
  induction subtasks as [|s rest IH]; intros i st st' its; cbn.
  - now intros [= <- <-].
  - destruct (Server.schedule_step _ _ i s st) as [[st1 it] |] eqn:Es; [| discriminate].
    destruct (Server.schedule_loop _ _ (S i) rest st1) as [[st2 its'] |] eqn:El;
      [| discriminate].
    intros [= <- <-]. cbn.
    destruct (schedule_step_cases _ _ _ _ _ Es) as (_ & -> & _).
    f_equal. eauto.
Qed.

End Loop.

End ServerFacts.

Import SchedulerFacts ServerFacts.

(* ===================================================================== *)
(** ** The specification's statements, checked against the code *)
(* ===================================================================== *)

(** *** Scenario A and the working-hours test *)

(** C1.  Empty busy list, working hours 09:00-17:00, buffer 15 minutes, one
    request of 30 minutes, search starting on Monday 08:00.  The
    specification expects Monday 09:00-09:30.  The code finds Monday 08:00
    outside working hours, resets the clock to 09:00 and then also moves
    the date by one day, so the slot it returns is Tuesday 09:00-09:30,
    although the body of the loop accepts Monday 09:00 when it is tried. *)
Theorem scenario_A_is_placed_on_tuesday :
  findEarliestFitSlot (at_ monday 8 0) 30 [] 9 17 15 horizon
  = Some (Some {| start := at_ tuesday 9 0; end_ := at_ tuesday 9 30 |})
  /\ body 30 [] 9 17 15 horizon (at_ monday 8 0) = Continue (at_ tuesday 9 0)
  /\ body 30 [] 9 17 15 horizon (at_ monday 9 0)
     = Return (Some {| start := at_ monday 9 0; end_ := at_ monday 9 30 |}).
Proof. repeat split; vm_compute; reflexivity. Qed.

(** C2, as stated, fails: with a buffer of 15 minutes a 60-minute task
    tried at Monday 16:00 has its unbuffered end exactly at 17:00 on the
    same day, yet the trial is rejected and the search moves to Tuesday;
    with no buffer the same trial is accepted. *)
Lemma unbuffered_end_at_closing_is_rejected :
  at_ monday 16 0 + 60 * 60000 = at_ monday 17 0
  /\ body 60 [] 9 17 15 horizon (at_ monday 16 0) = Continue (at_ tuesday 9 0)
  /\ findEarliestFitSlot (at_ monday 16 0) 60 [] 9 17 15 horizon
     = Some (Some {| start := at_ tuesday 9 0; end_ := at_ tuesday 10 0 |})
  /\ findEarliestFitSlot (at_ monday 16 0) 60 [] 9 17 0 horizon
     = Some (Some {| start := at_ monday 16 0; end_ := at_ monday 17 0 |}).
Proof. repeat split; vm_compute; reflexivity. Qed.

(** C2, amended.  The end-of-day test is applied to the buffered end,
    trial start plus [durationMinutes + bufferMinutes]: for a trial start
    within working hours whose buffered end does not pass the deadline,
    a buffered end of exactly [endHour]:00 on the day of the start passes
    the test (the iteration goes on to the conflict scan), and a buffered
    end one minute later fails it (the iteration moves to the next working
    day). *)
Theorem end_of_day_test_uses_buffered_end
  (dur : Z) (busy : list TimeInterval) (sh eh buf deadline cur : Z) :
  0 <= eh < 24 ->
  isWithinWorkingHours cur sh eh = true ->
  cur + (dur + buf) * 60000 <= deadline ->
  (cur + (dur + buf) * 60000 = at_ (Day cur) eh 0 ->
   body dur busy sh eh buf deadline cur =
     match firstConflict busy cur (cur + (dur + buf) * 60000) with
     | Some busyEnd => Continue busyEnd
     | None => Return (Some {| start := cur; end_ := cur + dur * 60000 |})
     end)
  /\ (cur + (dur + buf) * 60000 = at_ (Day cur) eh 1 ->
      body dur busy sh eh buf deadline cur = Continue (moveToNextWorkingDay sh cur)).
Proof.
  intros Heh Hwork Hdl. unfold body, totalDurationMs.
  apply Z.ltb_ge in Hdl. rewrite Hdl, Hwork. cbn [negb].
  unfold endsOutsideWorkingDay. split; intros ->.
  - rewrite getHours_at, getMinutes_at by lia.
    rewrite (getDate_same_day (at_ (Day cur) eh 0) cur) by (apply Day_at; lia).
    now rewrite Z.ltb_irrefl, !Z.eqb_refl.
  - rewrite getHours_at, getMinutes_at by lia.
    now rewrite Z.ltb_irrefl, Z.eqb_refl.
Qed.

Lemma end_of_day_test_uses_buffered_end_witness :
  body 45 [] 9 17 15 horizon (at_ monday 16 0)
  = Return (Some {| start := at_ monday 16 0; end_ := at_ monday 16 45 |})
  /\ body 46 [] 9 17 15 horizon (at_ monday 16 0) = Continue (at_ tuesday 9 0).
Proof.
  split.
  - apply (proj1 (end_of_day_test_uses_buffered_end 45 [] 9 17 15 horizon
                    (at_ monday 16 0) ltac:(lia) eq_refl ltac:(vm_compute; discriminate))).
    reflexivity.
  - apply (proj2 (end_of_day_test_uses_buffered_end 46 [] 9 17 15 horizon
                    (at_ monday 16 0) ltac:(lia) eq_refl ltac:(vm_compute; discriminate))).
    reflexivity.
Defined.

(** *** The conflict test *)

(** C6.  The conflict test of the finder is the strict half-open overlap
    between a busy slot and the trial extended by the buffer.  At a trial
    start that passes the deadline and working-hours tests, the iteration
    returns the slot at the trial start exactly when no busy slot starts
    strictly before the buffered end and ends strictly after the trial
    start; when some busy slot does, the iteration moves the trial to the
    end of the first such slot in list order and the search goes on from
    there.  In particular busy slots that end exactly at the trial start,
    or start exactly at the buffered end, cause no conflict: a search from
    that trial start returns the slot at it. *)
Theorem conflict_test_is_half_open
  (durationMinutes : Z) (busyTimes : list TimeInterval)
  (workStartHour workEndHour bufferMinutes searchEndDate currentTryTime : Z) :
  currentTryTime < searchEndDate ->
  currentTryTime + (durationMinutes + bufferMinutes) * 60000 <= searchEndDate ->
  isWithinWorkingHours currentTryTime workStartHour workEndHour = true ->
  endsOutsideWorkingDay currentTryTime
    (currentTryTime + (durationMinutes + bufferMinutes) * 60000) workEndHour = false ->
  (body durationMinutes busyTimes workStartHour workEndHour bufferMinutes
        searchEndDate currentTryTime
   = Return (Some {| start := currentTryTime;
                     end_ := currentTryTime + durationMinutes * 60000 |})
   <-> forall b, In b busyTimes ->
         ~ (start b < currentTryTime + (durationMinutes + bufferMinutes) * 60000
            /\ currentTryTime < end_ b))
  /\ (forall pre b post, busyTimes = pre ++ b :: post ->
        (forall x, In x pre ->
           ~ (start x < currentTryTime + (durationMinutes + bufferMinutes) * 60000
              /\ currentTryTime < end_ x)) ->
        start b < currentTryTime + (durationMinutes + bufferMinutes) * 60000 ->
        currentTryTime < end_ b ->
        body durationMinutes busyTimes workStartHour workEndHour bufferMinutes
             searchEndDate currentTryTime
        = Continue (end_ b)
        /\ forall fuel,
             loop durationMinutes busyTimes workStartHour workEndHour bufferMinutes
                  searchEndDate (S fuel) currentTryTime
             = loop durationMinutes busyTimes workStartHour workEndHour bufferMinutes
                    searchEndDate fuel (end_ b))
  /\ ((forall b, In b busyTimes ->
         end_ b <= currentTryTime
         \/ currentTryTime + (durationMinutes + bufferMinutes) * 60000 <= start b) ->
      findEarliestFitSlot currentTryTime durationMinutes busyTimes
        workStartHour workEndHour bufferMinutes searchEndDate
      = Some (Some {| start := currentTryTime;
                      end_ := currentTryTime + durationMinutes * 60000 |})).
Proof.
  intros Hlt Hpe Hw He.
  pose proof (body_scan durationMinutes busyTimes workStartHour workEndHour
                bufferMinutes searchEndDate currentTryTime Hpe Hw He) as Hbody.
  unfold totalDurationMs in Hbody.
  set (pe := currentTryTime + (durationMinutes + bufferMinutes) * 60000) in *.
  assert (Hno : forall x, ~ (start x < pe /\ currentTryTime < end_ x) ->
                  overlaps x currentTryTime pe = false).
  { intros x Hx. destruct (overlaps x currentTryTime pe) eqn:E; [| reflexivity].
    now apply overlaps_spec in E. }
  split; [| split].
  - rewrite Hbody.
    destruct (firstConflict busyTimes currentTryTime pe) as [e|] eqn:Ef.
    + split; [discriminate |]. intros Hfree.
      destruct (firstConflict_Some _ _ _ _ Ef) as (b & Hin & Hov & _).
      apply overlaps_spec in Hov. now destruct (Hfree b Hin).
    + split; [| reflexivity]. intros _ b Hin Hov.
      apply overlaps_spec in Hov.
      rewrite (proj1 (firstConflict_None _ _ _) Ef b Hin) in Hov. discriminate.
  - intros pre b post -> Hpre Hs Hend.
    assert (Hjump : body durationMinutes (pre ++ b :: post) workStartHour
                      workEndHour bufferMinutes searchEndDate currentTryTime
                    = Continue (end_ b)).
    { rewrite Hbody, (firstConflict_first pre b post); [reflexivity | |].
      - intros x Hx. apply Hno, Hpre, Hx.
      - apply overlaps_spec. split; assumption. }
    split; [exact Hjump |]. intros fuel.
    rewrite loop_S by exact Hlt. now rewrite Hjump.
  - intros Hfree. unfold findEarliestFitSlot, findEarliestFitSlot_fuel.
    apply (loop_fuel_mono _ _ _ _ _ _ 1%nat); [| pose proof
      (calendarDays_pos currentTryTime searchEndDate Hlt); lia].
    rewrite loop_S by exact Hlt. rewrite Hbody.
    replace (firstConflict busyTimes currentTryTime pe) with (@None Z);
      [reflexivity |].
    symmetry. apply firstConflict_None. intros b Hin. apply Hno.
    destruct (Hfree b Hin); lia.
Qed.

(** Monday 10:00, thirty minutes with the buffer of fifteen: busy slots
    until 10:00 and from 10:45 leave the slot free; one from 10:44 does
    not, and the trial moves to its end although a later entry of the list
    ends earlier. *)
Lemma conflict_test_is_half_open_witness :
  findEarliestFitSlot (at_ monday 10 0) 30
    [{| start := at_ monday 9 0; end_ := at_ monday 10 0 |};
     {| start := at_ monday 10 45; end_ := at_ monday 12 0 |}] 9 17 15 horizon
  = Some (Some {| start := at_ monday 10 0; end_ := at_ monday 10 30 |})
  /\ body 30
       [{| start := at_ monday 9 0; end_ := at_ monday 10 0 |};
        {| start := at_ monday 10 44; end_ := at_ monday 12 0 |};
        {| start := at_ monday 10 30; end_ := at_ monday 11 0 |}] 9 17 15 horizon
       (at_ monday 10 0)
     = Continue (at_ monday 12 0).
Proof.
  split.
  - apply (proj2 (proj2 (conflict_test_is_half_open 30
             [{| start := at_ monday 9 0; end_ := at_ monday 10 0 |};
              {| start := at_ monday 10 45; end_ := at_ monday 12 0 |}]
             9 17 15 horizon (at_ monday 10 0)
             ltac:(vm_compute; reflexivity) ltac:(vm_compute; discriminate)
             ltac:(vm_compute; reflexivity) ltac:(vm_compute; reflexivity)))).
    intros b [<- | [<- | []]]; [left | right]; vm_compute; discriminate.
  - apply (proj1 (proj2 (conflict_test_is_half_open 30
             [{| start := at_ monday 9 0; end_ := at_ monday 10 0 |};
              {| start := at_ monday 10 44; end_ := at_ monday 12 0 |};
              {| start := at_ monday 10 30; end_ := at_ monday 11 0 |}]
             9 17 15 horizon (at_ monday 10 0)
             ltac:(vm_compute; reflexivity) ltac:(vm_compute; discriminate)
             ltac:(vm_compute; reflexivity) ltac:(vm_compute; reflexivity)))
           [{| start := at_ monday 9 0; end_ := at_ monday 10 0 |}]
           {| start := at_ monday 10 44; end_ := at_ monday 12 0 |}
           [{| start := at_ monday 10 30; end_ := at_ monday 11 0 |}]
           eq_refl).
    + intros x [<- | []] [_ H]. vm_compute in H. discriminate.
    + vm_compute. reflexivity.
    + vm_compute. reflexivity.
Defined.

(** *** Where a slot can start *)

(** C10.  Whatever the hours, the buffer, the busy list and the window, a
    slot returned by the finder starts on a day Monday to Friday. *)
Theorem slot_starts_on_a_weekday
  (fuel : nat) (searchStartTime durationMinutes : Z) (busyTimes : list TimeInterval)
  (workStartHour workEndHour bufferMinutes searchEndDate : Z) (slot : TimeInterval) :
  findEarliestFitSlot_fuel fuel searchStartTime durationMinutes busyTimes
    workStartHour workEndHour bufferMinutes searchEndDate = Some (Some slot) ->
  1 <= getDay (start slot) <= 5.
Proof.
  unfold findEarliestFitSlot_fuel. intros H.
  destruct (loop_found _ _ _ _ _ _ _ _ _ H) as (t & _ & Hb & _).
  destruct (body_found _ _ _ _ _ _ _ _ Hb) as (-> & _ & Hwork & _).
  cbn [start]. unfold isWithinWorkingHours in Hwork. cbv zeta in Hwork.
  rewrite !andb_true_iff in Hwork. destruct Hwork as [[[H1 H2] _] _].
  apply Z.leb_le in H1, H2. lia.
Qed.

Lemma slot_starts_on_a_weekday_witness :
  1 <= getDay (start {| start := at_ (monday + 7) 0 0; end_ := at_ (monday + 7) 0 30 |}) <= 5.
Proof.
  apply (slot_starts_on_a_weekday 5 (at_ (monday + 5) 11 0) 30 [] 0 24 15
           (at_ (monday + 14) 0 0)).
  vm_compute. reflexivity.
Defined.

(** *** Termination of the finder *)

(** The loop of the finder ends within as many executions of its body as
    there are busy slots plus calendar days in the window, for every
    duration, buffer, busy list and end hour, provided the start hour is
    not negative; more fuel does not change the result. *)
Lemma findEarliestFitSlot_terminates
  (searchStartTime durationMinutes : Z) (busyTimes : list TimeInterval)
  (workStartHour workEndHour bufferMinutes searchEndDate : Z) :
  0 <= workStartHour ->
  exists r,
    findEarliestFitSlot_fuel
      (length busyTimes + Z.to_nat (calendarDays searchStartTime searchEndDate))
      searchStartTime durationMinutes busyTimes
      workStartHour workEndHour bufferMinutes searchEndDate = Some r
    /\ forall fuel,
         (length busyTimes + Z.to_nat (calendarDays searchStartTime searchEndDate)
          <= fuel)%nat ->
         findEarliestFitSlot_fuel fuel searchStartTime durationMinutes busyTimes
           workStartHour workEndHour bufferMinutes searchEndDate = Some r.
Proof.
  intros Hsh.
  destruct (findEarliestFitSlot_total searchStartTime durationMinutes busyTimes
              workStartHour workEndHour bufferMinutes searchEndDate Hsh) as [r Hr].
  exists r. split; [exact Hr |]. intros fuel Hfuel.
  unfold findEarliestFitSlot_fuel. eapply loop_fuel_mono; eauto.
Qed.

(** The hypothesis on the start hour is needed: with start hour -24 and end
    hour -1 the jump "to the next working day" from Monday 00:00 lands on
    Monday 00:00 again, and the loop never ends. *)
Example negative_start_hour_never_finishes (fuel : nat) :
  findEarliestFitSlot_fuel fuel (at_ monday 0 0) 30 [] (-24) (-1) 15 horizon = None.
Proof.
  unfold findEarliestFitSlot_fuel.
  induction fuel as [|fuel IH]; [reflexivity |].
  cbn [loop].
  replace (at_ monday 0 0 <? horizon) with true by (vm_compute; reflexivity).
  replace (body 30 [] (-24) (-1) 15 horizon (at_ monday 0 0))
    with (Continue (at_ monday 0 0)) by (vm_compute; reflexivity).
  exact IH.
Qed.

(** A task whose duration plus buffer exceeds the working day and is at
    most 27 days long is never placed: the finder returns [null]. *)
Lemma overlong_task_within_four_weeks_is_not_placed
  (searchStartTime durationMinutes : Z) (busyTimes : list TimeInterval)
  (workStartHour workEndHour bufferMinutes searchEndDate : Z) :
  0 <= workStartHour ->
  (workEndHour - workStartHour) * 60 < durationMinutes + bufferMinutes ->
  durationMinutes + bufferMinutes <= 27 * 24 * 60 ->
  findEarliestFitSlot searchStartTime durationMinutes busyTimes
    workStartHour workEndHour bufferMinutes searchEndDate = Some None.
Proof.
  intros Hsh Hlong Hshort.
  destruct (findEarliestFitSlot_total searchStartTime durationMinutes busyTimes
              workStartHour workEndHour bufferMinutes searchEndDate Hsh) as [r Hr].
  rewrite Hr. destruct r as [slot |]; [| reflexivity].
  exfalso. unfold findEarliestFitSlot, findEarliestFitSlot_fuel in Hr.
  exact (overlong_not_placed _ _ _ _ _ _ _ _ Hsh Hlong Hshort slot Hr).
Qed.

(** C5.  The finder terminates within the stated number of iterations
    ([findEarliestFitSlot_terminates]), but it does not always return
    [null] when duration plus buffer exceeds the working day.  The test
    "must end on the same day it starts" compares the day of the month
    only: a task of 44625 minutes with a buffer of 15 minutes, tried on
    Monday 5 January 09:00, has its buffered end on Thursday 5 February
    09:00, which passes the test, and the finder returns the slot from
    5 January 09:00 to 5 February 08:45. *)
Theorem overlong_task_is_placed_across_a_month :
  let deadline := at_ (monday + 60) 17 0 in
  (17 - 9) * 60 < 44625 + 15
  /\ at_ monday 9 0 <= deadline
  /\ getDate (at_ monday 9 0) = 5
  /\ getDate (at_ monday 9 0 + (44625 + 15) * 60000) = 5
  /\ Day (at_ monday 9 0 + (44625 + 15) * 60000) = monday + 31
  /\ findEarliestFitSlot (at_ monday 9 0) 44625 [] 9 17 15 deadline
     = Some (Some {| start := at_ monday 9 0; end_ := at_ (monday + 31) 8 45 |}).
Proof.
  cbv zeta. split; [lia |]. split; [vm_compute; discriminate |].
  repeat split; vm_compute; reflexivity.
Qed.

(** *** The batch loop *)

(** C4.  In one run of the loop, started from the state built from the
    free/busy answer, the placed slots extended by the buffer are pairwise
    disjoint and disjoint from every interval of the initial busy list,
    whatever the calendar answers and whatever the durations. *)
Theorem placements_never_overlap
  (createCalendarEvent : nat -> string -> Z -> Z -> option (option string))
  (rangeStart rangeEnd : Z) (initialBusy : list TimeInterval)
  (subtasks : list Subtask) (st : State) (its : list Iteration) :
  schedule_loop createCalendarEvent rangeEnd 0 subtasks
    (initialState rangeStart initialBusy) = Some (st, its) ->
  (forall i j a b, (i < j)%nat ->
     placedSlots its !! i = Some a -> placedSlots its !! j = Some b ->
     ~ intervalsOverlap (withBuffer a) (withBuffer b)
     /\ ~ intervalsOverlap (withBuffer b) (withBuffer a))
  /\ (forall a x, In a (placedSlots its) -> In x initialBusy ->
        ~ intervalsOverlap (withBuffer a) x /\ ~ intervalsOverlap x (withBuffer a)).
Proof.
  intros Hrun.
  destruct (schedule_loop_nonoverlap createCalendarEvent rangeEnd subtasks 0%nat
              (initialState rangeStart initialBusy) st its initialBusy
              (initialState_wf _ _) (initialState_covers _ _) Hrun) as [Hbusy Hpairs].
  split.
  - assert (Hidx : forall l : list TimeInterval,
               ForallOrdPairs
                 (fun a b => ~ intervalsOverlap (withBuffer a) (withBuffer b)) l ->
               forall i j a b, (i < j)%nat -> l !! i = Some a -> l !! j = Some b ->
                 ~ intervalsOverlap (withBuffer a) (withBuffer b)).
    { induction 1 as [|x l Hx Hl IH]; intros i j a b Hij Ha Hb.
      - destruct i; discriminate.
      - destruct j as [|j]; [lia |]. cbn in Hb. destruct i as [|i].
        + cbn in Ha. injection Ha as <-.
          apply (proj1 (List.Forall_forall _ _) Hx).
          apply list_elem_of_In. eapply list_elem_of_lookup_2; eauto.
        + cbn in Ha. apply (IH i j); [lia | assumption | assumption]. }
    intros i j a b Hij Ha Hb. pose proof (Hidx _ Hpairs i j a b Hij Ha Hb) as H.
    split; [exact H |]. unfold intervalsOverlap in *. lia.
  - intros a x Ha Hx. pose proof (Hbusy a x Ha Hx) as H.
    split; [exact H |]. unfold intervalsOverlap in *. lia.
Qed.

Lemma placements_never_overlap_witness :
  exists st its,
    schedule_loop commitsSucceed horizon 0 [task "draft" 60; task "review" 60]
      (initialState (at_ monday 9 0)
         [{| start := at_ monday 10 0; end_ := at_ monday 11 0 |}]) = Some (st, its)
    /\ placedSlots its
       = [{| start := at_ monday 11 0; end_ := at_ monday 12 0 |};
          {| start := at_ monday 12 15; end_ := at_ monday 13 15 |}]
    /\ (forall i j a b, (i < j)%nat ->
          placedSlots its !! i = Some a -> placedSlots its !! j = Some b ->
          ~ intervalsOverlap (withBuffer a) (withBuffer b)
          /\ ~ intervalsOverlap (withBuffer b) (withBuffer a))
    /\ (forall a x, In a (placedSlots its) ->
          In x [{| start := at_ monday 10 0; end_ := at_ monday 11 0 |}] ->
          ~ intervalsOverlap (withBuffer a) x /\ ~ intervalsOverlap x (withBuffer a)).
Proof.
  eexists. eexists. split; [vm_compute; reflexivity |].
  split; [vm_compute; reflexivity |].
  eapply (placements_never_overlap commitsSucceed (at_ monday 9 0) horizon
            [{| start := at_ monday 10 0; end_ := at_ monday 11 0 |}]
            [task "draft" 60; task "review" 60]).
  vm_compute. reflexivity.
Defined.

(** C7.  Along a run whose requests have positive durations, the cursor
    with which an iteration starts is never before the cursor with which
    the previous iteration started, whatever the outcome of that
    iteration; nor is the cursor left by the run before where it began. *)
Theorem cursor_never_moves_back
  (createCalendarEvent : nat -> string -> Z -> Z -> option (option string))
  (rangeStart rangeEnd : Z) (initialBusy : list TimeInterval)
  (subtasks : list Subtask) (st : State) (its : list Iteration) :
  (forall s, In s subtasks -> 0 < duration_minutes s) ->
  schedule_loop createCalendarEvent rangeEnd 0 subtasks
    (initialState rangeStart initialBusy) = Some (st, its) ->
  (forall k a b, its !! k = Some a -> its !! S k = Some b ->
     searchedFrom a <= searchedFrom b)
  /\ rangeStart <= cursor st.
Proof.
  intros Hdur Hrun.
  destruct (schedule_loop_cursor createCalendarEvent rangeEnd subtasks 0%nat
              (initialState rangeStart initialBusy) st its
              (initialState_wf _ _) Hdur Hrun) as [Hfinal Hsteps].
  rewrite initialState_cursor in Hfinal. auto.
Qed.

Lemma cursor_never_moves_back_witness :
  exists st its,
    schedule_loop secondCommitFails horizon 0
      [task "draft" 60; task "review" 60; task "call" 600]
      (initialState (at_ monday 9 0) []) = Some (st, its)
    /\ map searchedFrom its = [at_ monday 9 0; at_ monday 10 15; at_ monday 10 16]
    /\ (forall k a b, its !! k = Some a -> its !! S k = Some b ->
          searchedFrom a <= searchedFrom b)
    /\ at_ monday 9 0 <= cursor st.
Proof.
  eexists. eexists. split; [vm_compute; reflexivity |].
  split; [vm_compute; reflexivity |].
  eapply (cursor_never_moves_back secondCommitFails (at_ monday 9 0) horizon []
            [task "draft" 60; task "review" 60; task "call" 600]).
  - intros s [<- | [<- | [<- | []]]]; reflexivity.
  - vm_compute. reflexivity.
Defined.

(** With a negative duration, which the schema lets through, the cursor
    does move back: "undo" is searched from Monday 10:00 and placed as
    10:00-09:00, and the next iteration starts at 09:15. *)
Example negative_duration_moves_cursor_back :
  SubtaskListSchema [rawSubtask "undo" (-60); rawSubtask "next" 30]
  = Some [task "undo" (-60); task "next" 30]
  /\ exists st its a b,
       schedule_loop commitsSucceed horizon 0 [task "undo" (-60); task "next" 30]
         (initialState (at_ monday 10 0) []) = Some (st, its)
       /\ its !! 0%nat = Some a /\ its !! 1%nat = Some b
       /\ outcome a = Placed {| start := at_ monday 10 0; end_ := at_ monday 9 0 |}
       /\ searchedFrom a = at_ monday 10 0
       /\ searchedFrom b = at_ monday 9 15
       /\ searchedFrom b < searchedFrom a.
Proof.
  split; [vm_compute; reflexivity |].
  do 4 eexists. split; [vm_compute; reflexivity |].
  repeat split; vm_compute; reflexivity.
Qed.

(** C3.  A failed commit records the request as unscheduled and moves
    the cursor by one minute, and it adds nothing to the busy list
    ([calendar_error_effect]); but the [Date] it advances is the very
    object stored as [end] of the busy slot of the latest placement.  After
    "draft" is placed on Monday 09:00-10:00 the busy list holds
    09:00-10:15; when the commit of "review" then fails, that busy slot
    reads 09:00-10:16. *)
Theorem failed_commit_moves_end_of_latest_busy_slot :
  exists st1 it1 st2 it2,
    schedule_step secondCommitFails horizon 0 (task "draft" 60)
      (initialState (at_ monday 9 0) []) = Some (st1, it1)
    /\ busyIntervals st1 = [{| start := at_ monday 9 0; end_ := at_ monday 10 15 |}]
    /\ cursor st1 = at_ monday 10 15
    /\ schedule_step secondCommitFails horizon 1 (task "review" 60) st1
       = Some (st2, it2)
    /\ outcome it2
       = CalendarError {| start := at_ monday 10 15; end_ := at_ monday 11 15 |}
    /\ unscheduledSubtasks st2 = ["review (Calendar API error)"%string]
    /\ cursor st2 = at_ monday 10 16
    /\ busyTimes st2 = busyTimes st1
    /\ busyIntervals st2 = [{| start := at_ monday 9 0; end_ := at_ monday 10 16 |}].
Proof.
  do 4 eexists. split; [vm_compute; reflexivity |].
  repeat split; vm_compute; reflexivity.
Qed.

(** C8.  When the finder returns [null], the iteration records the
    request as unscheduled and changes nothing else: the store, the busy
    list and the cursor are as before, so the finder call of the next
    request, whatever its duration, is made from the same cursor over the
    same busy list. *)
Theorem no_slot_leaves_cursor_and_busy_list
  (createCalendarEvent : nat -> string -> Z -> Z -> option (option string))
  (rangeEnd : Z) (i : nat) (s : Subtask) (st : State) :
  finderResult rangeEnd s st = Some None ->
  exists st' it,
    schedule_step createCalendarEvent rangeEnd i s st = Some (st', it)
    /\ outcome it = NoSlot
    /\ unscheduledSubtasks st'
       = unscheduledSubtasks st ++ [(subtask s ++ " (No slot found)")%string]
    /\ scheduledEvents st' = scheduledEvents st
    /\ dates st' = dates st
    /\ busyTimes st' = busyTimes st
    /\ nextAvailableStartTime st' = nextAvailableStartTime st
    /\ cursor st' = cursor st
    /\ busyIntervals st' = busyIntervals st
    /\ forall s2, finderResult rangeEnd s2 st' = finderResult rangeEnd s2 st.
Proof.
  unfold finderResult, schedule_step. intros ->.
  do 2 eexists. split; [reflexivity |]. cbn. repeat split.
Qed.

Lemma no_slot_leaves_cursor_and_busy_list_witness :
  exists st' it,
    schedule_step commitsSucceed horizon 0 (task "offsite" 600)
      (initialState (at_ monday 9 0) []) = Some (st', it)
    /\ outcome it = NoSlot
    /\ unscheduledSubtasks st' = ["offsite (No slot found)"%string]
    /\ scheduledEvents st' = []
    /\ dates st' = [at_ monday 9 0]
    /\ busyTimes st' = []
    /\ nextAvailableStartTime st' = 0%nat
    /\ cursor st' = at_ monday 9 0
    /\ busyIntervals st' = []
    /\ forall s2, finderResult horizon s2 st'
                  = finderResult horizon s2 (initialState (at_ monday 9 0) []).
Proof.
  apply (no_slot_leaves_cursor_and_busy_list commitsSucceed horizon 0
           (task "offsite" 600) (initialState (at_ monday 9 0) [])).
  vm_compute. reflexivity.
Defined.

(** C9, as stated, fails: a request list with durations 0 and -30 passes
    the schema and the finder is called with each of them. *)
Lemma non_positive_durations_reach_the_finder :
  exists st its,
    schedule_tasks commitsSucceed (at_ (monday - 1) 13 7) []
      [rawSubtask "noop" 0; rawSubtask "undo" (-30)] = Some (Some (st, its))
    /\ map searchedDuration its = [0; -30]
    /\ map searchedFrom its = [at_ monday 9 0; at_ monday 9 15].
Proof. do 2 eexists. split; [vm_compute; reflexivity |]. split; reflexivity. Qed.

(** C9, amended.  The schema of the request checks that a duration is an
    integer and nothing about its sign: every list of requests with integer
    durations is accepted, the run takes place, and the finder is called
    once per request, in order, with the duration of that request. *)
Theorem durations_are_only_checked_to_be_integers
  (createCalendarEvent : nat -> string -> Z -> Z -> option (option string))
  (now : Z) (initialBusy : list TimeInterval) (requests : list (string * Z)) :
  SubtaskListSchema (map (fun r => rawSubtask (fst r) (snd r)) requests)
  = Some (map (fun r => {| subtask := fst r; duration_minutes := snd r |}) requests)
  /\ exists st its,
       schedule_tasks createCalendarEvent now initialBusy
         (map (fun r => rawSubtask (fst r) (snd r)) requests) = Some (Some (st, its))
       /\ map searchedDuration its = map snd requests.
Proof.
  split; [apply SubtaskListSchema_integers |].
  unfold schedule_tasks. rewrite SubtaskListSchema_integers.
  destruct (schedule_loop_total createCalendarEvent (searchRangeEnd now) 0%nat
              (map (fun r => {| subtask := fst r; duration_minutes := snd r |}) requests)
              (initialState (searchRangeStart now) initialBusy)) as [[st its] Hrun].
  exists st, its. split; [now rewrite Hrun |].
  rewrite (schedule_loop_durations _ _ _ _ _ _ _ Hrun), map_map. reflexivity.
Qed.

(** *** Further scenarios of the specification *)

(** Scenario B: Monday fully booked, 60 minutes from Monday 08:00. *)
Example scenario_B :
  findEarliestFitSlot (at_ monday 8 0) 60
    [{| start := at_ monday 9 0; end_ := at_ monday 17 0 |}] 9 17 15 horizon
  = Some (Some {| start := at_ tuesday 9 0; end_ := at_ tuesday 10 0 |}).
Proof. vm_compute. reflexivity. Qed.

(** Scenario C: ten hours do not fit an eight-hour day, whatever the
    window and the busy list. *)
Example scenario_C (searchStartTime searchEndDate : Z) (busyTimes : list TimeInterval) :
  findEarliestFitSlot searchStartTime 600 busyTimes 9 17 15 searchEndDate = Some None.
Proof. apply overlong_task_within_four_weeks_is_not_placed; lia. Qed.

(** Scenario D: two requests of 60 minutes from Monday 09:00. *)
Example scenario_D :
  exists st its,
    schedule_loop commitsSucceed horizon 0 [task "first" 60; task "second" 60]
      (initialState (at_ monday 9 0) []) = Some (st, its)
    /\ placedSlots its
       = [{| start := at_ monday 9 0; end_ := at_ monday 10 0 |};
          {| start := at_ monday 10 15; end_ := at_ monday 11 15 |}].
Proof. do 2 eexists. split; vm_compute; reflexivity. Qed.

(** Scenario E: the window ends on Monday 09:30. *)
Example scenario_E :
  findEarliestFitSlot (at_ monday 9 0) 60 [] 9 17 15 (at_ monday 9 30) = Some None.
Proof. vm_compute. reflexivity. Qed.

(* ===================================================================== *)
(** ** The finder: which trial times a jump passes over *)
(* ===================================================================== *)

Module EarliestFitFacts.

Import SchedulerFacts.

(** A trial time is rejected when the body of the loop, run at it, does
    not return a slot. *)

Section Skipped.

Variables (dur : Z) (busy : list TimeInterval) (sh eh buf deadline : Z).

Local Abbreviation body := (body dur busy sh eh buf deadline).
Local Abbreviation loop := (loop dur busy sh eh buf deadline).
Local Abbreviation total := (totalDurationMs dur buf).

Lemma moveToNextWorkingDay_at (t : Z) :
  0 <= sh < 24 ->
  moveToNextWorkingDay sh t
  = at_ (Day t + (if getDay t =? 5 then 3 else if getDay t =? 6 then 2 else 1)) sh 0.
Proof.
  intros Hsh. unfold moveToNextWorkingDay. cbv zeta.
  assert (Hd : getDay (setHours sh 0 0 0 t) = getDay t).
  { unfold getDay. f_equal. f_equal. rewrite setHours_start.
    unfold Day, msPerDay, msPerHour. Z.to_euclidean_division_equations; lia. }
  rewrite Hd, !setDate_getDate_plus, setHours_start. unfold at_, msPerMinute.
  destruct (getDay t =? 5); [lia |]. destruct (getDay t =? 6); lia.
Qed.

(** From a trial time outside working hours, at or after the opening hour
    of its day, every instant up to the jump target is outside working
    hours too. *)
Lemma outside_hours_until_jump (t t' : Z) :
  0 <= sh < 24 ->
  sh <= getHours t ->
  isWithinWorkingHours t sh eh = false ->
  t <= t' < moveToNextWorkingDay sh t ->
  isWithinWorkingHours t' sh eh = false.
Proof.
  intros Hsh Hopen Hout Ht'. rewrite moveToNextWorkingDay_at in Ht' by assumption.
  unfold isWithinWorkingHours in *. cbv zeta in *.
  rewrite !andb_false_iff in Hout. rewrite !andb_false_iff.
  rewrite !Z.leb_gt, Z.ltb_ge in Hout. rewrite !Z.leb_gt, Z.ltb_ge.
  unfold at_, getDay, getHours, Day, msPerDay, msPerHour, msPerMinute in *.
  destruct ((t / 86400000 + 4) mod 7 =? 5) eqn:E5;
    [apply Z.eqb_eq in E5 | apply Z.eqb_neq in E5];
    [| destruct ((t / 86400000 + 4) mod 7 =? 6) eqn:E6;
       [apply Z.eqb_eq in E6 | apply Z.eqb_neq in E6]];
    Z.to_euclidean_division_equations; lia.
Qed.

Lemma endsOutsideWorkingDay_spec (c pe : Z) :
  endsOutsideWorkingDay c pe eh = true
  <-> eh < getHours pe \/ (getHours pe = eh /\ 0 < getMinutes pe)
      \/ getDate pe <> getDate c.
Proof.
  unfold endsOutsideWorkingDay.
  rewrite !orb_true_iff, andb_true_iff, negb_true_iff, !Z.ltb_lt, Z.eqb_eq, Z.eqb_neq.
  tauto.
Qed.

(** From a trial time within working hours whose buffered end fails the
    end-of-day test, every instant up to the jump target is either outside
    working hours or fails that test too, when duration plus buffer is
    between 0 and 27 days. *)
Lemma end_test_fails_until_jump (t t' : Z) :
  0 <= sh < 24 ->
  0 <= dur + buf <= 27 * 24 * 60 ->
  isWithinWorkingHours t sh eh = true ->
  endsOutsideWorkingDay t (t + total) eh = true ->
  t <= t' < moveToNextWorkingDay sh t ->
  isWithinWorkingHours t' sh eh = false
  \/ endsOutsideWorkingDay t' (t' + total) eh = true.
Proof.
  intros Hsh Htot Hin Hend Ht'. rewrite moveToNextWorkingDay_at in Ht' by assumption.
  destruct (Z.eq_dec (Day t') (Day t)) as [Hsame | Hlater].
  - right. apply endsOutsideWorkingDay_spec. apply endsOutsideWorkingDay_spec in Hend.
    unfold totalDurationMs in *.
    set (pe := t + (dur + buf) * 60000) in *.
    set (pe' := t' + (dur + buf) * 60000).
    destruct (Z.eq_dec (Day pe') (Day t')) as [Hp | Hp].
    + assert (Hpe : Day pe = Day t).
      { subst pe pe'. unfold Day, msPerDay in *.
        Z.to_euclidean_division_equations; lia. }
      destruct Hend as [Hend | [Hend | Hend]];
        [| | exfalso; apply Hend; now apply getDate_same_day].
      * subst pe pe'. unfold Day, getHours, getMinutes, msPerDay, msPerHour, msPerMinute in *.
        Z.to_euclidean_division_equations; lia.
      * subst pe pe'. unfold Day, getHours, getMinutes, msPerDay, msPerHour, msPerMinute in *.
        Z.to_euclidean_division_equations; lia.
    + right. right. apply getDate_differs_within_four_weeks.
      subst pe'. unfold Day, msPerDay in *.
      Z.to_euclidean_division_equations; lia.
  - left. unfold isWithinWorkingHours in *. cbv zeta in *.
    rewrite !andb_true_iff in Hin. rewrite !Z.leb_le, Z.ltb_lt in Hin.
    rewrite !andb_false_iff. rewrite !Z.leb_gt, Z.ltb_ge.
    unfold at_, getDay, getHours, Day, msPerDay, msPerHour, msPerMinute in *.
    destruct ((t / 86400000 + 4) mod 7 =? 5) eqn:E5;
      [apply Z.eqb_eq in E5 | apply Z.eqb_neq in E5];
      [| destruct ((t / 86400000 + 4) mod 7 =? 6) eqn:E6;
         [apply Z.eqb_eq in E6 | apply Z.eqb_neq in E6]];
      Z.to_euclidean_division_equations; lia.
Qed.

(** From a trial time that conflicts with a busy slot, every instant up to
    the end of that slot conflicts with it too. *)
Lemma conflict_until_jump (t t' e : Z) :
  firstConflict busy t (t + total) = Some e ->
  t <= t' < e ->
  firstConflict busy t' (t' + total) <> None.
Proof.
  intros Hc Ht' Hnone.
  destruct (firstConflict_Some _ _ _ _ Hc) as (b & Hin & Hov & <-).
  rewrite firstConflict_None in Hnone. specialize (Hnone b Hin).
  apply overlaps_spec in Hov. unfold overlaps in Hnone.
  apply andb_false_iff in Hnone. rewrite Z.ltb_ge, Z.ltb_ge in Hnone. lia.
Qed.

(** What it takes for the body to return a slot at [t]. *)
Lemma body_accepts_iff (t : Z) (s : TimeInterval) :
  body t = Return (Some s)
  <-> s = {| start := t; end_ := t + dur * 60000 |}
      /\ t + total <= deadline
      /\ isWithinWorkingHours t sh eh = true
      /\ endsOutsideWorkingDay t (t + total) eh = false
      /\ (forall b, In b busy -> overlaps b t (t + total) = false).
Proof.
  split.
  - intros H. destruct (body_found _ _ _ _ _ _ _ _ H) as (H1 & H2 & H3 & H4 & H5).
    rewrite firstConflict_None in H5. auto.
  - intros (-> & H2 & H3 & H4 & H5). rewrite <- firstConflict_None in H5.
    unfold Scheduler.body. cbv zeta. apply Z.ltb_ge in H2.
    now rewrite H2, H3, H4, H5.
Qed.

Section Earliest.

Hypothesis Hsh : 0 <= sh < 24.
Hypothesis Htot : 0 <= dur + buf <= 27 * 24 * 60.
Hypothesis Hbusy : forall b, In b busy -> sh <= getHours (end_ b).

Lemma body_Continue_skips (t t2 : Z) :
  sh <= getHours t ->
  body t = Continue t2 ->
  sh <= getHours t2
  /\ forall t', t <= t' < t2 -> forall s, body t' <> Return (Some s).
Proof using Hsh Htot Hbusy.
  intros Hopen. unfold Scheduler.body at 1. cbv zeta.
  destruct (deadline <? t + total); [discriminate |].
  destruct (isWithinWorkingHours t sh eh) eqn:Ew; cbn [negb].
  - destruct (endsOutsideWorkingDay t (t + total) eh) eqn:Ee.
    + intros [= <-]. split.
      * rewrite moveToNextWorkingDay_at by assumption.
        rewrite getHours_at by lia. lia.
      * intros t' Ht' s Hs. apply body_accepts_iff in Hs as (_ & _ & H3 & H4 & _).
        destruct (end_test_fails_until_jump t t' Hsh Htot Ew Ee Ht'); congruence.
    + destruct (firstConflict busy t (t + total)) as [e |] eqn:Ec; [| discriminate].
      intros [= <-]. split.
      * destruct (firstConflict_Some _ _ _ _ Ec) as (b & Hin & _ & <-). auto.
      * intros t' Ht' s Hs. apply body_accepts_iff in Hs as (_ & _ & _ & _ & H5).
        apply (conflict_until_jump t t' e Ec Ht'). now apply firstConflict_None.
  - intros [= <-]. split.
    + rewrite moveToNextWorkingDay_at by assumption.
      rewrite getHours_at by lia. lia.
    + intros t' Ht' s Hs. apply body_accepts_iff in Hs as (_ & _ & H3 & _).
      rewrite (outside_hours_until_jump t t' Hsh Hopen Ew Ht') in H3. discriminate.
Qed.

Lemma body_null_is_final (t t' : Z) (s : TimeInterval) :
  body t = Return None -> t <= t' -> body t' <> Return (Some s).
Proof.
  unfold Scheduler.body at 1. cbv zeta.
  destruct (deadline <? t + total) eqn:Ed.
  - intros _ Hle Hs. apply body_accepts_iff in Hs as (_ & H2 & _).
    apply Z.ltb_lt in Ed. lia.
  - destruct (negb (isWithinWorkingHours t sh eh)); [discriminate |].
    destruct (endsOutsideWorkingDay t (t + total) eh); [discriminate |].
    destruct (firstConflict busy t (t + total)); discriminate.
Qed.

Lemma loop_skips_only_rejected (fuel : nat) : forall cur r,
  sh <= getHours cur ->
  loop fuel cur = Some r ->
  forall t' s, cur <= t' < deadline ->
    body t' = Return (Some s) ->
    exists slot, r = Some slot /\ start slot <= t'.
Proof using Hsh Htot Hbusy.
  induction fuel as [|fuel IH]; intros cur r Hopen; cbn [Scheduler.loop].
  - destruct (cur <? deadline) eqn:E; [discriminate |].
    apply Z.ltb_ge in E. intros _ t' s Ht'. lia.
  - destruct (cur <? deadline) eqn:E.
    + destruct (body cur) as [r0 | t2] eqn:Eb.
      * intros [= <-] t' s Ht' Hs. destruct r0 as [slot |].
        -- exists slot. split; [reflexivity |].
           apply body_accepts_iff in Eb as (-> & _). cbn. lia.
        -- exfalso. exact (body_null_is_final cur t' s Eb (proj1 Ht') Hs).
      * intros Hl t' s Ht' Hs.
        destruct (body_Continue_skips cur t2 Hopen Eb) as [Hopen2 Hskip].
        destruct (Z.lt_ge_cases t' t2) as [Hlt | Hge].
        -- exfalso. exact (Hskip t' ltac:(lia) s Hs).
        -- exact (IH t2 r Hopen2 Hl t' s ltac:(lia) Hs).
    + apply Z.ltb_ge in E. intros _ t' s Ht'. lia.
Qed.

End Earliest.

End Skipped.

(** Under the conditions of [loop_skips_only_rejected] the result of the
    finder is determined by which busy slots there are. *)
Lemma finder_result_same_busy_slots
  (fuel fuel' : nat) (cur dur : Z) (busy busy' : list TimeInterval)
  (sh eh buf deadline : Z) (r r' : option TimeInterval) :
  0 <= sh < 24 ->
  0 <= dur + buf <= 27 * 24 * 60 ->
  sh <= getHours cur ->
  (forall b, In b busy -> sh <= getHours (end_ b)) ->
  (forall b, In b busy <-> In b busy') ->
  findEarliestFitSlot_fuel fuel cur dur busy sh eh buf deadline = Some r ->
  findEarliestFitSlot_fuel fuel' cur dur busy' sh eh buf deadline = Some r' ->
  r = r'.
Proof.
  intros Hsh Htot Hopen Hbusy Hsame Hr Hr'.
  assert (Hbusy' : forall b, In b busy' -> sh <= getHours (end_ b))
    by (intros b Hb; apply Hbusy, Hsame, Hb).
  assert (Hmove : forall t s,
            body dur busy sh eh buf deadline t = Return (Some s)
            <-> body dur busy' sh eh buf deadline t = Return (Some s)).
  { intros t s. rewrite !body_accepts_iff.
    split; intros (H1 & H2 & H3 & H4 & H5); repeat split; auto;
      intros b Hb; apply H5, Hsame, Hb. }
  unfold findEarliestFitSlot_fuel in *.
  assert (Hfound : forall f b1 b2 x y,
            (forall t s, body dur b1 sh eh buf deadline t = Return (Some s)
                         <-> body dur b2 sh eh buf deadline t = Return (Some s)) ->
            (forall b, In b b2 -> sh <= getHours (end_ b)) ->
            loop dur b1 sh eh buf deadline f cur = Some (Some x) ->
            forall f2, loop dur b2 sh eh buf deadline f2 cur = Some y ->
            exists z, y = Some z /\ start z <= start x).
  { intros f b1 b2 x y Hiff Hb2 Hx f2 Hy.
    destruct (loop_found _ _ _ _ _ _ _ _ _ Hx) as (t & Ht & Hb & Hle).
    pose proof (proj1 (body_accepts_iff _ _ _ _ _ _ _ _) Hb) as (-> & _).
    cbn [start].
    exact (loop_skips_only_rejected dur b2 sh eh buf deadline Hsh Htot Hb2 f2 cur y
             Hopen Hy t _ (conj (Hle ltac:(lia)) Ht) (proj1 (Hiff _ _) Hb)). }
  destruct r as [x |], r' as [y |]; [| | | reflexivity].
  - destruct (Hfound _ _ _ _ _ Hmove Hbusy' Hr _ Hr') as (z & [= <-] & Hle1).
    destruct (Hfound _ _ _ _ _ (fun t s => iff_sym (Hmove t s)) Hbusy Hr' _ Hr)
      as (z & [= <-] & Hle2).
    destruct (loop_found _ _ _ _ _ _ _ _ _ Hr) as (t & _ & Hb & _).
    destruct (loop_found _ _ _ _ _ _ _ _ _ Hr') as (t' & _ & Hb' & _).
    apply body_accepts_iff in Hb as (-> & _). apply body_accepts_iff in Hb' as (-> & _).
    cbn [start] in *. assert (t = t') as -> by lia. reflexivity.
  - destruct (Hfound _ _ _ _ _ Hmove Hbusy' Hr _ Hr') as (z & [=] & _).
  - destruct (Hfound _ _ _ _ _ (fun t s => iff_sym (Hmove t s)) Hbusy Hr' _ Hr)
      as (z & [=] & _).
Qed.

End EarliestFitFacts.

Import EarliestFitFacts.

(* ===================================================================== *)
(** ** Further properties of the finder *)
(* ===================================================================== *)

(** X1.  For a start hour that is not negative, the loop of the finder ends
    within as many executions of its body as there are busy slots plus
    calendar days in the window, whatever the other arguments; running it
    longer gives the same result. *)
Theorem finder_loop_ends_within_bound
  (searchStartTime durationMinutes : Z) (busyTimes : list TimeInterval)
  (workStartHour workEndHour bufferMinutes searchEndDate : Z) :
  0 <= workStartHour ->
  exists r,
    forall fuel,
      (length busyTimes + Z.to_nat (calendarDays searchStartTime searchEndDate)
       <= fuel)%nat ->
      findEarliestFitSlot_fuel fuel searchStartTime durationMinutes busyTimes
        workStartHour workEndHour bufferMinutes searchEndDate = Some r.
Proof.
  intros Hsh.
  destruct (findEarliestFitSlot_total searchStartTime durationMinutes busyTimes
              workStartHour workEndHour bufferMinutes searchEndDate Hsh) as [r Hr].
  exists r. intros fuel Hfuel.
  unfold findEarliestFitSlot_fuel. eapply loop_fuel_mono; eauto.
Qed.

Lemma finder_loop_ends_within_bound_witness :
  exists r,
    forall fuel,
      (length [{| start := at_ monday 9 0; end_ := at_ monday 17 0 |}]
       + Z.to_nat (calendarDays (at_ monday 8 0) horizon) <= fuel)%nat ->
      findEarliestFitSlot_fuel fuel (at_ monday 8 0) 60
        [{| start := at_ monday 9 0; end_ := at_ monday 17 0 |}] 9 17 15 horizon
      = Some r.
Proof.
  apply (finder_loop_ends_within_bound (at_ monday 8 0) 60
           [{| start := at_ monday 9 0; end_ := at_ monday 17 0 |}] 9 17 15 horizon).
  lia.
Defined.

(** X2.  A slot returned by the finder has the requested length, starts
    before the end of the window and ends, buffer included, no later than
    it; it starts on a day Monday to Friday at an hour from the start hour
    up to but not including the end hour; its buffered end passes the
    end-of-day test; and no busy slot overlaps it with its buffer. *)
Theorem found_slot_passes_every_check
  (fuel : nat) (searchStartTime durationMinutes : Z) (busyTimes : list TimeInterval)
  (workStartHour workEndHour bufferMinutes searchEndDate : Z) (slot : TimeInterval) :
  findEarliestFitSlot_fuel fuel searchStartTime durationMinutes busyTimes
    workStartHour workEndHour bufferMinutes searchEndDate = Some (Some slot) ->
  end_ slot = start slot + durationMinutes * 60000
  /\ start slot < searchEndDate
  /\ end_ slot + bufferMinutes * 60000 <= searchEndDate
  /\ 1 <= getDay (start slot) <= 5
  /\ workStartHour <= getHours (start slot) < workEndHour
  /\ getHours (end_ slot + bufferMinutes * 60000) <= workEndHour
  /\ (getHours (end_ slot + bufferMinutes * 60000) = workEndHour ->
      getMinutes (end_ slot + bufferMinutes * 60000) = 0)
  /\ getDate (end_ slot + bufferMinutes * 60000) = getDate (start slot)
  /\ forall b, In b busyTimes ->
       ~ (start b < end_ slot + bufferMinutes * 60000 /\ start slot < end_ b).
Proof.
  unfold findEarliestFitSlot_fuel. intros H.
  destruct (loop_found _ _ _ _ _ _ _ _ _ H) as (t & Ht & Hb & _).
  apply body_accepts_iff in Hb as (-> & Hd & Hw & He & Hc).
  cbn [start end_]. unfold totalDurationMs in *.
  replace (t + durationMinutes * 60000 + bufferMinutes * 60000)
    with (t + (durationMinutes + bufferMinutes) * 60000) by lia.
  unfold isWithinWorkingHours in Hw. cbv zeta in Hw.
  rewrite !andb_true_iff, !Z.leb_le, Z.ltb_lt in Hw.
  assert (Hn : ~ (workEndHour
                  < getHours (t + (durationMinutes + bufferMinutes) * 60000)
                  \/ (getHours (t + (durationMinutes + bufferMinutes) * 60000)
                      = workEndHour
                      /\ 0 < getMinutes (t + (durationMinutes + bufferMinutes) * 60000))
                  \/ getDate (t + (durationMinutes + bufferMinutes) * 60000)
                     <> getDate t)).
  { rewrite <- endsOutsideWorkingDay_spec. unfold totalDurationMs. rewrite He.
    discriminate. }
  assert (Hmin : 0 <= getMinutes (t + (durationMinutes + bufferMinutes) * 60000))
    by (unfold getMinutes; Z.to_euclidean_division_equations; lia).
  set (pe := t + (durationMinutes + bufferMinutes) * 60000) in *.
  assert (Hhour : getHours pe <= workEndHour)
    by (assert (~ workEndHour < getHours pe) by tauto; lia).
  assert (Hzero : getHours pe = workEndHour -> getMinutes pe = 0)
    by (intros E; assert (~ 0 < getMinutes pe) by tauto; lia).
  assert (Hdate : getDate pe = getDate t)
    by (destruct (Z.eq_dec (getDate pe) (getDate t)); tauto).
  assert (Hfree : forall b, In b busyTimes -> ~ (start b < pe /\ t < end_ b)).
  { intros b Hin Hov. specialize (Hc b Hin). apply overlaps_spec in Hov.
    subst pe. congruence. }
  split; [reflexivity |]. split; [assumption |]. split; [assumption |].
  split; [lia |]. split; [lia |]. auto.
Qed.

Lemma found_slot_passes_every_check_witness :
  at_ tuesday 10 0 = at_ tuesday 9 0 + 60 * 60000
  /\ at_ tuesday 9 0 < horizon
  /\ at_ tuesday 10 0 + 15 * 60000 <= horizon
  /\ 1 <= getDay (at_ tuesday 9 0) <= 5
  /\ 9 <= getHours (at_ tuesday 9 0) < 17
  /\ getHours (at_ tuesday 10 0 + 15 * 60000) <= 17
  /\ (getHours (at_ tuesday 10 0 + 15 * 60000) = 17 ->
      getMinutes (at_ tuesday 10 0 + 15 * 60000) = 0)
  /\ getDate (at_ tuesday 10 0 + 15 * 60000) = getDate (at_ tuesday 9 0)
  /\ forall b, In b [{| start := at_ monday 9 0; end_ := at_ monday 17 0 |}] ->
       ~ (start b < at_ tuesday 10 0 + 15 * 60000 /\ at_ tuesday 9 0 < end_ b).
Proof.
  apply (found_slot_passes_every_check 9 (at_ monday 8 0) 60
           [{| start := at_ monday 9 0; end_ := at_ monday 17 0 |}] 9 17 15 horizon
           {| start := at_ tuesday 9 0; end_ := at_ tuesday 10 0 |}).
  vm_compute. reflexivity.
Defined.

(** X3.  For a start hour that is not negative, a slot returned by the
    finder never starts before the time the search started from. *)
Theorem found_slot_is_not_before_search_start
  (fuel : nat) (searchStartTime durationMinutes : Z) (busyTimes : list TimeInterval)
  (workStartHour workEndHour bufferMinutes searchEndDate : Z) (slot : TimeInterval) :
  0 <= workStartHour ->
  findEarliestFitSlot_fuel fuel searchStartTime durationMinutes busyTimes
    workStartHour workEndHour bufferMinutes searchEndDate = Some (Some slot) ->
  searchStartTime <= start slot.
Proof.
  unfold findEarliestFitSlot_fuel. intros Hsh H.
  destruct (loop_found _ _ _ _ _ _ _ _ _ H) as (t & _ & Hb & Hle).
  apply body_accepts_iff in Hb as (-> & _). cbn. auto.
Qed.

Lemma found_slot_is_not_before_search_start_witness :
  at_ monday 8 0 <= start {| start := at_ tuesday 9 0; end_ := at_ tuesday 9 30 |}.
Proof.
  apply (found_slot_is_not_before_search_start 9 (at_ monday 8 0) 30 [] 9 17 15 horizon).
  - lia.
  - vm_compute. reflexivity.
Defined.

(** With a negative start hour the jump can go back in time, and a slot
    before the search start is returned: from Saturday 10:00 with start
    hour -48 the finder answers Friday 00:00. *)
Example negative_start_hour_goes_back :
  findEarliestFitSlot_fuel 3 (at_ (monday + 5) 10 0) 30 [] (-48) 24 15 horizon
  = Some (Some {| start := at_ (monday + 4) 0 0; end_ := at_ (monday + 4) 0 30 |}).
Proof. vm_compute. reflexivity. Qed.

(** X4.  The returned slot is the earliest fit.  Let the start hour be an
    hour of the clock, duration plus buffer lie between 0 and 27 days, and
    the search start and the end of every busy slot fall at or after the
    start hour of their day.  Then no instant from the search start up to
    the start of the returned slot passes the checks of the loop: deadline,
    working hours, end of day and conflicts. *)
Theorem returned_slot_is_the_earliest_fit
  (fuel : nat) (searchStartTime durationMinutes : Z) (busyTimes : list TimeInterval)
  (workStartHour workEndHour bufferMinutes searchEndDate : Z) (slot : TimeInterval) :
  0 <= workStartHour < 24 ->
  0 <= durationMinutes + bufferMinutes <= 27 * 24 * 60 ->
  workStartHour <= getHours searchStartTime ->
  (forall b, In b busyTimes -> workStartHour <= getHours (end_ b)) ->
  findEarliestFitSlot_fuel fuel searchStartTime durationMinutes busyTimes
    workStartHour workEndHour bufferMinutes searchEndDate = Some (Some slot) ->
  forall t, searchStartTime <= t < start slot ->
    ~ (t + (durationMinutes + bufferMinutes) * 60000 <= searchEndDate
       /\ isWithinWorkingHours t workStartHour workEndHour = true
       /\ endsOutsideWorkingDay t (t + (durationMinutes + bufferMinutes) * 60000)
            workEndHour = false
       /\ forall b, In b busyTimes ->
            overlaps b t (t + (durationMinutes + bufferMinutes) * 60000) = false).
Proof.
  intros Hsh Htot Hopen Hbusy Hr t Ht (H1 & H2 & H3 & H4).
  unfold findEarliestFitSlot_fuel in Hr.
  destruct (loop_found _ _ _ _ _ _ _ _ _ Hr) as (t0 & Ht0 & Hb0 & _).
  apply body_accepts_iff in Hb0 as (E & _).
  assert (Hacc : body durationMinutes busyTimes workStartHour workEndHour bufferMinutes
                   searchEndDate t
                 = Return (Some {| start := t; end_ := t + durationMinutes * 60000 |}))
    by (apply body_accepts_iff; unfold totalDurationMs; auto).
  destruct (loop_skips_only_rejected _ _ _ _ _ _ Hsh Htot Hbusy fuel searchStartTime _
              Hopen Hr t _ ltac:(subst slot; cbn [start] in Ht; lia) Hacc)
    as (z & [= <-] & Hle).
  lia.
Qed.

Lemma returned_slot_is_the_earliest_fit_witness :
  ~ (at_ monday 9 1 + (60 + 15) * 60000 <= horizon
     /\ isWithinWorkingHours (at_ monday 9 1) 9 17 = true
     /\ endsOutsideWorkingDay (at_ monday 9 1) (at_ monday 9 1 + (60 + 15) * 60000) 17
        = false
     /\ forall b, In b [{| start := at_ monday 10 0; end_ := at_ monday 11 30 |}] ->
          overlaps b (at_ monday 9 1) (at_ monday 9 1 + (60 + 15) * 60000) = false).
Proof.
  apply (returned_slot_is_the_earliest_fit 9 (at_ monday 9 0) 60
           [{| start := at_ monday 10 0; end_ := at_ monday 11 30 |}] 9 17 15 horizon
           {| start := at_ monday 11 30; end_ := at_ monday 12 30 |}).
  - lia.
  - lia.
  - vm_compute. discriminate.
  - intros b [<- | []]. vm_compute. discriminate.
  - vm_compute. reflexivity.
  - vm_compute. split; [discriminate | reflexivity].
Defined.

(** X5.  Under the same conditions, when the finder returns [null] no
    instant from the search start to the end of the window passes the
    checks of the loop. *)
Theorem null_means_nothing_fits
  (fuel : nat) (searchStartTime durationMinutes : Z) (busyTimes : list TimeInterval)
  (workStartHour workEndHour bufferMinutes searchEndDate : Z) :
  0 <= workStartHour < 24 ->
  0 <= durationMinutes + bufferMinutes <= 27 * 24 * 60 ->
  workStartHour <= getHours searchStartTime ->
  (forall b, In b busyTimes -> workStartHour <= getHours (end_ b)) ->
  findEarliestFitSlot_fuel fuel searchStartTime durationMinutes busyTimes
    workStartHour workEndHour bufferMinutes searchEndDate = Some None ->
  forall t, searchStartTime <= t < searchEndDate ->
    ~ (t + (durationMinutes + bufferMinutes) * 60000 <= searchEndDate
       /\ isWithinWorkingHours t workStartHour workEndHour = true
       /\ endsOutsideWorkingDay t (t + (durationMinutes + bufferMinutes) * 60000)
            workEndHour = false
       /\ forall b, In b busyTimes ->
            overlaps b t (t + (durationMinutes + bufferMinutes) * 60000) = false).
Proof.
  intros Hsh Htot Hopen Hbusy Hr t Ht (H1 & H2 & H3 & H4).
  unfold findEarliestFitSlot_fuel in Hr.
  assert (Hacc : body durationMinutes busyTimes workStartHour workEndHour bufferMinutes
                   searchEndDate t
                 = Return (Some {| start := t; end_ := t + durationMinutes * 60000 |}))
    by (apply body_accepts_iff; unfold totalDurationMs; auto).
  destruct (loop_skips_only_rejected _ _ _ _ _ _ Hsh Htot Hbusy fuel searchStartTime _
              Hopen Hr t _ Ht Hacc) as (z & [=] & _).
Qed.

Lemma null_means_nothing_fits_witness :
  ~ (at_ monday 15 50 + (60 + 15) * 60000 <= at_ monday 17 0
     /\ isWithinWorkingHours (at_ monday 15 50) 9 17 = true
     /\ endsOutsideWorkingDay (at_ monday 15 50) (at_ monday 15 50 + (60 + 15) * 60000) 17
        = false
     /\ forall b, In b [{| start := at_ monday 10 0; end_ := at_ monday 16 0 |}] ->
          overlaps b (at_ monday 15 50) (at_ monday 15 50 + (60 + 15) * 60000) = false).
Proof.
  apply (null_means_nothing_fits 9 (at_ monday 9 0) 60
           [{| start := at_ monday 10 0; end_ := at_ monday 16 0 |}] 9 17 15
           (at_ monday 17 0)).
  - lia.
  - lia.
  - vm_compute. discriminate.
  - intros b [<- | []]. vm_compute. discriminate.
  - vm_compute. reflexivity.
  - vm_compute. split; [discriminate | reflexivity].
Defined.

(** X6.  Under the conditions of X4 the answer of the finder depends only
    on which busy slots there are, not on their order in [busyTimes] nor
    on repetitions: the list need not be sorted. *)
Theorem busy_order_is_irrelevant
  (searchStartTime durationMinutes : Z) (busyTimes busyTimes' : list TimeInterval)
  (workStartHour workEndHour bufferMinutes searchEndDate : Z) :
  0 <= workStartHour < 24 ->
  0 <= durationMinutes + bufferMinutes <= 27 * 24 * 60 ->
  workStartHour <= getHours searchStartTime ->
  (forall b, In b busyTimes -> workStartHour <= getHours (end_ b)) ->
  (forall b, In b busyTimes <-> In b busyTimes') ->
  findEarliestFitSlot searchStartTime durationMinutes busyTimes
    workStartHour workEndHour bufferMinutes searchEndDate
  = findEarliestFitSlot searchStartTime durationMinutes busyTimes'
      workStartHour workEndHour bufferMinutes searchEndDate.
Proof.
  intros Hsh Htot Hopen Hbusy Hsame.
  destruct (findEarliestFitSlot_total searchStartTime durationMinutes busyTimes
              workStartHour workEndHour bufferMinutes searchEndDate ltac:(lia))
    as [r Hr].
  destruct (findEarliestFitSlot_total searchStartTime durationMinutes busyTimes'
              workStartHour workEndHour bufferMinutes searchEndDate ltac:(lia))
    as [r' Hr'].
  rewrite Hr, Hr'. f_equal. unfold findEarliestFitSlot in Hr, Hr'.
  exact (finder_result_same_busy_slots _ _ _ _ _ _ _ _ _ _ _ _
           Hsh Htot Hopen Hbusy Hsame Hr Hr').
Qed.

Lemma busy_order_is_irrelevant_witness :
  findEarliestFitSlot (at_ monday 9 0) 60
    [{| start := at_ monday 9 30; end_ := at_ monday 11 0 |};
     {| start := at_ monday 11 0; end_ := at_ monday 12 0 |}] 9 17 15 horizon
  = findEarliestFitSlot (at_ monday 9 0) 60
      [{| start := at_ monday 11 0; end_ := at_ monday 12 0 |};
       {| start := at_ monday 9 30; end_ := at_ monday 11 0 |};
       {| start := at_ monday 11 0; end_ := at_ monday 12 0 |}] 9 17 15 horizon.
Proof.
  apply busy_order_is_irrelevant.
  - lia.
  - lia.
  - vm_compute. discriminate.
  - intros b [<- | [<- | []]]; vm_compute; discriminate.
  - intros b. cbn [In]. tauto.
Defined.

(** X7.  When the window from the search start to the deadline is shorter
    than duration plus buffer, the finder returns [null], whatever the busy
    list and the working hours (start hour not negative). *)
Theorem window_too_short_gives_null
  (searchStartTime durationMinutes : Z) (busyTimes : list TimeInterval)
  (workStartHour workEndHour bufferMinutes searchEndDate : Z) :
  0 <= workStartHour ->
  searchEndDate < searchStartTime + (durationMinutes + bufferMinutes) * 60000 ->
  findEarliestFitSlot searchStartTime durationMinutes busyTimes
    workStartHour workEndHour bufferMinutes searchEndDate = Some None.
Proof.
  intros Hsh Hshort.
  destruct (findEarliestFitSlot_total searchStartTime durationMinutes busyTimes
              workStartHour workEndHour bufferMinutes searchEndDate Hsh) as [r Hr].
  rewrite Hr. destruct r as [slot |]; [| reflexivity]. exfalso.
  destruct (findEarliestFitSlot_found _ _ _ _ _ _ _ _ Hr) as (_ & Hd & _ & _ & Hle).
  specialize (Hle Hsh). lia.
Qed.

Lemma window_too_short_gives_null_witness :
  findEarliestFitSlot (at_ monday 9 0) 60 [] 9 17 15 (at_ monday 10 0) = Some None.
Proof.
  apply window_too_short_gives_null.
  - lia.
  - vm_compute. reflexivity.
Defined.

(** X8.  The jump "to the next working day": for a start hour of the
    clock it lands on the start hour, to the millisecond, three days after
    a Friday, two after a Saturday and one day after any other day; the
    target is later than the instant left, and it is within working hours
    whenever the start hour is before the end hour. *)
Theorem jump_lands_on_opening_of_a_working_day (workStartHour workEndHour t : Z) :
  0 <= workStartHour < 24 ->
  workStartHour < workEndHour ->
  moveToNextWorkingDay workStartHour t
  = at_ (Day t + (if getDay t =? 5 then 3 else if getDay t =? 6 then 2 else 1))
        workStartHour 0
  /\ t < moveToNextWorkingDay workStartHour t
  /\ isWithinWorkingHours (moveToNextWorkingDay workStartHour t)
       workStartHour workEndHour = true.
Proof.
  intros Hsh Heh. split; [now apply moveToNextWorkingDay_at |].
  split; [apply moveToNextWorkingDay_later; lia |].
  pose proof (moveToNextWorkingDay_weekday workStartHour t) as Hday.
  unfold isWithinWorkingHours. cbv zeta.
  rewrite moveToNextWorkingDay_at in * by assumption.
  rewrite getHours_at by lia.
  rewrite !andb_true_iff, !Z.leb_le, Z.ltb_lt. lia.
Qed.

Lemma jump_lands_on_opening_of_a_working_day_witness :
  moveToNextWorkingDay 9 (at_ (monday + 4) 18 30) = at_ (monday + 7) 9 0
  /\ at_ (monday + 4) 18 30 < moveToNextWorkingDay 9 (at_ (monday + 4) 18 30)
  /\ isWithinWorkingHours (moveToNextWorkingDay 9 (at_ (monday + 4) 18 30)) 9 17 = true.
Proof.
  apply (jump_lands_on_opening_of_a_working_day 9 17 (at_ (monday + 4) 18 30)); lia.
Defined.

(** X9.  A search that starts outside working hours never returns a slot
    of the day it starts on, even when it starts before the opening hour of
    a working day (start hour not negative). *)
Theorem search_from_outside_hours_skips_the_day
  (fuel : nat) (searchStartTime durationMinutes : Z) (busyTimes : list TimeInterval)
  (workStartHour workEndHour bufferMinutes searchEndDate : Z) (slot : TimeInterval) :
  0 <= workStartHour ->
  isWithinWorkingHours searchStartTime workStartHour workEndHour = false ->
  findEarliestFitSlot_fuel fuel searchStartTime durationMinutes busyTimes
    workStartHour workEndHour bufferMinutes searchEndDate = Some (Some slot) ->
  Day searchStartTime < Day (start slot).
Proof.
  intros Hsh Hout Hr. unfold findEarliestFitSlot_fuel in Hr.
  pose proof (outside_hours_skips_the_day _ _ _ _ _ _ _ _ _ Hsh Hout Hr). lia.
Qed.

Lemma search_from_outside_hours_skips_the_day_witness :
  Day (at_ monday 8 59) < Day (start {| start := at_ tuesday 9 0; end_ := at_ tuesday 9 30 |}).
Proof.
  apply (search_from_outside_hours_skips_the_day 9 (at_ monday 8 59) 30 [] 9 17 15 horizon).
  - lia.
  - vm_compute. reflexivity.
  - vm_compute. reflexivity.
Defined.

(* ===================================================================== *)
(** ** The batch loop along a whole run *)
(* ===================================================================== *)

Module RunFacts.

Section Run.

Variable createCalendarEvent : nat -> string -> Z -> Z -> option (option string).
Variable rangeEnd : Z.

Local Abbreviation schedule_step := (schedule_step createCalendarEvent rangeEnd).
Local Abbreviation schedule_loop := (schedule_loop createCalendarEvent rangeEnd).
Local Abbreviation finderResult := (finderResult rangeEnd).
Local Abbreviation stepPlaced := (stepPlaced createCalendarEvent rangeEnd).
Local Abbreviation stepCalendarError := (stepCalendarError createCalendarEvent rangeEnd).
Local Abbreviation stepNoSlot := (stepNoSlot rangeEnd).

Lemma schedule_loop_cons i s rest st st' its :
  schedule_loop i (s :: rest) st = Some (st', its) ->
  exists st1 it its',
    its = it :: its'
    /\ schedule_step i s st = Some (st1, it)
    /\ schedule_loop (S i) rest st1 = Some (st', its').
Proof.
  cbn. destruct (Server.schedule_step _ _ i s st) as [[st1 it] |]; [| discriminate].
  destruct (Server.schedule_loop _ _ (S i) rest st1) as [[st2 its'] |] eqn:El;
    [| discriminate].
  intros [= <- <-]. exists st1, it, its'. auto.
Qed.

(** An invariant of the steps is an invariant of the run. *)
Lemma schedule_loop_invariant (I : State -> Prop) :
  (forall i s st st' it, I st -> schedule_step i s st = Some (st', it) -> I st') ->
  forall subtasks i st st' its,
    I st -> schedule_loop i subtasks st = Some (st', its) -> I st'.
Proof.
  intros Hstep. induction subtasks as [|s rest IH]; intros i st st' its HI H.
  - cbn in H. now injection H as <- <-.
  - destruct (schedule_loop_cons _ _ _ _ _ _ H) as (st1 & it & its' & _ & Hs & Hl).
    eauto.
Qed.

Lemma schedule_loop_wf subtasks i st st' its :
  wf st -> schedule_loop i subtasks st = Some (st', its) -> wf st'.
Proof.
  apply schedule_loop_invariant. intros ? ? ? ? ? Hwf Hs.
  exact (schedule_step_wf _ _ _ _ _ _ _ Hwf Hs).
Qed.

(** What the outcome says about the step. *)
Lemma outcome_Placed i s st st' it slot :
  schedule_step i s st = Some (st', it) -> outcome it = Placed slot ->
  stepPlaced i s st st' it.
Proof.
  intros H Ho.
  destruct (schedule_step_cases _ _ _ _ _ _ _ H) as (_ & _ & [Hc | [Hc | Hc]]);
    [assumption | destruct Hc as (? & _ & _ & Ho' & _); congruence
     | destruct Hc as (_ & Ho' & _); congruence].
Qed.

Lemma outcome_CalendarError i s st st' it slot :
  schedule_step i s st = Some (st', it) -> outcome it = CalendarError slot ->
  stepCalendarError i s st st' it.
Proof.
  intros H Ho.
  destruct (schedule_step_cases _ _ _ _ _ _ _ H) as (_ & _ & [Hc | [Hc | Hc]]);
    [destruct Hc as (? & ? & _ & _ & Ho' & _); congruence | assumption
     | destruct Hc as (_ & Ho' & _); congruence].
Qed.

Lemma outcome_NoSlot i s st st' it :
  schedule_step i s st = Some (st', it) -> outcome it = NoSlot ->
  stepNoSlot s st st' it.
Proof.
  intros H Ho.
  destruct (schedule_step_cases _ _ _ _ _ _ _ H) as (_ & _ & [Hc | [Hc | Hc]]);
    [destruct Hc as (? & ? & _ & _ & Ho' & _); congruence
    | destruct Hc as (? & _ & _ & Ho' & _); congruence | assumption].
Qed.

(** The finder call behind an iteration. *)
Lemma schedule_step_finder i s st st' it :
  schedule_step i s st = Some (st', it) ->
  findEarliestFitSlot (searchedFrom it) (searchedDuration it) (busyIntervals st)
    SCHEDULING_WORK_DAY_START_HOUR SCHEDULING_WORK_DAY_END_HOUR
    SCHEDULING_BUFFER_MINUTES rangeEnd = Some (finderAnswer it).
Proof.
  intros H.
  destruct (schedule_step_cases _ _ _ _ _ _ _ H) as (-> & -> & [Hc | [Hc | Hc]]).
  - destruct Hc as (slot & url & Hf & _ & Ho & _). unfold finderAnswer. now rewrite Ho.
  - destruct Hc as (slot & Hf & _ & Ho & _). unfold finderAnswer. now rewrite Ho.
  - destruct Hc as (Hf & Ho & _). unfold finderAnswer. now rewrite Ho.
Qed.

Lemma schedule_loop_finder subtasks : forall i st st' its it,
  schedule_loop i subtasks st = Some (st', its) -> In it its ->
  exists busy,
    findEarliestFitSlot (searchedFrom it) (searchedDuration it) busy
      SCHEDULING_WORK_DAY_START_HOUR SCHEDULING_WORK_DAY_END_HOUR
      SCHEDULING_BUFFER_MINUTES rangeEnd = Some (finderAnswer it).
Proof.
  induction subtasks as [|s rest IH]; intros i st st' its it H Hin.
  - cbn in H. injection H as <- <-. destruct Hin.
  - destruct (schedule_loop_cons _ _ _ _ _ _ H) as (st1 & it1 & its' & -> & Hs & Hl).
    destruct Hin as [<- | Hin]; [| eauto].
    eexists. exact (schedule_step_finder _ _ _ _ _ Hs).
Qed.

(** With positive durations no iteration searches from before the cursor
    the run started with. *)
Lemma schedule_loop_searchedFrom subtasks : forall i st st' its it,
  wf st -> (forall s, In s subtasks -> 0 < duration_minutes s) ->
  schedule_loop i subtasks st = Some (st', its) -> In it its ->
  cursor st <= searchedFrom it.
Proof.
  induction subtasks as [|s rest IH]; intros i st st' its it Hwf Hdur H Hin.
  - cbn in H. injection H as <- <-. destruct Hin.
  - destruct (schedule_loop_cons _ _ _ _ _ _ H) as (st1 & it1 & its' & -> & Hs & Hl).
    destruct Hin as [<- | Hin].
    + destruct (schedule_step_cases _ _ _ _ _ _ _ Hs) as (-> & _). lia.
    + pose proof (schedule_step_cursor_le _ _ _ _ _ _ _ Hwf
                    (Hdur s (or_introl eq_refl)) Hs).
      pose proof (IH _ _ _ _ it (schedule_step_wf _ _ _ _ _ _ _ Hwf Hs)
                    (fun s' H' => Hdur s' (or_intror H')) Hl Hin).
      lia.
Qed.

(** *** The ledger *)

Lemma schedule_step_count i s st st' it :
  schedule_step i s st = Some (st', it) ->
  scheduledCount st'
  = match outcome it with
    | Placed _ => S (scheduledCount st)
    | _ => scheduledCount st
    end.
Proof.
  unfold Server.schedule_step.
  destruct (findEarliestFitSlot _ _ _ _ _ _ _) as [[slot |] |]; [| | discriminate].
  - destruct (createCalendarEvent i (subtask s) (start slot) (end_ slot));
      cbn; intros [= <- <-]; reflexivity.
  - intros [= <- <-]. reflexivity.
Qed.

Lemma schedule_loop_ledger subtasks : forall i st st' its,
  schedule_loop i subtasks st = Some (st', its) ->
  length its = length subtasks
  /\ map fst (scheduledEvents st')
     = map fst (scheduledEvents st) ++ scheduledLabels subtasks its
  /\ unscheduledSubtasks st'
     = unscheduledSubtasks st ++ unscheduledEntries subtasks its
  /\ scheduledCount st' = (scheduledCount st + length (placedSlots its))%nat.
Proof.
  induction subtasks as [|s rest IH]; intros i st st' its H.
  - cbn in H. injection H as <- <-. cbn. rewrite !app_nil_r. auto.
  - destruct (schedule_loop_cons _ _ _ _ _ _ H) as (st1 & it & its' & -> & Hs & Hl).
    destruct (IH _ _ _ _ Hl) as (IH1 & IH2 & IH3 & IH4).
    pose proof (schedule_step_count _ _ _ _ _ Hs) as Hcount.
    rewrite IH2, IH3, IH4. cbn [length scheduledLabels unscheduledEntries placedSlots].
    split; [now rewrite IH1 |].
    destruct (schedule_step_cases _ _ _ _ _ _ _ Hs) as (_ & _ & [Hc | [Hc | Hc]]).
    + destruct Hc as (slot & url & _ & _ & Ho & _ & _ & _ & He & Hu).
      rewrite Ho in *. rewrite He, Hu, Hcount, map_app, <- app_assoc. cbn. 
      repeat split; lia.
    + destruct Hc as (slot & _ & _ & Ho & _ & _ & _ & He & Hu).
      rewrite Ho in *. rewrite He, Hu, Hcount, <- app_assoc. cbn. auto.
    + destruct Hc as (_ & Ho & _ & _ & _ & He & Hu).
      rewrite Ho in *. rewrite He, Hu, Hcount, <- app_assoc. cbn. auto.
Qed.

Lemma ledger_lengths subtasks : forall its,
  length its = length subtasks ->
  (length (scheduledLabels subtasks its) + length (unscheduledEntries subtasks its)
   = length subtasks)%nat
  /\ length (scheduledLabels subtasks its) = length (placedSlots its).
Proof.
  induction subtasks as [|s rest IH]; intros [|it its] Hlen; try discriminate;
    cbn; [auto |].
  destruct (IH its ltac:(cbn in Hlen; lia)) as [IH1 IH2].
  destruct (outcome it); cbn; lia.
Qed.

(** *** Busy intervals held by other [Date]s than the cursor stay as they
    are *)

Lemma frozen_step i s st st' it x :
  schedule_step i s st = Some (st', it) -> frozen st x -> frozen st' x.
Proof.
  intros H (b & Hin & Hx & Hs & He & Hns & Hne).
  destruct (schedule_step_cases _ _ _ _ _ _ _ H) as (_ & _ & [Hc | [Hc | Hc]]).
  - destruct Hc as (slot & url & _ & _ & _ & Hd & Hb & Hn & _).
    exists b. rewrite Hb, Hd, Hn, !length_app. cbn [length].
    split; [apply In_sortByStart, in_app_iff; now left |].
    split; [| lia].
    rewrite <- Hx. unfold busyInterval.
    now rewrite <- app_assoc, !getTime_app_old.
  - destruct Hc as (slot & _ & _ & _ & Hd & Hb & Hn & _).
    exists b. rewrite Hb, Hd, Hn, length_insert.
    split; [assumption |]. split; [| auto].
    rewrite <- Hx. unfold busyInterval.
    now rewrite !getTime_insert_ne by congruence.
  - destruct Hc as (_ & _ & Hd & Hb & Hn & _).
    exists b. rewrite Hb, Hd, Hn. auto 6.
Qed.

Lemma frozen_In st x : frozen st x -> In x (busyIntervals st).
Proof.
  intros (b & Hin & <- & _). unfold busyIntervals. now apply in_map.
Qed.

Lemma initialState_frozen rangeStart initialBusy x :
  In x initialBusy -> frozen (initialState rangeStart initialBusy) x.
Proof.
  intros Hin. unfold initialState.
  pose proof (loadBusy_spec [] initialBusy) as H.
  destruct (loadBusy [] initialBusy) as [d bs]. cbn.
  destruct H as (_ & _ & Hrefs & Hmap).
  rewrite <- Hmap in Hin. apply in_map_iff in Hin as (b & <- & Hb).
  destruct (Hrefs _ Hb) as [[_ H1] H2].
  exists b. cbn. rewrite length_app. cbn.
  split; [assumption |]. split; [| lia].
  unfold busyInterval. now rewrite !getTime_app_old.
Qed.

(** *** Without a placement the busy list stays as it is *)

Lemma initialState_unaliased rangeStart initialBusy :
  unaliased (initialState rangeStart initialBusy).
Proof.
  unfold initialState, unaliased.
  pose proof (loadBusy_spec [] initialBusy) as H.
  destruct (loadBusy [] initialBusy) as [d bs]. cbn.
  destruct H as (_ & _ & Hrefs & _).
  intros b Hb. destruct (Hrefs _ Hb). lia.
Qed.

Lemma unaliased_step i s st st' it :
  wf st -> unaliased st ->
  schedule_step i s st = Some (st', it) ->
  placedSlots [it] = [] ->
  unaliased st' /\ busyIntervals st' = busyIntervals st.
Proof.
  intros [Hnext Hbusy] Hun H Hno. cbn in Hno.
  destruct (schedule_step_cases _ _ _ _ _ _ _ H) as (_ & _ & [Hc | [Hc | Hc]]).
  - destruct Hc as (slot & url & _ & _ & Ho & _). rewrite Ho in Hno. discriminate.
  - destruct Hc as (slot & _ & _ & _ & Hd & Hb & Hn & _).
    unfold unaliased, busyIntervals. rewrite Hb, Hn, Hd. split; [assumption |].
    apply map_ext_in. intros b Hin. unfold busyInterval.
    destruct (Hbusy _ Hin) as (_ & _ & Hs). specialize (Hun b Hin).
    now rewrite !getTime_insert_ne by congruence.
  - destruct Hc as (_ & _ & Hd & Hb & Hn & _).
    unfold unaliased, busyIntervals. rewrite Hb, Hn, Hd. auto.
Qed.

Lemma schedule_loop_without_placement subtasks : forall i st st' its,
  wf st -> unaliased st ->
  schedule_loop i subtasks st = Some (st', its) ->
  placedSlots its = [] ->
  busyIntervals st' = busyIntervals st.
Proof.
  induction subtasks as [|s rest IH]; intros i st st' its Hwf Hun H Hno.
  - cbn in H. now injection H as <- <-.
  - destruct (schedule_loop_cons _ _ _ _ _ _ H) as (st1 & it & its' & -> & Hs & Hl).
    assert (Hit : placedSlots [it] = [] /\ placedSlots its' = []).
    { cbn in Hno |- *. destruct (outcome it); [discriminate | auto | auto]. }
    destruct Hit as [Hit Hrest].
    destruct (unaliased_step _ _ _ _ _ Hwf Hun Hs Hit) as [Hun1 Hb1].
    rewrite <- Hb1.
    exact (IH _ _ _ _ (schedule_step_wf _ _ _ _ _ _ _ Hwf Hs) Hun1 Hl Hrest).
Qed.

(** *** The latest placement ends at the cursor *)

Lemma endsAtCursor_step i s st st' it prev :
  wf st ->
  schedule_step i s st = Some (st', it) ->
  match prev with Some a => endsAtCursor st a | None => True end ->
  match latestPlaced [it] prev with Some a => endsAtCursor st' a | None => True end.
Proof.
  intros [Hnext Hbusy] H Hprev. cbn.
  destruct (schedule_step_cases _ _ _ _ _ _ _ H) as (_ & _ & [Hc | [Hc | Hc]]).
  - destruct Hc as (slot & url & _ & _ & Ho & Hd & Hb & Hn & _). rewrite Ho.
    exists {| bstart := length (dates st); bend := length (dates st ++ [start slot]) |}.
    rewrite Hb, Hd, Hn. cbn [bstart bend].
    split; [apply In_sortByStart, in_app_iff; right; now left |].
    split; [| reflexivity]. rewrite <- app_assoc. apply getTime_app_new.
  - destruct Hc as (slot & _ & _ & Ho & Hd & Hb & Hn & _). rewrite Ho.
    destruct prev as [a |]; [| exact I].
    destruct Hprev as (b & Hin & Hs & He). exists b. rewrite Hb, Hd, Hn.
    split; [assumption |]. split; [| assumption].
    destruct (Hbusy _ Hin) as (_ & _ & Hne).
    now rewrite getTime_insert_ne by congruence.
  - destruct Hc as (_ & Ho & Hd & Hb & Hn & _). rewrite Ho.
    destruct prev as [a |]; [| exact I].
    destruct Hprev as (b & Hin & Hs & He). exists b. rewrite Hb, Hd, Hn. auto.
Qed.

Lemma schedule_loop_endsAtCursor subtasks : forall i st st' its prev,
  wf st ->
  schedule_loop i subtasks st = Some (st', its) ->
  match prev with Some a => endsAtCursor st a | None => True end ->
  match latestPlaced its prev with Some a => endsAtCursor st' a | None => True end.
Proof.
  induction subtasks as [|s rest IH]; intros i st st' its prev Hwf H Hprev.
  - cbn in H. now injection H as <- <-.
  - destruct (schedule_loop_cons _ _ _ _ _ _ H) as (st1 & it & its' & -> & Hs & Hl).
    change (latestPlaced (it :: its') prev)
      with (latestPlaced its' (latestPlaced [it] prev)).
    exact (IH _ _ _ _ _ (schedule_step_wf _ _ _ _ _ _ _ Hwf Hs) Hl
             (endsAtCursor_step _ _ _ _ _ _ Hwf Hs Hprev)).
Qed.

Lemma endsAtCursor_In st a :
  endsAtCursor st a ->
  In {| start := start a; end_ := cursor st |} (busyIntervals st).
Proof.
  intros (b & Hin & Hs & He). unfold busyIntervals.
  apply in_map_iff. exists b. split; [| assumption].
  unfold busyInterval, cursor. now rewrite Hs, He.
Qed.

(** *** The busy list is sorted from the first placement on *)

Lemma Sorted_map_start (dates : list Z) (l : list BusySlot) :
  Sorted (fun a b => getTime dates (bstart a) <= getTime dates (bstart b)) l ->
  Sorted Z.le (map start (map (busyInterval dates) l)).
Proof.
  induction 1 as [|x l Hl IH Hhd]; cbn; constructor; [assumption |].
  destruct Hhd; cbn; constructor. assumption.
Qed.

Lemma sortedByStart_step i s st st' it :
  wf st ->
  schedule_step i s st = Some (st', it) ->
  sortedByStart st \/ placedSlots [it] <> [] ->
  sortedByStart st'.
Proof.
  intros [Hnext Hbusy] H Hor. unfold sortedByStart, busyIntervals in *.
  destruct (schedule_step_cases _ _ _ _ _ _ _ H) as (_ & _ & [Hc | [Hc | Hc]]).
  - destruct Hc as (slot & url & _ & _ & _ & Hd & Hb & _).
    rewrite Hb. apply Sorted_map_start, sortByStart_sorted.
  - destruct Hc as (slot & _ & _ & Ho & Hd & Hb & _).
    destruct Hor as [Hsorted | Hne]; [| cbn in Hne; rewrite Ho in Hne; congruence].
    rewrite Hb, Hd.
    replace (map start (map (busyInterval
               (<[nextAvailableStartTime st := cursor st + msPerMinute]> (dates st)))
               (busyTimes st)))
      with (map start (map (busyInterval (dates st)) (busyTimes st))); [assumption |].
    rewrite !map_map. apply map_ext_in. intros b Hin. cbn.
    destruct (Hbusy _ Hin) as (_ & _ & Hne).
    now rewrite getTime_insert_ne by congruence.
  - destruct Hc as (_ & Ho & Hd & Hb & _).
    destruct Hor as [Hsorted | Hne]; [| cbn in Hne; rewrite Ho in Hne; congruence].
    now rewrite Hb, Hd.
Qed.

Lemma schedule_loop_sortedByStart subtasks : forall i st st' its,
  wf st ->
  schedule_loop i subtasks st = Some (st', its) ->
  sortedByStart st \/ placedSlots its <> [] ->
  sortedByStart st'.
Proof.
  induction subtasks as [|s rest IH]; intros i st st' its Hwf H Hor.
  - cbn in H. injection H as <- <-. destruct Hor as [Hs | Hne]; [assumption |].
    now contradiction Hne.
  - destruct (schedule_loop_cons _ _ _ _ _ _ H) as (st1 & it & its' & -> & Hs & Hl).
    apply (IH _ _ _ _ (schedule_step_wf _ _ _ _ _ _ _ Hwf Hs) Hl).
    destruct (outcome it) as [slot | slot |] eqn:Ho.
    + left. apply (sortedByStart_step _ _ _ _ _ Hwf Hs). right. cbn. now rewrite Ho.
    + destruct Hor as [Hsorted | Hne].
      * left. apply (sortedByStart_step _ _ _ _ _ Hwf Hs). now left.
      * right. cbn in Hne. now rewrite Ho in Hne.
    + destruct Hor as [Hsorted | Hne].
      * left. apply (sortedByStart_step _ _ _ _ _ Hwf Hs). now left.
      * right. cbn in Hne. now rewrite Ho in Hne.
Qed.

(** *** Placements follow one another in time *)

Lemma schedule_loop_chronological subtasks : forall i st st' its,
  wf st -> (forall s, In s subtasks -> 0 < duration_minutes s) ->
  schedule_loop i subtasks st = Some (st', its) ->
  (forall a, In a (placedSlots its) ->
     cursor st <= start a
     /\ end_ a + SCHEDULING_BUFFER_MINUTES * 60000 <= cursor st')
  /\ ForallOrdPairs
       (fun a b => end_ a + SCHEDULING_BUFFER_MINUTES * 60000 <= start b)
       (placedSlots its).
Proof.
  induction subtasks as [|s rest IH]; intros i st st' its Hwf Hdur H.
  - cbn in H. injection H as <- <-. cbn. split; [intros a [] | constructor].
  - destruct (schedule_loop_cons _ _ _ _ _ _ H) as (st1 & it & its' & -> & Hs & Hl).
    pose proof (schedule_step_wf _ _ _ _ _ _ _ Hwf Hs) as Hwf1.
    pose proof (schedule_step_cursor_le _ _ _ _ _ _ _ Hwf
                  (Hdur s (or_introl eq_refl)) Hs) as Hle.
    destruct (IH _ _ _ _ Hwf1 (fun s' H' => Hdur s' (or_intror H')) Hl) as [IH1 IH2].
    destruct (schedule_loop_cursor _ _ rest _ _ _ _ Hwf1
                (fun s' H' => Hdur s' (or_intror H')) Hl) as [Hfinal _].
    cbn [placedSlots]. destruct (outcome it) as [slot | slot |] eqn:Ho.
    + pose proof (outcome_Placed _ _ _ _ _ _ Hs Ho) as Hc.
      destruct (cursor_after_placed _ _ _ _ _ _ _ Hc) as (slot' & Ho' & Hcur).
      assert (slot' = slot) as -> by congruence.
      destruct Hc as (slot' & url & Hf & _ & Ho'' & _).
      assert (slot' = slot) as -> by congruence.
      destruct (findEarliestFitSlot_found _ _ _ _ _ _ _ _ Hf) as (_ & _ & _ & _ & Hs0).
      specialize (Hs0 ltac:(unfold SCHEDULING_WORK_DAY_START_HOUR; lia)).
      split.
      * intros a [<- | Ha]; [lia |]. destruct (IH1 a Ha). lia.
      * constructor; [| assumption]. apply List.Forall_forall.
        intros b Hb. destruct (IH1 b Hb). lia.
    + split; [| assumption]. intros a Ha. destruct (IH1 a Ha). lia.
    + split; [| assumption]. intros a Ha. destruct (IH1 a Ha). lia.
Qed.

(** *** How the cursor moves from one iteration to the next *)

Lemma schedule_loop_cursor_moves subtasks : forall i st st' its,
  wf st ->
  schedule_loop i subtasks st = Some (st', its) ->
  forall k a b, its !! k = Some a -> its !! S k = Some b ->
    searchedFrom b
    = match outcome a with
      | Placed slot => end_ slot + SCHEDULING_BUFFER_MINUTES * 60000
      | CalendarError _ => searchedFrom a + msPerMinute
      | NoSlot => searchedFrom a
      end.
Proof.
  induction subtasks as [|s rest IH]; intros i st st' its Hwf H k a b Ha Hb.
  - cbn in H. injection H as <- <-. destruct k; discriminate.
  - destruct (schedule_loop_cons _ _ _ _ _ _ H) as (st1 & it & its' & -> & Hs & Hl).
    pose proof (schedule_step_wf _ _ _ _ _ _ _ Hwf Hs) as Hwf1.
    destruct k as [|k]; [| exact (IH _ _ _ _ Hwf1 Hl k a b Ha Hb)].
    cbn in Ha, Hb. injection Ha as <-.
    destruct rest as [|s' rest'].
    + cbn in Hl. injection Hl as <- <-. discriminate.
    + destruct its' as [|it' its'']; [discriminate |].
      cbn in Hb. injection Hb as <-.
      rewrite (schedule_loop_head _ _ _ _ _ _ _ _ _ Hl).
      destruct (schedule_step_cases _ _ _ _ _ _ _ Hs) as (Hfrom & _ & [Hc | [Hc | Hc]]).
      * destruct (cursor_after_placed _ _ _ _ _ _ _ Hc) as (slot & Ho & ->).
        now rewrite Ho.
      * rewrite (cursor_after_error _ _ _ _ _ _ _ Hwf Hc), Hfrom.
        destruct Hc as (slot & _ & _ & Ho & _). now rewrite Ho.
      * rewrite (cursor_after_noslot _ _ _ _ _ Hc), Hfrom.
        destruct Hc as (_ & Ho & _). now rewrite Ho.
Qed.

Lemma schedule_loop_busy_length subtasks : forall i st st' its,
  schedule_loop i subtasks st = Some (st', its) ->
  length (busyIntervals st')
  = (length (busyIntervals st) + length (placedSlots its))%nat.
Proof.
  induction subtasks as [|s rest IH]; intros i st st' its H.
  - cbn in H. injection H as <- <-. cbn. lia.
  - destruct (schedule_loop_cons _ _ _ _ _ _ H) as (st1 & it & its' & -> & Hs & Hl).
    rewrite (IH _ _ _ _ Hl). cbn [placedSlots]. unfold busyIntervals.
    rewrite !length_map.
    destruct (schedule_step_cases _ _ _ _ _ _ _ Hs) as (_ & _ & [Hc | [Hc | Hc]]).
    + destruct Hc as (slot & url & _ & _ & Ho & _ & Hb & _). rewrite Ho, Hb.
      rewrite <- (Permutation_length (sortByStart_perm _ _)), length_app. cbn. lia.
    + destruct Hc as (slot & _ & _ & Ho & _ & Hb & _). rewrite Ho, Hb. lia.
    + destruct Hc as (_ & Ho & _ & Hb & _). rewrite Ho, Hb. lia.
Qed.

End Run.

(** *** The search window *)

Lemma searchRangeStart_at (now : Z) : searchRangeStart now = at_ (Day now + 1) 9 0.
Proof.
  unfold searchRangeStart, SCHEDULING_START_OFFSET_DAYS, SCHEDULING_WORK_DAY_START_HOUR.
  rewrite setDate_getDate_plus, setHours_start, Day_plus_days.
  unfold at_, msPerMinute. lia.
Qed.

Lemma searchRangeEnd_at (now : Z) : searchRangeEnd now = at_ (Day now + 8) 17 0.
Proof.
  unfold searchRangeEnd, SCHEDULING_WINDOW_DAYS, SCHEDULING_WORK_DAY_END_HOUR.
  cbv zeta. rewrite setDate_getDate_plus, setHours_start, Day_plus_days.
  rewrite searchRangeStart_at, Day_at by lia.
  unfold at_, msPerMinute. lia.
Qed.

(** The window in a time zone.  The local day reached by each [setDate]
    is all that matters to the [setHours] that follows it. *)
Lemma searchRangeStartIn_at (z : Zone) (now : Z) :
  keepsDay z (LocalTime z now + msPerDay) ->
  searchRangeStartIn z now = UTC z (at_ (Day (LocalTime z now) + 1) 9 0).
Proof.
  unfold keepsDay. intros Hday.
  replace (LocalTime z now + msPerDay) with (LocalTime z now + 1 * msPerDay)
    in Hday by lia.
  rewrite Day_plus_days in Hday.
  unfold searchRangeStartIn, setHoursIn, setDateIn, getDateIn,
    SCHEDULING_START_OFFSET_DAYS, SCHEDULING_WORK_DAY_START_HOUR.
  rewrite setDate_getDate_plus, setHours_start, Hday.
  f_equal. unfold at_, msPerMinute. lia.
Qed.

Lemma searchRangeEndIn_at (z : Zone) (now : Z) :
  keepsDay z (LocalTime z (searchRangeStartIn z now) + 7 * msPerDay) ->
  searchRangeEndIn z now
  = UTC z (at_ (Day (LocalTime z (searchRangeStartIn z now)) + 7) 17 0).
Proof.
  unfold keepsDay. intros Hday. rewrite Day_plus_days in Hday.
  unfold searchRangeEndIn, setHoursIn, setDateIn, getDateIn,
    SCHEDULING_WINDOW_DAYS, SCHEDULING_WORK_DAY_END_HOUR.
  cbv zeta. rewrite setDate_getDate_plus, setHours_start, Hday.
  f_equal. unfold at_, msPerMinute. lia.
Qed.

(** Where local time is UTC the window is the one the loop is run on. *)
Lemma searchRange_in_utc (now : Z) :
  searchRangeStartIn (fixedOffset 0) now = searchRangeStart now
  /\ searchRangeEndIn (fixedOffset 0) now = searchRangeEnd now.
Proof.
  assert (HL : forall t, LocalTime (fixedOffset 0) t = t)
    by (intros t; unfold LocalTime; cbn; lia).
  assert (HU : forall l, UTC (fixedOffset 0) l = l)
    by (intros l; unfold UTC; cbn; lia).
  assert (Hs : searchRangeStartIn (fixedOffset 0) now = searchRangeStart now).
  { unfold searchRangeStartIn, searchRangeStart, setHoursIn, setDateIn, getDateIn.
    now rewrite !HU, !HL. }
  split; [exact Hs |].
  unfold searchRangeEndIn, searchRangeEnd, setHoursIn, setDateIn, getDateIn.
  cbv zeta. now rewrite Hs, !HU, !HL.
Qed.

(** *** A slot found in a window of at most 27 days *)

Lemma found_slot_same_day cur dur busy sh eh buf deadline slot :
  0 <= sh ->
  0 <= dur + buf ->
  deadline - cur <= 27 * msPerDay ->
  findEarliestFitSlot cur dur busy sh eh buf deadline = Some (Some slot) ->
  Day (end_ slot + buf * 60000) = Day (start slot)
  /\ getHours (end_ slot + buf * 60000) <= eh
  /\ (getHours (end_ slot + buf * 60000) = eh ->
      getMinutes (end_ slot + buf * 60000) = 0).
Proof.
  intros Hsh Htot Hwin H. unfold findEarliestFitSlot, findEarliestFitSlot_fuel in H.
  destruct (loop_found _ _ _ _ _ _ _ _ _ H) as (t & Ht & Hb & Hle).
  apply body_accepts_iff in Hb as (-> & Hd & _ & He & _).
  specialize (Hle Hsh). cbn [start end_]. unfold totalDurationMs in *.
  replace (t + dur * 60000 + buf * 60000) with (t + (dur + buf) * 60000) by lia.
  set (pe := t + (dur + buf) * 60000) in *.
  assert (Hn : ~ (eh < getHours pe \/ (getHours pe = eh /\ 0 < getMinutes pe)
                  \/ getDate pe <> getDate t))
    by (rewrite <- endsOutsideWorkingDay_spec, He; discriminate).
  assert (Hmin : 0 <= getMinutes pe)
    by (unfold getMinutes; Z.to_euclidean_division_equations; lia).
  split; [| split].
  - destruct (Z.eq_dec (Day pe) (Day t)) as [E | E]; [assumption |].
    exfalso. apply Hn. right. right. apply getDate_differs_within_four_weeks.
    subst pe. unfold Day, msPerDay in *. Z.to_euclidean_division_equations; lia.
  - assert (~ eh < getHours pe) by tauto. lia.
  - intros E. assert (~ 0 < getMinutes pe) by tauto. lia.
Qed.

End RunFacts.

Import RunFacts.

(* ===================================================================== *)
(** ** Further properties of the batch loop *)
(* ===================================================================== *)

(** X10.  Every request is reported exactly once and in input order: the
    run makes one iteration per request, [scheduledEvents] receives the
    labels of the placed requests, [unscheduledSubtasks] the labels of the
    others with the reason appended, the two lists together have as many
    entries as there are requests, and [scheduledCount] counts the
    placements. *)
Theorem every_request_is_reported_once
  (createCalendarEvent : nat -> string -> Z -> Z -> option (option string))
  (rangeStart rangeEnd : Z) (initialBusy : list TimeInterval)
  (subtasks : list Subtask) (st : State) (its : list Iteration) :
  schedule_loop createCalendarEvent rangeEnd 0 subtasks
    (initialState rangeStart initialBusy) = Some (st, its) ->
  length its = length subtasks
  /\ map fst (scheduledEvents st) = scheduledLabels subtasks its
  /\ unscheduledSubtasks st = unscheduledEntries subtasks its
  /\ (length (scheduledEvents st) + length (unscheduledSubtasks st)
      = length subtasks)%nat
  /\ scheduledCount st = length (scheduledEvents st)
  /\ length (scheduledEvents st) = length (placedSlots its).
Proof.
  intros Hrun.
  destruct (schedule_loop_ledger _ _ _ _ _ _ _ Hrun) as (Hlen & Hs & Hu & Hc).
  destruct (ledger_lengths subtasks its Hlen) as [Hsum Hplaced].
  assert (Hinit : scheduledEvents (initialState rangeStart initialBusy) = []
                  /\ unscheduledSubtasks (initialState rangeStart initialBusy) = []
                  /\ scheduledCount (initialState rangeStart initialBusy) = O).
  { unfold initialState. destruct (loadBusy [] initialBusy). cbn. auto. }
  destruct Hinit as (E1 & E2 & E3). rewrite E1 in Hs. rewrite E2 in Hu. rewrite E3 in Hc.
  cbn in Hs, Hu, Hc.
  assert (Hl : length (scheduledEvents st) = length (scheduledLabels subtasks its))
    by (rewrite <- Hs; now rewrite length_map).
  rewrite Hu. repeat split; auto; lia.
Qed.

Lemma every_request_is_reported_once_witness :
  exists st its,
    schedule_loop secondCommitFails horizon 0
      [task "draft" 60; task "review" 60; task "offsite" 600]
      (initialState (at_ monday 9 0) []) = Some (st, its)
    /\ map fst (scheduledEvents st) = ["draft"%string]
    /\ unscheduledSubtasks st
       = ["review (Calendar API error)"%string; "offsite (No slot found)"%string]
    /\ length its = 3%nat
    /\ scheduledCount st = length (scheduledEvents st).
Proof.
  do 2 eexists. split; [vm_compute; reflexivity |].
  split; [reflexivity |]. split; [reflexivity |].
  pose proof (every_request_is_reported_once secondCommitFails (at_ monday 9 0) horizon
                [] [task "draft" 60; task "review" 60; task "offsite" 600]
                _ _ ltac:(vm_compute; reflexivity)) as (H1 & _ & _ & _ & H5 & _).
  split; [exact H1 | exact H5].
Defined.

(** X11.  A run never removes or alters an interval of the initial busy
    list, and it adds one busy interval per placement. *)
Theorem initial_busy_intervals_are_kept
  (createCalendarEvent : nat -> string -> Z -> Z -> option (option string))
  (rangeStart rangeEnd : Z) (initialBusy : list TimeInterval)
  (subtasks : list Subtask) (st : State) (its : list Iteration) :
  schedule_loop createCalendarEvent rangeEnd 0 subtasks
    (initialState rangeStart initialBusy) = Some (st, its) ->
  (forall x, In x initialBusy -> In x (busyIntervals st))
  /\ length (busyIntervals st)
     = (length initialBusy + length (placedSlots its))%nat.
Proof.
  intros Hrun. split.
  - intros x Hx. apply frozen_In.
    apply (schedule_loop_invariant createCalendarEvent rangeEnd (fun st => frozen st x)
             (fun i s st0 st1 it H0 Hs => frozen_step _ _ _ _ _ _ _ _ Hs H0)
             _ _ _ _ _ (initialState_frozen rangeStart initialBusy x Hx) Hrun).
  - rewrite (schedule_loop_busy_length _ _ _ _ _ _ _ Hrun).
    now rewrite initialState_busyIntervals.
Qed.

Lemma initial_busy_intervals_are_kept_witness :
  exists st its,
    schedule_loop secondCommitFails horizon 0 [task "draft" 60; task "review" 60]
      (initialState (at_ monday 9 0)
         [{| start := at_ monday 12 0; end_ := at_ monday 13 0 |}]) = Some (st, its)
    /\ (forall x, In x [{| start := at_ monday 12 0; end_ := at_ monday 13 0 |}] ->
          In x (busyIntervals st))
    /\ length (busyIntervals st)
       = (length [{| start := at_ monday 12 0; end_ := at_ monday 13 0 |}]
          + length (placedSlots its))%nat.
Proof.
  do 2 eexists. split; [vm_compute; reflexivity |].
  eapply (initial_busy_intervals_are_kept secondCommitFails (at_ monday 9 0) horizon
            [{| start := at_ monday 12 0; end_ := at_ monday 13 0 |}]
            [task "draft" 60; task "review" 60]).
  vm_compute. reflexivity.
Defined.

(** X12.  A run in which nothing is placed, whether because no slot is
    found or because every commit fails, leaves the busy list exactly as
    the free/busy answer gave it. *)
Theorem run_without_placement_keeps_busy_list
  (createCalendarEvent : nat -> string -> Z -> Z -> option (option string))
  (rangeStart rangeEnd : Z) (initialBusy : list TimeInterval)
  (subtasks : list Subtask) (st : State) (its : list Iteration) :
  schedule_loop createCalendarEvent rangeEnd 0 subtasks
    (initialState rangeStart initialBusy) = Some (st, its) ->
  placedSlots its = [] ->
  busyIntervals st = initialBusy.
Proof.
  intros Hrun Hno.
  rewrite (schedule_loop_without_placement _ _ _ _ _ _ _
             (initialState_wf _ _) (initialState_unaliased _ _) Hrun Hno).
  apply initialState_busyIntervals.
Qed.

Lemma run_without_placement_keeps_busy_list_witness :
  exists st its,
    schedule_loop (fun _ _ _ _ => None) horizon 0 [task "draft" 60; task "offsite" 600]
      (initialState (at_ monday 9 0)
         [{| start := at_ monday 12 0; end_ := at_ monday 13 0 |}]) = Some (st, its)
    /\ map outcome its
       = [CalendarError {| start := at_ monday 9 0; end_ := at_ monday 10 0 |}; NoSlot]
    /\ busyIntervals st = [{| start := at_ monday 12 0; end_ := at_ monday 13 0 |}].
Proof.
  do 2 eexists. split; [vm_compute; reflexivity |]. split; [reflexivity |].
  eapply (run_without_placement_keeps_busy_list (fun _ _ _ _ => None) (at_ monday 9 0)
            horizon [{| start := at_ monday 12 0; end_ := at_ monday 13 0 |}]
            [task "draft" 60; task "offsite" 600]).
  - vm_compute. reflexivity.
  - reflexivity.
Defined.

(** X13.  After a run in which something was placed, the busy list holds
    the latest placed slot with the cursor as its end: the [Date] that is
    the cursor is the [end] of that busy slot, so whatever moves the cursor
    moves the end of the slot. *)
Theorem latest_placement_ends_at_the_cursor
  (createCalendarEvent : nat -> string -> Z -> Z -> option (option string))
  (rangeStart rangeEnd : Z) (initialBusy : list TimeInterval)
  (subtasks : list Subtask) (st : State) (its : list Iteration) (a : TimeInterval) :
  schedule_loop createCalendarEvent rangeEnd 0 subtasks
    (initialState rangeStart initialBusy) = Some (st, its) ->
  latestPlaced its None = Some a ->
  In {| start := start a; end_ := cursor st |} (busyIntervals st).
Proof.
  intros Hrun Hlast.
  pose proof (schedule_loop_endsAtCursor _ _ _ _ _ _ _ None
                (initialState_wf _ _) Hrun I) as H.
  rewrite Hlast in H. now apply endsAtCursor_In.
Qed.

Lemma latest_placement_ends_at_the_cursor_witness :
  exists st its,
    schedule_loop secondCommitFails horizon 0
      [task "draft" 60; task "review" 60; task "offsite" 600]
      (initialState (at_ monday 9 0) []) = Some (st, its)
    /\ cursor st = at_ monday 10 16
    /\ In {| start := start {| start := at_ monday 9 0; end_ := at_ monday 10 0 |};
             end_ := cursor st |} (busyIntervals st).
Proof.
  do 2 eexists. split; [vm_compute; reflexivity |]. split; [reflexivity |].
  eapply (latest_placement_ends_at_the_cursor secondCommitFails (at_ monday 9 0) horizon
            [] [task "draft" 60; task "review" 60; task "offsite" 600]).
  - vm_compute. reflexivity.
  - reflexivity.
Defined.

(** X14.  From the first placement on the busy list is sorted by start
    time: after a run in which something was placed the starts of the busy
    intervals are in non-decreasing order, whatever the order of the
    free/busy answer. *)
Theorem busy_list_is_sorted_after_a_placement
  (createCalendarEvent : nat -> string -> Z -> Z -> option (option string))
  (rangeStart rangeEnd : Z) (initialBusy : list TimeInterval)
  (subtasks : list Subtask) (st : State) (its : list Iteration) :
  schedule_loop createCalendarEvent rangeEnd 0 subtasks
    (initialState rangeStart initialBusy) = Some (st, its) ->
  placedSlots its <> [] ->
  Sorted Z.le (map start (busyIntervals st)).
Proof.
  intros Hrun Hne.
  exact (schedule_loop_sortedByStart _ _ _ _ _ _ _ (initialState_wf _ _) Hrun
           (or_intror Hne)).
Qed.

Lemma busy_list_is_sorted_after_a_placement_witness :
  exists st its,
    schedule_loop commitsSucceed horizon 0 [task "draft" 60]
      (initialState (at_ monday 9 0)
         [{| start := at_ tuesday 9 0; end_ := at_ tuesday 10 0 |};
          {| start := at_ monday 13 0; end_ := at_ monday 14 0 |}]) = Some (st, its)
    /\ map start (busyIntervals st) = [at_ monday 9 0; at_ monday 13 0; at_ tuesday 9 0]
    /\ Sorted Z.le (map start (busyIntervals st)).
Proof.
  do 2 eexists. split; [vm_compute; reflexivity |]. split; [reflexivity |].
  eapply (busy_list_is_sorted_after_a_placement commitsSucceed (at_ monday 9 0) horizon
            [{| start := at_ tuesday 9 0; end_ := at_ tuesday 10 0 |};
             {| start := at_ monday 13 0; end_ := at_ monday 14 0 |}]
            [task "draft" 60]).
  - vm_compute. reflexivity.
  - discriminate.
Defined.

(** X15.  With positive durations the placements of a run follow one
    another in time in the order of the requests: a later placed slot
    starts no earlier than the end of every earlier placed slot plus the
    buffer. *)
Theorem placements_follow_one_another
  (createCalendarEvent : nat -> string -> Z -> Z -> option (option string))
  (rangeStart rangeEnd : Z) (initialBusy : list TimeInterval)
  (subtasks : list Subtask) (st : State) (its : list Iteration) :
  (forall s, In s subtasks -> 0 < duration_minutes s) ->
  schedule_loop createCalendarEvent rangeEnd 0 subtasks
    (initialState rangeStart initialBusy) = Some (st, its) ->
  forall i j a b, (i < j)%nat ->
    placedSlots its !! i = Some a -> placedSlots its !! j = Some b ->
    end_ a + SCHEDULING_BUFFER_MINUTES * 60000 <= start b.
Proof.
  intros Hdur Hrun.
  destruct (schedule_loop_chronological _ _ _ _ _ _ _ (initialState_wf _ _) Hdur Hrun)
    as [_ Hpairs].
  revert Hpairs. generalize (placedSlots its).
  induction 1 as [|x l Hx Hl IH]; intros i j a b Hij Ha Hb.
  - destruct i; discriminate.
  - destruct j as [|j]; [lia |]. cbn in Hb. destruct i as [|i].
    + cbn in Ha. injection Ha as <-.
      apply (proj1 (List.Forall_forall _ _) Hx).
      apply list_elem_of_In. eapply list_elem_of_lookup_2; eauto.
    + cbn in Ha. apply (IH i j); [lia | assumption | assumption].
Qed.

Lemma placements_follow_one_another_witness :
  exists st its,
    schedule_loop secondCommitFails horizon 0
      [task "draft" 60; task "review" 60; task "call" 30]
      (initialState (at_ monday 9 0) []) = Some (st, its)
    /\ placedSlots its
       = [{| start := at_ monday 9 0; end_ := at_ monday 10 0 |};
          {| start := at_ monday 10 16; end_ := at_ monday 10 46 |}]
    /\ forall i j a b, (i < j)%nat ->
         placedSlots its !! i = Some a -> placedSlots its !! j = Some b ->
         end_ a + SCHEDULING_BUFFER_MINUTES * 60000 <= start b.
Proof.
  do 2 eexists. split; [vm_compute; reflexivity |]. split; [reflexivity |].
  eapply (placements_follow_one_another secondCommitFails (at_ monday 9 0) horizon []
            [task "draft" 60; task "review" 60; task "call" 30]).
  - intros s [<- | [<- | [<- | []]]]; reflexivity.
  - vm_compute. reflexivity.
Defined.

(** X16.  How the cursor moves: the next iteration searches from the end
    of the placed slot plus the buffer after a placement, from exactly one
    minute later after a failed commit, and from the same instant after a
    search without result. *)
Theorem cursor_moves_by_outcome
  (createCalendarEvent : nat -> string -> Z -> Z -> option (option string))
  (rangeStart rangeEnd : Z) (initialBusy : list TimeInterval)
  (subtasks : list Subtask) (st : State) (its : list Iteration) :
  schedule_loop createCalendarEvent rangeEnd 0 subtasks
    (initialState rangeStart initialBusy) = Some (st, its) ->
  forall k a b, its !! k = Some a -> its !! S k = Some b ->
    searchedFrom b
    = match outcome a with
      | Placed slot => end_ slot + SCHEDULING_BUFFER_MINUTES * 60000
      | CalendarError _ => searchedFrom a + msPerMinute
      | NoSlot => searchedFrom a
      end.
Proof.
  intros Hrun.
  exact (schedule_loop_cursor_moves _ _ _ _ _ _ _ (initialState_wf _ _) Hrun).
Qed.

Lemma cursor_moves_by_outcome_witness :
  exists st its,
    schedule_loop secondCommitFails horizon 0
      [task "draft" 60; task "review" 60; task "offsite" 600; task "call" 30]
      (initialState (at_ monday 9 0) []) = Some (st, its)
    /\ map searchedFrom its
       = [at_ monday 9 0; at_ monday 10 15; at_ monday 10 16; at_ monday 10 16]
    /\ forall k a b, its !! k = Some a -> its !! S k = Some b ->
         searchedFrom b
         = match outcome a with
           | Placed slot => end_ slot + SCHEDULING_BUFFER_MINUTES * 60000
           | CalendarError _ => searchedFrom a + msPerMinute
           | NoSlot => searchedFrom a
           end.
Proof.
  do 2 eexists. split; [vm_compute; reflexivity |]. split; [reflexivity |].
  eapply (cursor_moves_by_outcome secondCommitFails (at_ monday 9 0) horizon []
            [task "draft" 60; task "review" 60; task "offsite" 600; task "call" 30]).
  vm_compute. reflexivity.
Defined.

(** X17.  The search window of [schedule_tasks] in a time zone.  Let [d]
    be the current local day.  Provided the dates the two [setDate] calls
    and the first [setHours] call arrive at are read back on their own
    local day (they are, unless a change of the clocks skips the day
    boundary with them), the window starts at the instant the zone assigns
    to 09:00:00.000 of day [d + 1] and ends at the instant it assigns to
    17:00:00.000 of day [d + 8].  Its length in elapsed time is 7 days and
    8 hours less the change of the offset from UTC between its start and
    its end: 7 days and 8 hours when the offset is the same at both, not
    otherwise.  The window starts after the current time unless the
    offset at its start exceeds the current one by 9 hours or more. *)
Theorem search_window_is_a_week_from_tomorrow (z : Zone) (now : Z) :
  keepsDay z (LocalTime z now + msPerDay) ->
  keepsDay z (at_ (Day (LocalTime z now) + 1) 9 0) ->
  keepsDay z (LocalTime z (UTC z (at_ (Day (LocalTime z now) + 1) 9 0))
              + 7 * msPerDay) ->
  searchRangeStartIn z now = UTC z (at_ (Day (LocalTime z now) + 1) 9 0)
  /\ searchRangeEndIn z now = UTC z (at_ (Day (LocalTime z now) + 8) 17 0)
  /\ searchRangeEndIn z now - searchRangeStartIn z now
     = 7 * msPerDay + 8 * msPerHour
       - (offsetOfLocal z (at_ (Day (LocalTime z now) + 8) 17 0)
          - offsetOfLocal z (at_ (Day (LocalTime z now) + 1) 9 0))
  /\ (offsetOfLocal z (at_ (Day (LocalTime z now) + 1) 9 0) - offsetAt z now
      < 9 * msPerHour ->
      now < searchRangeStartIn z now).
Proof.
  intros H1 H2 H3.
  pose proof (searchRangeStartIn_at z now H1) as Hs.
  assert (He : searchRangeEndIn z now = UTC z (at_ (Day (LocalTime z now) + 8) 17 0)).
  { rewrite searchRangeEndIn_at by (rewrite Hs; exact H3).
    rewrite Hs. unfold keepsDay in H2. rewrite H2, Day_at by lia.
    f_equal. f_equal. lia. }
  split; [exact Hs |]. split; [exact He |].
  rewrite He, Hs. unfold UTC. split.
  - unfold at_, msPerDay, msPerHour, msPerMinute. lia.
  - intros Hoff. pose proof (Day_upper (LocalTime z now)) as Hup.
    unfold LocalTime in *.
    unfold at_, msPerDay, msPerHour, msPerMinute in *. lia.
Qed.

(** Monday 10:00 local time in a zone whose clocks go forward on the
    following Sunday: the window runs from Tuesday 09:00 to the Tuesday
    after at 17:00 local time, which is 7 days and 7 hours. *)
Lemma search_window_is_a_week_from_tomorrow_witness :
  searchRangeStartIn clocksGoForward (at_ monday 15 0) = at_ tuesday 14 0
  /\ searchRangeEndIn clocksGoForward (at_ monday 15 0) = at_ (tuesday + 7) 21 0
  /\ searchRangeEndIn clocksGoForward (at_ monday 15 0)
     - searchRangeStartIn clocksGoForward (at_ monday 15 0)
     = 7 * msPerDay + 7 * msPerHour.
Proof.
  destruct (search_window_is_a_week_from_tomorrow clocksGoForward (at_ monday 15 0))
    as (Hs & He & Hlen & _).
  - vm_compute. reflexivity.
  - vm_compute. reflexivity.
  - vm_compute. reflexivity.
  - rewrite Hlen, Hs, He. repeat split; vm_compute; reflexivity.
Defined.

(** In a zone whose clocks never change the window is always 7 days and 8
    hours long and starts after the current time. *)
Lemma search_window_without_clock_change (offset now : Z) :
  searchRangeEndIn (fixedOffset offset) now
  - searchRangeStartIn (fixedOffset offset) now
  = 7 * msPerDay + 8 * msPerHour
  /\ now < searchRangeStartIn (fixedOffset offset) now.
Proof.
  assert (HL : forall t, LocalTime (fixedOffset offset) t = t + offset)
    by reflexivity.
  assert (HU : forall l, UTC (fixedOffset offset) l = l - offset) by reflexivity.
  assert (Hk : forall l, keepsDay (fixedOffset offset) l).
  { intros l. unfold keepsDay. rewrite HL, HU. f_equal. lia. }
  pose proof (searchRangeStartIn_at (fixedOffset offset) now (Hk _)) as Hs.
  pose proof (searchRangeEndIn_at (fixedOffset offset) now (Hk _)) as He.
  rewrite Hs in He. rewrite !HL, !HU in He.
  replace (at_ (Day (now + offset) + 1) 9 0 - offset + offset)
    with (at_ (Day (now + offset) + 1) 9 0) in He by lia.
  rewrite Day_at in He by lia.
  rewrite He, Hs, !HL, !HU. pose proof (Day_upper (now + offset)) as Hup.
  unfold at_, msPerDay, msPerHour, msPerMinute in *. lia.
Qed.

(** X18.  In a run of [schedule_tasks] with positive durations every placed
    slot lies in the window and within working hours of one day: it starts
    no earlier than the window, on a day Monday to Friday at an hour from 9
    to 16, it ends after it starts, and its end plus the buffer falls on
    the same calendar day, no later than 17:00 by the hour and minute, and
    no later than the end of the window. *)
Theorem placed_slots_lie_within_working_hours
  (createCalendarEvent : nat -> string -> Z -> Z -> option (option string))
  (now : Z) (initialBusy : list TimeInterval)
  (subtasks : list Subtask) (st : State) (its : list Iteration) (a : TimeInterval) :
  (forall s, In s subtasks -> 0 < duration_minutes s) ->
  schedule_loop createCalendarEvent (searchRangeEnd now) 0 subtasks
    (initialState (searchRangeStart now) initialBusy) = Some (st, its) ->
  In a (placedSlots its) ->
  searchRangeStart now <= start a
  /\ 1 <= getDay (start a) <= 5
  /\ 9 <= getHours (start a) < 17
  /\ start a < end_ a
  /\ Day (end_ a + SCHEDULING_BUFFER_MINUTES * 60000) = Day (start a)
  /\ getHours (end_ a + SCHEDULING_BUFFER_MINUTES * 60000) <= 17
  /\ (getHours (end_ a + SCHEDULING_BUFFER_MINUTES * 60000) = 17 ->
      getMinutes (end_ a + SCHEDULING_BUFFER_MINUTES * 60000) = 0)
  /\ end_ a + SCHEDULING_BUFFER_MINUTES * 60000 <= searchRangeEnd now.
Proof.
  intros Hdur Hrun Ha.
  assert (Hit : exists it, In it its /\ outcome it = Placed a).
  { clear Hrun. induction its as [|it its' IH]; [destruct Ha |].
    cbn in Ha. destruct (outcome it) as [slot | slot |] eqn:Ho.
    - destruct Ha as [<- | Ha]; [exists it; split; [now left | assumption] |].
      destruct (IH Ha) as (it' & Hin & Ho'). exists it'. split; [now right | assumption].
    - destruct (IH Ha) as (it' & Hin & Ho'). exists it'. split; [now right | assumption].
    - destruct (IH Ha) as (it' & Hin & Ho'). exists it'. split; [now right | assumption]. }
  destruct Hit as (it & Hin & Ho).
  destruct (schedule_loop_finder _ _ _ _ _ _ _ it Hrun Hin) as (busy & Hf).
  unfold finderAnswer in Hf. rewrite Ho in Hf.
  pose proof (schedule_loop_searchedFrom _ _ _ _ _ _ _ it (initialState_wf _ _)
                Hdur Hrun Hin) as Hfrom.
  rewrite initialState_cursor in Hfrom.
  assert (Hd : 0 < searchedDuration it).
  { pose proof (schedule_loop_durations _ _ _ _ _ _ _ Hrun) as Hmap.
    assert (Hall : forall d, In d (map searchedDuration its) -> 0 < d).
    { rewrite Hmap. intros d Hd. apply in_map_iff in Hd as (s & <- & Hs). auto. }
    apply Hall. now apply in_map. }
  destruct (findEarliestFitSlot_found _ _ _ _ _ _ _ _ Hf) as (He & Hdl & Hw & _ & Hle).
  specialize (Hle ltac:(unfold SCHEDULING_WORK_DAY_START_HOUR; lia)).
  unfold isWithinWorkingHours in Hw. cbv zeta in Hw.
  rewrite !andb_true_iff, !Z.leb_le, Z.ltb_lt in Hw.
  assert (Hwin : searchRangeEnd now - searchedFrom it <= 27 * msPerDay).
  { rewrite searchRangeStart_at in Hfrom. rewrite searchRangeEnd_at.
    unfold at_, msPerDay, msPerHour, msPerMinute in *. lia. }
  assert (Hsh : 0 <= SCHEDULING_WORK_DAY_START_HOUR)
    by (unfold SCHEDULING_WORK_DAY_START_HOUR; lia).
  assert (Htot : 0 <= searchedDuration it + SCHEDULING_BUFFER_MINUTES)
    by (unfold SCHEDULING_BUFFER_MINUTES; lia).
  destruct (found_slot_same_day _ _ _ _ _ _ _ _ Hsh Htot Hwin Hf) as (Hday & Hh & Hm).
  unfold SCHEDULING_WORK_DAY_START_HOUR, SCHEDULING_WORK_DAY_END_HOUR,
    SCHEDULING_BUFFER_MINUTES in *.
  repeat split; try lia; auto.
Qed.

Lemma placed_slots_lie_within_working_hours_witness :
  searchRangeStart (at_ (monday - 1) 13 7) <= at_ tuesday 9 0
  /\ 1 <= getDay (at_ tuesday 9 0) <= 5
  /\ 9 <= getHours (at_ tuesday 9 0) < 17
  /\ at_ tuesday 9 0 < at_ tuesday 16 0
  /\ Day (at_ tuesday 16 0 + SCHEDULING_BUFFER_MINUTES * 60000) = Day (at_ tuesday 9 0)
  /\ getHours (at_ tuesday 16 0 + SCHEDULING_BUFFER_MINUTES * 60000) <= 17
  /\ (getHours (at_ tuesday 16 0 + SCHEDULING_BUFFER_MINUTES * 60000) = 17 ->
      getMinutes (at_ tuesday 16 0 + SCHEDULING_BUFFER_MINUTES * 60000) = 0)
  /\ at_ tuesday 16 0 + SCHEDULING_BUFFER_MINUTES * 60000
     <= searchRangeEnd (at_ (monday - 1) 13 7).
Proof.
  eapply (placed_slots_lie_within_working_hours commitsSucceed (at_ (monday - 1) 13 7)
            [] [task "draft" 60; task "workshop" 420] _ _
            {| start := at_ tuesday 9 0; end_ := at_ tuesday 16 0 |}).
  - intros s [<- | [<- | []]]; reflexivity.
  - vm_compute. reflexivity.
  - right. left. reflexivity.
Defined.

(** X19.  In a run of [schedule_tasks] with positive durations a request of
    more than 465 minutes, which with the buffer exceeds the working day
    of eight hours, is never placed: the finder returns [null] for it and
    it is reported with "No slot found". *)
Theorem request_longer_than_the_day_is_never_placed
  (createCalendarEvent : nat -> string -> Z -> Z -> option (option string))
  (now : Z) (initialBusy : list TimeInterval)
  (subtasks : list Subtask) (st : State) (its : list Iteration) (it : Iteration) :
  (forall s, In s subtasks -> 0 < duration_minutes s) ->
  schedule_loop createCalendarEvent (searchRangeEnd now) 0 subtasks
    (initialState (searchRangeStart now) initialBusy) = Some (st, its) ->
  In it its ->
  465 < searchedDuration it ->
  outcome it = NoSlot.
Proof.
  intros Hdur Hrun Hin Hlong.
  destruct (schedule_loop_finder _ _ _ _ _ _ _ it Hrun Hin) as (busy & Hf).
  pose proof (schedule_loop_searchedFrom _ _ _ _ _ _ _ it (initialState_wf _ _)
                Hdur Hrun Hin) as Hfrom.
  rewrite initialState_cursor, searchRangeStart_at in Hfrom.
  assert (Hnone : finderAnswer it = None).
  { destruct (finderAnswer it) as [slot |] eqn:Ea; [exfalso | reflexivity].
    destruct (Z_le_gt_dec (searchedDuration it + SCHEDULING_BUFFER_MINUTES)
                (27 * 24 * 60)) as [Hshort | Hhuge].
    - rewrite (overlong_task_within_four_weeks_is_not_placed (searchedFrom it)
                 (searchedDuration it) busy SCHEDULING_WORK_DAY_START_HOUR
                 SCHEDULING_WORK_DAY_END_HOUR SCHEDULING_BUFFER_MINUTES
                 (searchRangeEnd now)) in Hf;
        [discriminate | | | assumption];
        unfold SCHEDULING_WORK_DAY_START_HOUR, SCHEDULING_WORK_DAY_END_HOUR,
          SCHEDULING_BUFFER_MINUTES; lia.
    - destruct (findEarliestFitSlot_found _ _ _ _ _ _ _ _ Hf) as (_ & Hd & _ & _ & Hle).
      specialize (Hle ltac:(unfold SCHEDULING_WORK_DAY_START_HOUR; lia)).
      rewrite searchRangeEnd_at in Hd.
      unfold SCHEDULING_BUFFER_MINUTES, at_, msPerDay, msPerHour, msPerMinute in *.
      lia. }
  unfold finderAnswer in Hnone. destruct (outcome it); [discriminate .. | reflexivity].
Qed.

Lemma request_longer_than_the_day_is_never_placed_witness :
  outcome {| searchedFrom := at_ monday 10 15; searchedDuration := 466;
             outcome := NoSlot |} = NoSlot.
Proof.
  eapply (request_longer_than_the_day_is_never_placed commitsSucceed
            (at_ (monday - 1) 13 7) [] [task "draft" 60; task "offsite" 466]).
  - intros s [<- | [<- | []]]; reflexivity.
  - vm_compute. reflexivity.
  - right. left. reflexivity.
  - reflexivity.
Defined.

(** ** The request schema *)

(** X20.  The schema accepts a subtask exactly when its label is a string
    and its duration a number with an integer value, whatever the sign,
    and returns that label and that integer; a list is accepted exactly
    when each of its elements is, element by element and in order. *)
Theorem schema_accepts_exactly_integer_durations
  (r : RawSubtask) (s : Subtask) (rs : list RawSubtask) (ss : list Subtask) :
  (SubtaskSchema r = Some s
   <-> raw_subtask r = JString (subtask s)
       /\ exists q, raw_duration_minutes r = JNumber q
                    /\ (q == inject_Z (duration_minutes s))%Q)
  /\ (SubtaskListSchema rs = Some ss
      <-> Forall2 (fun r' s' => SubtaskSchema r' = Some s') rs ss).
Proof.
  split.
  - unfold SubtaskSchema, number_int. split.
    + destruct (raw_subtask r) as [l | |]; try discriminate.
      destruct (raw_duration_minutes r) as [| q |]; try discriminate.
      destruct (Qden (Qred q) =? 1)%positive eqn:E; [| discriminate].
      intros [= <-]. cbn. split; [reflexivity |]. exists q. split; [reflexivity |].
      apply Pos.eqb_eq in E.
      transitivity (Qred q); [symmetry; apply Qred_correct |].
      destruct (Qred q) as [n d]. cbn in *. subst d. reflexivity.
    + intros (Hl & q & Hq & Hz). rewrite Hl, Hq.
      apply Qred_complete in Hz. rewrite Hz, Qred_inject_Z. cbn.
      now destruct s.
  - revert ss. induction rs as [|r' rs IH]; intros ss; cbn.
    + split; [intros [= <-]; constructor | intros H; inversion H; reflexivity].
    + split.
      * destruct (SubtaskSchema r') as [s' |] eqn:E; [| discriminate].
        destruct (SubtaskListSchema rs) as [ss' |] eqn:El; [| discriminate].
        intros [= <-]. constructor; [assumption |]. now apply IH.
      * intros H. inversion H as [| ? s' ? ss' Hs Hrest]; subst.
        rewrite Hs. apply IH in Hrest. now rewrite Hrest.
Qed.

Lemma schema_accepts_exactly_integer_durations_witness :
  SubtaskSchema {| raw_subtask := JString "draft"; raw_duration_minutes := JNumber (90 # 2) |}
  = Some {| subtask := "draft"; duration_minutes := 45 |}.
Proof.
  apply (proj1 (schema_accepts_exactly_integer_durations
                  {| raw_subtask := JString "draft";
                     raw_duration_minutes := JNumber (90 # 2) |}
                  {| subtask := "draft"; duration_minutes := 45 |} [] [])).
  split; [reflexivity |]. exists (90 # 2). split; reflexivity.
Defined.

(** A duration of 1.5 minutes, a label that is not a string, or one bad
    element in a list makes the schema reject. *)
Example schema_rejects :
  SubtaskSchema {| raw_subtask := JString "draft"; raw_duration_minutes := JNumber (3 # 2) |}
  = None
  /\ SubtaskSchema {| raw_subtask := JOther; raw_duration_minutes := JNumber 30 |} = None
  /\ SubtaskListSchema
       [rawSubtask "draft" 30;
        {| raw_subtask := JString "review"; raw_duration_minutes := JString "30" |}]
     = None.
Proof. repeat split. Qed.
